(** * Format plugins of Artifact Keeper: a shallow embedding in Rocq

    The three plugins (pypi-format, rpm-format, unity-format) are modelled
    after their Rust sources.  A Rust [String] is a sequence of Unicode
    scalar values, modelled as [rstring := list Z] of code points; a byte
    buffer [Vec<u8>] is a [list Z] of values in [0, 256).  Fallible Rust
    functions return [result]. *)

From Stdlib Require Import String Ascii ZArith List Bool Lia.
From Stdlib Require Import Permutation Sorting.Sorted.
Import ListNotations.
Open Scope Z_scope.

(** Rust's [Result<T, E>]. *)
Inductive result (A E : Type) : Type :=
| Ok : A -> result A E
| Err : E -> result A E.
Arguments Ok {A E} _.
Arguments Err {A E} _.

(** ** Strings *)

Definition rstring := list Z.

(** A source literal.  Rocq string literals cannot hold a double quote
    here, so a backquote in a literal stands for the double quote (code 34);
    no literal of the plugins contains a backquote. *)
Definition lit (s : string) : rstring :=
  map (fun a => let n := Z.of_nat (nat_of_ascii a) in if n =? 96 then 34 else n)
      (list_ascii_of_string s).

Definition c_slash : Z := 47.
Definition c_dot : Z := 46.
Definition c_dash : Z := 45.

Fixpoint zl_eqb (a b : list Z) : bool :=
  match a, b with
  | [], [] => true
  | x :: a', y :: b' => (x =? y) && zl_eqb a' b'
  | _, _ => false
  end.

(** [str::starts_with] / [str::strip_prefix] for a string pattern. *)
Fixpoint strip_prefix (p s : rstring) : option rstring :=
  match p, s with
  | [], _ => Some s
  | x :: p', y :: s' => if x =? y then strip_prefix p' s' else None
  | _ :: _, [] => None
  end.

Definition starts_with (p s : rstring) : bool :=
  match strip_prefix p s with Some _ => true | None => false end.

(** [str::strip_suffix] / [str::ends_with] for a string pattern. *)
Definition strip_suffix (suf s : rstring) : option rstring :=
  match strip_prefix (rev suf) (rev s) with
  | Some r => Some (rev r)
  | None => None
  end.

Definition ends_with (suf s : rstring) : bool :=
  match strip_suffix suf s with Some _ => true | None => false end.

Definition contains (c : Z) (s : rstring) : bool := existsb (Z.eqb c) s.

(** [str::split_once] for a character. *)
Fixpoint split_once (c : Z) (s : rstring) : option (rstring * rstring) :=
  match s with
  | [] => None
  | x :: s' =>
      if x =? c then Some ([], s')
      else match split_once c s' with
           | Some (a, b) => Some (x :: a, b)
           | None => None
           end
  end.

(** [str::rsplit_once] for a character: split at the last occurrence. *)
Definition rsplit_once (c : Z) (s : rstring) : option (rstring * rstring) :=
  match split_once c (rev s) with
  | Some (a, b) => Some (rev b, rev a)
  | None => None
  end.

(** [s.rsplit(c).next()]: the text after the last [c], or all of [s]
    (the iterator always yields at least one piece). *)
Definition rsplit_first (c : Z) (s : rstring) : rstring :=
  match rsplit_once c s with
  | Some (_, b) => b
  | None => s
  end.

(** [s.split(c)]: always at least one piece. *)
Fixpoint split (c : Z) (s : rstring) : list rstring :=
  match s with
  | [] => [[]]
  | x :: s' =>
      if x =? c then [] :: split c s'
      else match split c s' with
           | p :: ps => (x :: p) :: ps
           | [] => [[x]]
           end
  end.

(** [str::trim_end_matches] / [str::trim_matches] for a character. *)
Fixpoint trim_start_matches (c : Z) (s : rstring) : rstring :=
  match s with
  | x :: s' => if x =? c then trim_start_matches c s' else s
  | [] => []
  end.

Definition trim_end_matches (c : Z) (s : rstring) : rstring :=
  rev (trim_start_matches c (rev s)).

Definition trim_matches (c : Z) (s : rstring) : rstring :=
  trim_end_matches c (trim_start_matches c s).

Definition is_ascii_digit (c : Z) : bool := (48 <=? c) && (c <=? 57).
Definition is_ascii_lowercase (c : Z) : bool := (97 <=? c) && (c <=? 122).
Definition is_ascii_uppercase (c : Z) : bool := (65 <=? c) && (c <=? 90).
Definition is_ascii_alphabetic (c : Z) : bool :=
  is_ascii_lowercase c || is_ascii_uppercase c.
Definition is_ascii_alphanumeric (c : Z) : bool :=
  is_ascii_digit c || is_ascii_alphabetic c.
Definition is_ascii (c : Z) : bool := (0 <=? c) && (c <? 128).

(** ASCII case folding of one character ([char::to_ascii_lowercase]). *)
Definition ascii_lower (c : Z) : Z := if is_ascii_uppercase c then c + 32 else c.

(** Decimal rendering of an unsigned integer ([Display] for [u64]/[usize]). *)
Fixpoint digits_aux (fuel : nat) (n : Z) (acc : rstring) : rstring :=
  match fuel with
  | O => acc
  | S f => if n <? 10 then (48 + n) :: acc
           else digits_aux f (n / 10) ((48 + n mod 10) :: acc)
  end.
Definition show_Z (n : Z) : rstring := digits_aux (Z.to_nat (Z.log2 n) + 1) n [].

(** [String::into_bytes]: UTF-8 encoding of the code points. *)
Definition utf8_char (c : Z) : list Z :=
  if c <? 128 then [c]
  else if c <? 2048 then [192 + c / 64; 128 + c mod 64]
  else if c <? 65536 then [224 + c / 4096; 128 + (c / 64) mod 64; 128 + c mod 64]
  else [240 + c / 262144; 128 + (c / 4096) mod 64; 128 + (c / 64) mod 64;
        128 + c mod 64].
Definition into_bytes (s : rstring) : list Z := flat_map utf8_char s.

(** ** Little-endian integers *)

(** [uN::to_le_bytes] for an [n]-byte integer. *)
Fixpoint to_le_bytes (n : nat) (x : Z) : list Z :=
  match n with
  | O => []
  | S n' => Z.land x 255 :: to_le_bytes n' (Z.shiftr x 8)
  end.

(** [uN::from_le_bytes]. *)
Fixpoint from_le_bytes (bs : list Z) : Z :=
  match bs with
  | [] => 0
  | b :: bs' => b + 256 * from_le_bytes bs'
  end.

(** ** rpm-format: gzip framing ([gzip_compress], [crc32]) *)
Module Gzip.

(** One bit step of the reflected CRC-32 loop. *)
Definition crc_bit (crc : Z) : Z :=
  if negb (Z.land crc 1 =? 0) then Z.lxor (Z.shiftr crc 1) 0xEDB88320
  else Z.shiftr crc 1.

Definition crc_byte (crc : Z) (byte : Z) : Z :=
  Nat.iter 8 crc_bit (Z.lxor crc byte).

(** [fn crc32(data: &[u8]) -> u32]; [!crc] on a [u32] is [crc xor 0xFFFFFFFF]. *)
Definition crc32 (data : list Z) : Z :=
  Z.lxor (fold_left crc_byte data 0xFFFFFFFF) 0xFFFFFFFF.

(** [data.chunks(n)] for [n > 0]; [fuel] bounds the number of chunks. *)
Fixpoint chunks_aux (fuel : nat) (n : nat) (l : list Z) : list (list Z) :=
  match fuel with
  | O => []
  | S f =>
      match l with
      | [] => []
      | _ => firstn n l :: chunks_aux f n (skipn n l)
      end
  end.
Definition chunks (n : nat) (l : list Z) : list (list Z) := chunks_aux (length l) n l.

Definition gzip_header : list Z := [0x1f; 0x8b; 0x08; 0x00; 0; 0; 0; 0; 0x00; 0xff].

(** The loop [for (i, chunk) in chunks.iter().enumerate()], [n = chunks.len()]. *)
Fixpoint stored_blocks (i n : nat) (cs : list (list Z)) : list Z :=
  match cs with
  | [] => []
  | chunk :: cs' =>
      let is_last := Nat.eqb i (n - 1) in
      let len := Z.of_nat (length chunk) mod 2 ^ 16 in
      let nlen := Z.lxor len 0xFFFF in
      ((if is_last then 0x01 else 0x00) :: to_le_bytes 2 len ++ to_le_bytes 2 nlen
        ++ chunk) ++ stored_blocks (S i) n cs'
  end.

Definition gzip_compress (data : list Z) : result (list Z) rstring :=
  let cs := match data with [] => [[]] | _ => chunks 65535 data end in
  let crc := crc32 data in
  let size := Z.of_nat (length data) mod 2 ^ 32 in
  Ok (gzip_header ++ stored_blocks 0 (length cs) cs
        ++ to_le_bytes 4 crc ++ to_le_bytes 4 size).

(** A gzip (RFC 1952) / DEFLATE (RFC 1951) decoder, written from the RFCs,
    for single-member streams without optional header fields.  Of the block
    types it decodes stored blocks (BTYPE = 00) and rejects the others, so
    whenever it returns [Some out], a complete decoder returns [out] too.
    [fuel] bounds the number of blocks. *)
Fixpoint inflate (fuel : nat) (bs : list Z) : option (list Z * list Z) :=
  match fuel with
  | O => None
  | S f =>
      match bs with
      | hdr :: l0 :: l1 :: n0 :: n1 :: rest =>
          let bfinal := Z.testbit hdr 0 in
          let btype := Z.land (Z.shiftr hdr 1) 3 in
          let len := from_le_bytes [l0; l1] in
          let nlen := from_le_bytes [n0; n1] in
          if negb (btype =? 0) then None
          else if negb (nlen =? Z.lxor len 0xFFFF) then None
          else if Nat.ltb (length rest) (Z.to_nat len) then None
          else
            let blk := firstn (Z.to_nat len) rest in
            let rest' := skipn (Z.to_nat len) rest in
            if bfinal then Some (blk, rest')
            else match inflate f rest' with
                 | Some (out, tl) => Some (blk ++ out, tl)
                 | None => None
                 end
      | _ => None
      end
  end.

Definition gunzip (bs : list Z) : option (list Z) :=
  match bs with
  | id1 :: id2 :: cm :: flg :: _ :: _ :: _ :: _ :: _ :: _ :: body =>
      if (id1 =? 0x1f) && (id2 =? 0x8b) && (cm =? 8) && (flg =? 0) then
        match inflate (length body) body with
        | Some (out, [c0; c1; c2; c3; s0; s1; s2; s3]) =>
            if (from_le_bytes [c0; c1; c2; c3] =? crc32 out)
               && (from_le_bytes [s0; s1; s2; s3] =? Z.of_nat (length out) mod 2 ^ 32)
            then Some out else None
        | _ => None
        end
      else None
  | _ => None
  end.

End Gzip.

(** ** Shared records of the plugin interface (format-plugin.wit) *)

(** [size_bytes] is a [u64]; [data.len() as u64] is lossless on every
    target, so it is [Z.of_nat (length data)]. *)
Record Metadata := mkMetadata {
  path : rstring;
  version : option rstring;
  content_type : rstring;
  size_bytes : Z;
  checksum_sha256 : option rstring
}.

(** The request fields read by the handlers. *)
Record HttpRequest := mkHttpRequest { method : rstring; req_path : rstring }.
Record RepoContext := mkRepoContext { base_url : rstring; download_base_url : rstring }.
Record HttpResponse := mkHttpResponse {
  status : Z;
  headers : list (rstring * rstring);
  body : list Z
}.

Definition nl : rstring := [10].

(** Two lowercase hex digits ([{:02x}] of a [u8]). *)
Definition hex_digit (n : Z) : Z := if n <? 10 then 48 + n else 87 + n.
Definition hex2 (b : Z) : rstring := [hex_digit (b / 16); hex_digit (b mod 16)].

(** ** serde_json (default features: [Map] is a [BTreeMap], keys sorted) *)
Module Json.

#[local] Set Warnings "-register-all".
Inductive Value :=
| Null
| Bool (b : bool)
| Number (n : Z)
| String (s : rstring)
| Array (vs : list Value)
| Object (kvs : list (rstring * Value)).

(** [String]'s [Ord]: lexicographic (UTF-8 byte order is code point order). *)
Fixpoint str_ltb (a b : rstring) : bool :=
  match a, b with
  | [], [] => false
  | [], _ :: _ => true
  | _ :: _, [] => false
  | x :: a', y :: b' => (x <? y) || ((x =? y) && str_ltb a' b')
  end.

(** [Map::insert] into the sorted association list of a [BTreeMap]. *)
Fixpoint map_insert (k : rstring) (v : Value) (m : list (rstring * Value))
  : list (rstring * Value) :=
  match m with
  | [] => [(k, v)]
  | (k', v') :: m' =>
      if zl_eqb k k' then (k, v) :: m'
      else if str_ltb k k' then (k, v) :: m
      else (k', v') :: map_insert k v m'
  end.

(** An object built by successive inserts ([Map::new] then [insert], or the
    [json!] macro). *)
Definition object (kvs : list (rstring * Value)) : Value :=
  Object (fold_left (fun m kv => map_insert (fst kv) (snd kv) m) kvs []).

(** String escaping of serde_json's serializer. *)
Definition escape_char (c : Z) : rstring :=
  if c =? 34 then [92; 34]
  else if c =? 92 then [92; 92]
  else if c =? 8 then [92; 98]
  else if c =? 12 then [92; 102]
  else if c =? 10 then [92; 110]
  else if c =? 13 then [92; 114]
  else if c =? 9 then [92; 116]
  else if c <? 32 then [92; 117; 48; 48] ++ hex2 c
  else [c].

Definition quote (s : rstring) : rstring := [34] ++ flat_map escape_char s ++ [34].

Fixpoint indent (n : nat) : rstring :=
  match n with O => [] | S n' => [32; 32] ++ indent n' end.

(** [PrettyFormatter] with its default two-space indent. *)
Fixpoint pretty (lvl : nat) (v : Value) : rstring :=
  match v with
  | Null => lit "null"
  | Bool true => lit "true"
  | Bool false => lit "false"
  | Number n => show_Z n
  | String s => quote s
  | Array [] => lit "[]"
  | Array vs =>
      let fix items (first : bool) (vs : list Value) : rstring :=
        match vs with
        | [] => []
        | x :: vs' =>
            (if first then nl else lit "," ++ nl) ++ indent (S lvl) ++ pretty (S lvl) x
              ++ items false vs'
        end in
      lit "[" ++ items true vs ++ nl ++ indent lvl ++ lit "]"
  | Object [] => lit "{}"
  | Object kvs =>
      let fix members (first : bool) (kvs : list (rstring * Value)) : rstring :=
        match kvs with
        | [] => []
        | (k, x) :: kvs' =>
            (if first then nl else lit "," ++ nl) ++ indent (S lvl) ++ quote k
              ++ lit ": " ++ pretty (S lvl) x ++ members false kvs'
        end in
      lit "{" ++ members true kvs ++ nl ++ indent lvl ++ lit "}"
  end.

(** [serde_json::to_vec_pretty]: serializing a [Value] cannot fail. *)
Definition to_vec_pretty (v : Value) : result (list Z) rstring :=
  Ok (into_bytes (pretty 0 v)).

End Json.

(** [iter().map(|a| a.size_bytes).sum::<u64>()] (release build: wrapping). *)
Definition total_size (artifacts : list Metadata) : Z :=
  fold_left (fun acc a => (acc + size_bytes a) mod 2 ^ 64) artifacts 0.

(** [artifacts.iter().find(|a| a.path.rsplit('/').next().unwrap_or(&a.path) == filename)] *)
Definition find_by_filename (filename : rstring) (artifacts : list Metadata)
  : option Metadata :=
  find (fun a => zl_eqb (rsplit_first c_slash (path a)) filename) artifacts.

(** [handle_package_download], identical in pypi-format and rpm-format. *)
Definition handle_package_download (filename : rstring) (context : RepoContext)
  (artifacts : list Metadata) : result HttpResponse rstring :=
  match find_by_filename filename artifacts with
  | Some a =>
      let download_url := download_base_url context ++ lit "/" ++ path a in
      Ok (mkHttpResponse 302 [(lit "location", download_url)] [])
  | None =>
      Ok (mkHttpResponse 404 [(lit "content-type", lit "text/plain")]
            (into_bytes (lit "Package '" ++ filename ++ lit "' not found")))
  end.

(** [Option<String>::unwrap_or]. *)
Definition unwrap_or (o : option rstring) (d : rstring) : rstring :=
  match o with Some s => s | None => d end.

Definition method_not_allowed : HttpResponse :=
  mkHttpResponse 405 [(lit "allow", lit "GET, HEAD")] (into_bytes (lit "Method Not Allowed")).

Definition not_found : HttpResponse :=
  mkHttpResponse 404 [(lit "content-type", lit "text/plain")] (into_bytes (lit "Not Found")).

(** The [version] field of [Metadata], under a name that the modules'
    own [version] fields do not shadow. *)
Abbreviation metadata_version := version (only parsing).

(** ** rpm-format *)
Module Rpm.

Definition RPM_MAGIC : list Z := [0xed; 0xab; 0xee; 0xdb].
Definition RPM_LEAD_SIZE : nat := 96.

Record RpmFileInfo := mkRpmFileInfo {
  name : option rstring;
  version : option rstring;
  release : option rstring;
  arch : option rstring
}.

(** [parse_rpm_filename]: right-to-left split of [name-version-release.arch.rpm]. *)
Definition parse_rpm_filename (filename : rstring) : RpmFileInfo :=
  match strip_suffix (lit ".rpm") filename with
  | None => mkRpmFileInfo None None None None
  | Some stem =>
      let '(before_arch, arch) :=
        match rsplit_once c_dot stem with
        | Some (b, a) => (b, Some a)
        | None => (stem, None)
        end in
      let '(before_release, release) :=
        match rsplit_once c_dash before_arch with
        | Some (b, r) => (b, Some r)
        | None => (before_arch, None)
        end in
      let '(name, version) :=
        match rsplit_once c_dash before_release with
        | Some (n, v) => (Some n, Some v)
        | None => (Some before_release, None)
        end in
      mkRpmFileInfo name version release arch
  end.

(** [extract_version_from_rpm_filename]; [path.rsplit('/').next()] is never [None]. *)
Definition extract_version_from_rpm_filename (p : rstring) : option rstring :=
  let filename := rsplit_first c_slash p in
  let info := parse_rpm_filename filename in
  match version info, release info with
  | Some ver, Some rel => Some (ver ++ lit "-" ++ rel)
  | Some ver, None => Some ver
  | _, _ => None
  end.

Definition parse_metadata (p : rstring) (data : list Z) : result Metadata rstring :=
  match data with
  | [] => Err (lit "Empty file")
  | _ =>
      let has_rpm_magic := Nat.leb 4 (length data) && zl_eqb (firstn 4 data) RPM_MAGIC in
      let ct := if has_rpm_magic then lit "application/x-rpm"
                else lit "application/octet-stream" in
      let v := extract_version_from_rpm_filename p in
      Ok (mkMetadata p v ct (Z.of_nat (length data)) None)
  end.

Section WithLowercase.
(** Rust's [str::to_lowercase] (full Unicode case mapping, with its
    context-dependent rules); its tables are not reproduced here. *)
Variable to_lowercase : rstring -> rstring.

Definition validate (p : rstring) (data : list Z) : result unit rstring :=
  if Nat.eqb (length data) 0 then Err (lit "RPM package cannot be empty")
  else if Nat.eqb (length p) 0 then Err (lit "Artifact path cannot be empty")
  else if negb (ends_with (lit ".rpm") (to_lowercase p)) then
    Err (lit "Expected .rpm extension, got: " ++ rsplit_first c_slash p)
  else if Nat.ltb (length data) RPM_LEAD_SIZE then
    Err (lit "File too small for RPM lead: " ++ show_Z (Z.of_nat (length data))
         ++ lit " bytes (minimum " ++ show_Z (Z.of_nat RPM_LEAD_SIZE) ++ lit ")")
  else if negb (zl_eqb (firstn 4 data) RPM_MAGIC) then
    Err (lit "Invalid RPM magic: expected [ed, ab, ee, db], got ["
         ++ hex2 (nth 0 data 0) ++ lit ", " ++ hex2 (nth 1 data 0) ++ lit ", "
         ++ hex2 (nth 2 data 0) ++ lit ", " ++ hex2 (nth 3 data 0) ++ lit "]")
  else Ok tt.

End WithLowercase.

Definition index_entry (a : Metadata) : Json.Value :=
  let filename := rsplit_first c_slash (path a) in
  let info := parse_rpm_filename filename in
  Json.object
    ([(lit "path", Json.String (path a))]
     ++ match metadata_version a with Some v => [(lit "version", Json.String v)] | None => [] end
     ++ match name info with Some n => [(lit "name", Json.String n)] | None => [] end
     ++ match arch info with Some r => [(lit "arch", Json.String r)] | None => [] end
     ++ match release info with Some r => [(lit "release", Json.String r)] | None => [] end
     ++ [(lit "size_bytes", Json.Number (size_bytes a))]).

Definition generate_index (artifacts : list Metadata)
  : result (option (list (rstring * list Z))) rstring :=
  match artifacts with
  | [] => Ok None
  | _ =>
      let entries := map index_entry artifacts in
      let index := Json.object
        [(lit "format", Json.String (lit "rpm-custom"));
         (lit "total_count", Json.Number (Z.of_nat (length artifacts)));
         (lit "total_size_bytes", Json.Number (total_size artifacts));
         (lit "packages", Json.Array entries)] in
      match Json.to_vec_pretty index with
      | Err e => Err (lit "Failed to serialize index: " ++ e)
      | Ok json_bytes => Ok (Some [(lit "rpm-index.json", json_bytes)])
      end
  end.

(** [xml_escape]: five successive [str::replace] passes. *)
Definition replace_char (c : Z) (rep : rstring) (s : rstring) : rstring :=
  flat_map (fun x => if x =? c then rep else [x]) s.

Definition xml_escape (s : rstring) : rstring :=
  replace_char 39 (lit "&apos;")
    (replace_char 34 (lit "&quot;")
      (replace_char 62 (lit "&gt;")
        (replace_char 60 (lit "&lt;")
          (replace_char 38 (lit "&amp;") s)))).

Definition xml_decl : rstring := lit "<?xml version=`1.0` encoding=`UTF-8`?>".

Definition repomd_xml : rstring :=
  xml_decl ++ nl
  ++ lit "<repomd xmlns=`http://linux.duke.edu/metadata/repo` xmlns:rpm=`http://linux.duke.edu/metadata/rpm`>" ++ nl
  ++ lit "  <revision>1</revision>" ++ nl
  ++ lit "  <data type=`primary`>" ++ nl
  ++ lit "    <location href=`repodata/primary.xml.gz`/>" ++ nl
  ++ lit "  </data>" ++ nl
  ++ lit "  <data type=`filelists`>" ++ nl
  ++ lit "    <location href=`repodata/filelists.xml.gz`/>" ++ nl
  ++ lit "  </data>" ++ nl
  ++ lit "  <data type=`other`>" ++ nl
  ++ lit "    <location href=`repodata/other.xml.gz`/>" ++ nl
  ++ lit "  </data>" ++ nl
  ++ lit "</repomd>" ++ nl.

Definition handle_repomd_xml (_context : RepoContext) (_artifacts : list Metadata)
  : result HttpResponse rstring :=
  Ok (mkHttpResponse 200 [(lit "content-type", lit "application/xml")]
        (into_bytes repomd_xml)).

(** The [<package>] element written for one artifact. *)
Definition primary_package (artifact : Metadata) : rstring :=
  let filename := rsplit_first c_slash (path artifact) in
  let info := parse_rpm_filename filename in
  let name := unwrap_or (name info) (lit "unknown") in
  let version := unwrap_or (version info) (lit "0") in
  let release := unwrap_or (release info) (lit "0") in
  let arch := unwrap_or (arch info) (lit "x86_64") in
  lit "  <package type=`rpm`>" ++ nl
  ++ lit "    <name>" ++ xml_escape name ++ lit "</name>" ++ nl
  ++ lit "    <arch>" ++ xml_escape arch ++ lit "</arch>" ++ nl
  ++ lit "    <version epoch=`0` ver=`" ++ xml_escape version ++ lit "` rel=`"
     ++ xml_escape release ++ lit "`/>" ++ nl
  ++ lit "    <checksum type=`sha256` pkgid=`YES`>"
     ++ unwrap_or (checksum_sha256 artifact) [] ++ lit "</checksum>" ++ nl
  ++ lit "    <summary/>" ++ nl
  ++ lit "    <description/>" ++ nl
  ++ lit "    <packager/>" ++ nl
  ++ lit "    <url/>" ++ nl
  ++ lit "    <size package=`" ++ show_Z (size_bytes artifact)
     ++ lit "` installed=`0` archive=`0`/>" ++ nl
  ++ lit "    <location href=`packages/" ++ xml_escape filename ++ lit "`/>" ++ nl
  ++ lit "    <format>" ++ nl
  ++ lit "      <rpm:provides>" ++ nl
     ++ lit "        <rpm:entry name=`" ++ xml_escape name
     ++ lit "` flags=`EQ` epoch=`0` ver=`" ++ xml_escape version
     ++ lit "` rel=`" ++ xml_escape release ++ lit "`/>" ++ nl
     ++ lit "      </rpm:provides>" ++ nl
  ++ lit "    </format>" ++ nl
  ++ lit "  </package>" ++ nl.

Definition gzip_response (xml : rstring) : result HttpResponse rstring :=
  match Gzip.gzip_compress (into_bytes xml) with
  | Err e => Err e
  | Ok compressed =>
      Ok (mkHttpResponse 200 [(lit "content-type", lit "application/gzip")] compressed)
  end.

Definition handle_primary_xml_gz (_context : RepoContext) (artifacts : list Metadata)
  : result HttpResponse rstring :=
  let xml :=
    xml_decl ++ nl
    ++ lit "<metadata xmlns=`http://linux.duke.edu/metadata/common` xmlns:rpm=`http://linux.duke.edu/metadata/rpm` packages=`"
    ++ show_Z (Z.of_nat (length artifacts)) ++ lit "`>" ++ nl
    ++ flat_map primary_package artifacts
    ++ lit "</metadata>" ++ nl in
  gzip_response xml.

Definition handle_filelists_xml_gz : result HttpResponse rstring :=
  gzip_response
    (xml_decl ++ nl
     ++ lit "<filelists xmlns=`http://linux.duke.edu/metadata/filelists` packages=`0`>" ++ nl
     ++ lit "</filelists>" ++ nl).

Definition handle_other_xml_gz : result HttpResponse rstring :=
  gzip_response
    (xml_decl ++ nl
     ++ lit "<otherdata xmlns=`http://linux.duke.edu/metadata/other` packages=`0`>" ++ nl
     ++ lit "</otherdata>" ++ nl).

(** [RequestHandlerGuest::handle_request] of rpm-format. *)
Definition handle_request (request : HttpRequest) (context : RepoContext)
  (artifacts : list Metadata) : result HttpResponse rstring :=
  let p := req_path request in
  if negb (zl_eqb (method request) (lit "GET")) && negb (zl_eqb (method request) (lit "HEAD"))
  then Ok method_not_allowed
  else
    let trimmed := trim_end_matches c_slash p in
    if zl_eqb trimmed (lit "/repodata/repomd.xml") then handle_repomd_xml context artifacts
    else if zl_eqb trimmed (lit "/repodata/primary.xml.gz") then
      handle_primary_xml_gz context artifacts
    else if zl_eqb trimmed (lit "/repodata/filelists.xml.gz") then handle_filelists_xml_gz
    else if zl_eqb trimmed (lit "/repodata/other.xml.gz") then handle_other_xml_gz
    else
      let pkg := match strip_prefix (lit "/packages/") trimmed with
                 | Some f => Some f
                 | None => strip_prefix (lit "/Packages/") trimmed
                 end in
      match pkg with
      | Some filename =>
          if negb (contains c_slash filename) && negb (Nat.eqb (length filename) 0)
          then handle_package_download filename context artifacts
          else Ok not_found
      | None => Ok not_found
      end.

End Rpm.

(** ** Sorting as [Vec<String>::sort] and [dedup] do it.  Any correct sort
    yields the same vector under a total order, so an insertion sort stands
    for Rust's merge sort. *)
Fixpoint insert_sorted (x : rstring) (l : list rstring) : list rstring :=
  match l with
  | [] => [x]
  | y :: l' => if Json.str_ltb y x then y :: insert_sorted x l' else x :: l
  end.

Definition sort (l : list rstring) : list rstring := fold_right insert_sorted [] l.

Fixpoint dedup (l : list rstring) : list rstring :=
  match l with
  | x :: ((y :: _) as l') => if zl_eqb x y then dedup l' else x :: dedup l'
  | _ => l
  end.

(** ** pypi-format *)
Module Pypi.

(** [extract_package_name]; [split('-').next()] is never [None]. *)
Definition extract_package_name (filename : rstring) : option rstring :=
  match strip_suffix (lit ".whl") filename with
  | Some stem => Some (hd [] (split c_dash stem))
  | None =>
      match strip_suffix (lit ".tar.gz") filename with
      | Some stem => option_map fst (rsplit_once c_dash stem)
      | None =>
          match strip_suffix (lit ".zip") filename with
          | Some stem => option_map fst (rsplit_once c_dash stem)
          | None => None
          end
      end
  end.

Definition extract_version (filename : rstring) : option rstring :=
  match strip_suffix (lit ".whl") filename with
  | Some stem =>
      let parts := split c_dash stem in
      if Nat.leb 2 (length parts) then Some (nth 1 parts []) else None
  | None =>
      match strip_suffix (lit ".tar.gz") filename with
      | Some stem => option_map snd (rsplit_once c_dash stem)
      | None =>
          match strip_suffix (lit ".zip") filename with
          | Some stem => option_map snd (rsplit_once c_dash stem)
          | None => None
          end
      end
  end.

Definition parse_metadata (p : rstring) (data : list Z) : result Metadata rstring :=
  match data with
  | [] => Err (lit "Empty file")
  | _ =>
      let filename := rsplit_first c_slash p in
      let v := extract_version filename in
      let ct :=
        if ends_with (lit ".whl") filename || ends_with (lit ".zip") filename
        then lit "application/zip"
        else if ends_with (lit ".tar.gz") filename then lit "application/gzip"
        else lit "application/octet-stream" in
      Ok (mkMetadata p v ct (Z.of_nat (length data)) None)
  end.

Section WithLowercase.
(** Rust's [str::to_lowercase] (full Unicode case mapping). *)
Variable to_lowercase : rstring -> rstring.

(** The character loop of [normalize_package_name]. *)
Fixpoint collapse (prev_was_separator : bool) (cs : rstring) : rstring :=
  match cs with
  | [] => []
  | ch :: cs' =>
      if is_ascii_alphanumeric ch then ch :: collapse false cs'
      else if negb prev_was_separator then c_dash :: collapse true cs'
      else collapse prev_was_separator cs'
  end.

Definition normalize_package_name (name : rstring) : rstring :=
  trim_matches c_dash (collapse false (to_lowercase name)).

Definition validate (p : rstring) (data : list Z) : result unit rstring :=
  if Nat.eqb (length data) 0 then Err (lit "Python package cannot be empty")
  else if Nat.eqb (length p) 0 then Err (lit "Artifact path cannot be empty")
  else
    let filename := rsplit_first c_slash p in
    let lower := to_lowercase filename in
    if negb (ends_with (lit ".whl") lower) && negb (ends_with (lit ".tar.gz") lower)
       && negb (ends_with (lit ".zip") lower) then
      Err (lit "Expected .whl, .tar.gz, or .zip extension, got: " ++ filename)
    else
      let wheel_check :=
        match strip_suffix (lit ".whl") lower with
        | Some stem =>
            let parts := split c_dash stem in
            if Nat.ltb (length parts) 5 then
              Some (lit "Invalid wheel filename: expected at least 5 dash-separated parts (name-version-python-abi-platform), got "
                    ++ show_Z (Z.of_nat (length parts)) ++ lit " in '" ++ filename ++ lit "'")
            else None
        | None => None
        end in
      match wheel_check with
      | Some e => Err e
      | None =>
          let sdist_stem :=
            match strip_suffix (lit ".tar.gz") lower with
            | Some s => Some s
            | None => strip_suffix (lit ".zip") lower
            end in
          match sdist_stem with
          | Some stem =>
              if negb (contains c_dash stem) then
                Err (lit "Invalid source distribution filename: expected 'name-version' format, got '"
                     ++ stem ++ lit "'")
              else Ok tt
          | None => Ok tt
          end
      end.

(** The sorted, deduplicated normalized names of the artifacts. *)
Definition package_names (artifacts : list Metadata) : list rstring :=
  dedup (sort (flat_map (fun a =>
    match extract_package_name (rsplit_first c_slash (path a)) with
    | Some n => [normalize_package_name n]
    | None => []
    end) artifacts)).

Definition html_head (title : rstring) : rstring :=
  lit "<!DOCTYPE html>" ++ nl ++ lit "<html>" ++ nl ++ lit "<head><title>" ++ title
  ++ lit "</title></head>" ++ nl ++ lit "<body>" ++ nl.

Definition html_tail : rstring := lit "</body>" ++ nl ++ lit "</html>" ++ nl.

Definition simple_index_html (packages : list rstring) : rstring :=
  html_head (lit "Simple Index")
  ++ flat_map (fun pkg => lit "  <a href=`/simple/" ++ pkg ++ lit "/`>" ++ pkg ++ lit "</a>" ++ nl)
       packages
  ++ html_tail.

Definition index_entry (a : Metadata) : Json.Value :=
  let filename := rsplit_first c_slash (path a) in
  let name := match extract_package_name filename with
              | Some n => normalize_package_name n
              | None => []
              end in
  Json.object
    ([(lit "path", Json.String (path a)); (lit "name", Json.String name)]
     ++ match metadata_version a with Some v => [(lit "version", Json.String v)] | None => [] end
     ++ [(lit "content_type", Json.String (content_type a));
         (lit "size_bytes", Json.Number (size_bytes a))]).

Definition generate_index (artifacts : list Metadata)
  : result (option (list (rstring * list Z))) rstring :=
  match artifacts with
  | [] => Ok None
  | _ =>
      let html := simple_index_html (package_names artifacts) in
      let entries := map index_entry artifacts in
      let json_index := Json.object
        [(lit "format", Json.String (lit "pypi-custom"));
         (lit "total_count", Json.Number (Z.of_nat (length artifacts)));
         (lit "total_size_bytes", Json.Number (total_size artifacts));
         (lit "packages", Json.Array entries)] in
      match Json.to_vec_pretty json_index with
      | Err e => Err (lit "Failed to serialize index: " ++ e)
      | Ok json_bytes =>
          Ok (Some [(lit "simple/index.html", into_bytes html);
                    (lit "pypi-index.json", json_bytes)])
      end
  end.

Definition handle_simple_root (context : RepoContext) (artifacts : list Metadata)
  : result HttpResponse rstring :=
  let html :=
    html_head (lit "Simple Index")
    ++ flat_map (fun pkg => lit "  <a href=`" ++ base_url context ++ lit "/simple/" ++ pkg
                            ++ lit "/`>" ++ pkg ++ lit "</a>" ++ nl)
         (package_names artifacts)
    ++ html_tail in
  Ok (mkHttpResponse 200 [(lit "content-type", lit "text/html")] (into_bytes html)).

Definition handle_simple_project (project : rstring) (context : RepoContext)
  (artifacts : list Metadata) : result HttpResponse rstring :=
  let normalized_project := normalize_package_name project in
  let matching := filter (fun a =>
    match extract_package_name (rsplit_first c_slash (path a)) with
    | Some n => zl_eqb (normalize_package_name n) normalized_project
    | None => false
    end) artifacts in
  match matching with
  | [] =>
      Ok (mkHttpResponse 404 [(lit "content-type", lit "text/plain")]
            (into_bytes (lit "Project '" ++ project ++ lit "' not found")))
  | _ =>
      let link (artifact : Metadata) : rstring :=
        let filename := rsplit_first c_slash (path artifact) in
        let hash_fragment := match checksum_sha256 artifact with
                             | Some sha =>
                                 if negb (Nat.eqb (length sha) 0)
                                 then lit "#sha256=" ++ sha else []
                             | None => []
                             end in
        lit "  <a href=`" ++ base_url context ++ lit "/packages/" ++ filename ++ hash_fragment
        ++ lit "`>" ++ filename ++ lit "</a>" ++ nl in
      let html :=
        html_head (lit "Links for " ++ normalized_project)
        ++ lit "<h1>Links for " ++ normalized_project ++ lit "</h1>" ++ nl
        ++ flat_map link matching
        ++ html_tail in
      Ok (mkHttpResponse 200 [(lit "content-type", lit "text/html")] (into_bytes html))
  end.

(** [RequestHandlerGuest::handle_request] of pypi-format. *)
Definition handle_request (request : HttpRequest) (context : RepoContext)
  (artifacts : list Metadata) : result HttpResponse rstring :=
  let p := req_path request in
  if negb (zl_eqb (method request) (lit "GET")) && negb (zl_eqb (method request) (lit "HEAD"))
  then Ok method_not_allowed
  else if zl_eqb p (lit "/simple/") || zl_eqb p (lit "/simple") || zl_eqb p (lit "/")
  then handle_simple_root context artifacts
  else
    let trimmed := trim_end_matches c_slash p in
    let project_route :=
      match strip_prefix (lit "/simple/") trimmed with
      | Some project =>
          if negb (contains c_slash project) && negb (Nat.eqb (length project) 0)
          then Some (handle_simple_project project context artifacts)
          else None
      | None => None
      end in
    match project_route with
    | Some r => r
    | None =>
        match strip_prefix (lit "/packages/") trimmed with
        | Some filename =>
            if negb (contains c_slash filename) && negb (Nat.eqb (length filename) 0)
            then handle_package_download filename context artifacts
            else Ok not_found
        | None => Ok not_found
        end
    end.

End WithLowercase.
End Pypi.

(** ** unity-format *)
Module Unity.

Definition starts_with_digit (s : rstring) : bool :=
  match s with c :: _ => is_ascii_digit c | [] => false end.

Definition is_semver_like (s0 : rstring) : bool :=
  let s := match strip_prefix (lit "v") s0 with Some r => r | None => s0 end in
  if negb (starts_with_digit s) || negb (contains c_dot s) then false
  else forallb (fun c => is_ascii_digit c || (c =? c_dot) || (c =? c_dash)
                         || is_ascii_alphabetic c) s.

(** The suffixes [&stem[i + 1..]] for the matches [i] of ['-'], left to right. *)
Fixpoint hyphen_tails (s : rstring) : list rstring :=
  match s with
  | [] => []
  | x :: s' => if x =? c_dash then s' :: hyphen_tails s' else hyphen_tails s'
  end.

Definition extract_version_from_path (p : rstring) : option rstring :=
  match find is_semver_like (rev (split c_slash p)) with
  | Some part => Some part
  | None =>
      let filename := rsplit_first c_slash p in
      let stem := match strip_suffix (lit ".unitypackage") filename with
                  | Some s => Some s
                  | None => option_map fst (rsplit_once c_dot filename)
                  end in
      match stem with
      | None => None
      | Some stem =>
          find (fun candidate => starts_with_digit candidate && is_semver_like candidate)
               (hyphen_tails stem)
      end
  end.

Definition parse_metadata (p : rstring) (data : list Z) : result Metadata rstring :=
  match data with
  | [] => Err (lit "Empty file")
  | _ =>
      let v := extract_version_from_path p in
      let is_gzip := Nat.leb 2 (length data) && (nth 0 data 0 =? 0x1f)
                     && (nth 1 data 0 =? 0x8b) in
      let ct := if is_gzip then lit "application/gzip" else lit "application/octet-stream" in
      Ok (mkMetadata p v ct (Z.of_nat (length data)) None)
  end.

Section WithLowercase.
(** Rust's [str::to_lowercase] (full Unicode case mapping). *)
Variable to_lowercase : rstring -> rstring.

Definition validate (p : rstring) (data : list Z) : result unit rstring :=
  if Nat.eqb (length data) 0 then Err (lit "Unity package cannot be empty")
  else if Nat.eqb (length p) 0 then Err (lit "Artifact path cannot be empty")
  else if negb (ends_with (lit ".unitypackage") (to_lowercase p)) then
    Err (lit "Expected .unitypackage extension, got: " ++ rsplit_first c_slash p)
  else if Nat.ltb (length data) 2 then
    Err (lit "File too small to be a valid gzip archive")
  else if negb (nth 0 data 0 =? 0x1f) || negb (nth 1 data 0 =? 0x8b) then
    Err (lit "Invalid gzip header: expected [1f, 8b], got [" ++ hex2 (nth 0 data 0)
         ++ lit ", " ++ hex2 (nth 1 data 0) ++ lit "]")
  else if Nat.leb 3 (length data) && negb (nth 2 data 0 =? 0x08) then
    Err (lit "Unsupported gzip compression method: " ++ hex2 (nth 2 data 0)
         ++ lit " (expected 08/deflate)")
  else Ok tt.

End WithLowercase.

Definition index_entry (a : Metadata) : Json.Value :=
  Json.object
    ([(lit "path", Json.String (path a))]
     ++ match metadata_version a with Some v => [(lit "version", Json.String v)] | None => [] end
     ++ [(lit "size_bytes", Json.Number (size_bytes a));
         (lit "content_type", Json.String (content_type a))]).

Definition generate_index (artifacts : list Metadata)
  : result (option (list (rstring * list Z))) rstring :=
  match artifacts with
  | [] => Ok None
  | _ =>
      let entries := map index_entry artifacts in
      let index := Json.object
        [(lit "format", Json.String (lit "unity"));
         (lit "total_count", Json.Number (Z.of_nat (length artifacts)));
         (lit "total_size_bytes", Json.Number (total_size artifacts));
         (lit "packages", Json.Array entries)] in
      match Json.to_vec_pretty index with
      | Err e => Err (lit "Failed to serialize index: " ++ e)
      | Ok json_bytes => Ok (Some [(lit "unity-index.json", json_bytes)])
      end
  end.

End Unity.

(** ** Shapes of normalized names (spec side, for C6) *)

(** A character a normalized name may hold: lowercase ASCII letter,
    ASCII digit or ['-']. *)
Definition canonical_char (c : Z) : bool :=
  is_ascii_lowercase c || is_ascii_digit c || (c =? c_dash).

Definition no_double_dash (r : rstring) : Prop :=
  forall l1 l2, r <> l1 ++ c_dash :: c_dash :: l2.
Definition no_leading (c : Z) (r : rstring) : Prop := forall t, r <> c :: t.
Definition no_trailing (c : Z) (r : rstring) : Prop := forall t, r <> t ++ [c].

(** Lowercase alphanumerics separated by single internal hyphens. *)
Definition canonical_name (r : rstring) : Prop :=
  Forall (fun c => canonical_char c = true) r /\ no_double_dash r
  /\ no_leading c_dash r /\ no_trailing c_dash r.

Fixpoint no_double_dash_b (r : rstring) : bool :=
  match r with
  | x :: ((y :: _) as r') => negb ((x =? c_dash) && (y =? c_dash)) && no_double_dash_b r'
  | _ => true
  end.

(** ** Phases of artifact validation *)

(** The check categories, in the order of precedence they are meant to have. *)
Inductive Phase := PEmptyData | PEmptyPath | PExtension | PSizeMagic | PNameStructure.

Definition phase_rank (ph : Phase) : nat :=
  match ph with
  | PEmptyData => 0 | PEmptyPath => 1 | PExtension => 2
  | PSizeMagic => 3 | PNameStructure => 4
  end.

(** A list of checks, each tagged with its phase: [Some e] is a failing check. *)
Definition Checks := list (Phase * option rstring).

(** Report the first failing check, [Ok] when none fails. *)
Fixpoint first_error (checks : Checks) : result unit rstring :=
  match checks with
  | [] => Ok tt
  | (_, Some e) :: _ => Err e
  | (_, None) :: rest => first_error rest
  end.

Fixpoint phases_in_order (phs : list Phase) : bool :=
  match phs with
  | a :: ((b :: _) as rest) => Nat.leb (phase_rank a) (phase_rank b) && phases_in_order rest
  | _ => true
  end.

Definition check (cond : bool) (e : rstring) : option rstring :=
  if cond then Some e else None.

(** The checks of RPM validation, one per test of [validate]. *)
Definition rpm_validate_checks (to_lowercase : rstring -> rstring) (p : rstring)
  (data : list Z) : Checks :=
  [(PEmptyData, check (Nat.eqb (length data) 0) (lit "RPM package cannot be empty"));
   (PEmptyPath, check (Nat.eqb (length p) 0) (lit "Artifact path cannot be empty"));
   (PExtension, check (negb (ends_with (lit ".rpm") (to_lowercase p)))
      (lit "Expected .rpm extension, got: " ++ rsplit_first c_slash p));
   (PSizeMagic, check (Nat.ltb (length data) Rpm.RPM_LEAD_SIZE)
      (lit "File too small for RPM lead: " ++ show_Z (Z.of_nat (length data))
       ++ lit " bytes (minimum " ++ show_Z (Z.of_nat Rpm.RPM_LEAD_SIZE) ++ lit ")"));
   (PSizeMagic, check (negb (zl_eqb (firstn 4 data) Rpm.RPM_MAGIC))
      (lit "Invalid RPM magic: expected [ed, ab, ee, db], got ["
       ++ hex2 (nth 0 data 0) ++ lit ", " ++ hex2 (nth 1 data 0) ++ lit ", "
       ++ hex2 (nth 2 data 0) ++ lit ", " ++ hex2 (nth 3 data 0) ++ lit "]"))].

(** The checks of Unity validation. *)
Definition unity_validate_checks (to_lowercase : rstring -> rstring) (p : rstring)
  (data : list Z) : Checks :=
  [(PEmptyData, check (Nat.eqb (length data) 0) (lit "Unity package cannot be empty"));
   (PEmptyPath, check (Nat.eqb (length p) 0) (lit "Artifact path cannot be empty"));
   (PExtension, check (negb (ends_with (lit ".unitypackage") (to_lowercase p)))
      (lit "Expected .unitypackage extension, got: " ++ rsplit_first c_slash p));
   (PSizeMagic, check (Nat.ltb (length data) 2)
      (lit "File too small to be a valid gzip archive"));
   (PSizeMagic, check (negb (nth 0 data 0 =? 0x1f) || negb (nth 1 data 0 =? 0x8b))
      (lit "Invalid gzip header: expected [1f, 8b], got [" ++ hex2 (nth 0 data 0)
       ++ lit ", " ++ hex2 (nth 1 data 0) ++ lit "]"));
   (PSizeMagic, check (Nat.leb 3 (length data) && negb (nth 2 data 0 =? 0x08))
      (lit "Unsupported gzip compression method: " ++ hex2 (nth 2 data 0)
       ++ lit " (expected 08/deflate)"))].

(** The checks of Python validation; there is no size or signature phase. *)
Definition pypi_validate_checks (to_lowercase : rstring -> rstring) (p : rstring)
  (data : list Z) : Checks :=
  let filename := rsplit_first c_slash p in
  let lower := to_lowercase filename in
  [(PEmptyData, check (Nat.eqb (length data) 0) (lit "Python package cannot be empty"));
   (PEmptyPath, check (Nat.eqb (length p) 0) (lit "Artifact path cannot be empty"));
   (PExtension, check (negb (ends_with (lit ".whl") lower)
                       && negb (ends_with (lit ".tar.gz") lower)
                       && negb (ends_with (lit ".zip") lower))
      (lit "Expected .whl, .tar.gz, or .zip extension, got: " ++ filename));
   (PNameStructure,
      match strip_suffix (lit ".whl") lower with
      | Some stem =>
          let parts := split c_dash stem in
          check (Nat.ltb (length parts) 5)
            (lit "Invalid wheel filename: expected at least 5 dash-separated parts (name-version-python-abi-platform), got "
             ++ show_Z (Z.of_nat (length parts)) ++ lit " in '" ++ filename ++ lit "'")
      | None => None
      end);
   (PNameStructure,
      match match strip_suffix (lit ".tar.gz") lower with
            | Some s => Some s
            | None => strip_suffix (lit ".zip") lower
            end with
      | Some stem =>
          check (negb (contains c_dash stem))
            (lit "Invalid source distribution filename: expected 'name-version' format, got '"
             ++ stem ++ lit "'")
      | None => None
      end)].

(** ** Content-type classification *)

(** Classification by a table of leading-byte signatures: the type of the
    first signature that prefixes the data, the generic type otherwise. *)
Fixpoint classify_by_magic (table : list (list Z * rstring)) (data : list Z) : rstring :=
  match table with
  | [] => lit "application/octet-stream"
  | (magic, ct) :: t => if starts_with magic data then ct else classify_by_magic t data
  end.

Definition rpm_magic_table : list (list Z * rstring) :=
  [(Rpm.RPM_MAGIC, lit "application/x-rpm")].

Definition unity_magic_table : list (list Z * rstring) :=
  [([0x1f; 0x8b], lit "application/gzip")].

(** Classification by a table of (case-sensitive) filename extensions. *)
Fixpoint classify_by_extension (table : list (rstring * rstring)) (filename : rstring) : rstring :=
  match table with
  | [] => lit "application/octet-stream"
  | (ext, ct) :: t => if ends_with ext filename then ct else classify_by_extension t filename
  end.

Definition pypi_extension_table : list (rstring * rstring) :=
  [(lit ".whl", lit "application/zip"); (lit ".zip", lit "application/zip");
   (lit ".tar.gz", lit "application/gzip")].

(** The [Ok] value of a result, if any. *)
Definition ok_value {A E} (r : result A E) : option A :=
  match r with Ok a => Some a | Err _ => None end.

(** ** Version extraction of unity-format *)

(** The filename stem [extract_version_from_path] falls back to: the last
    segment without [.unitypackage], or else without its last extension. *)
Definition unity_filename_stem (p : rstring) : option rstring :=
  let filename := rsplit_first c_slash p in
  match strip_suffix (lit ".unitypackage") filename with
  | Some s => Some s
  | None => option_map fst (rsplit_once c_dot filename)
  end.

(** The remainder after the first ['-'] that is followed by a digit. *)
Fixpoint first_hyphen_digit_tail (s : rstring) : option rstring :=
  match s with
  | [] => None
  | x :: s' =>
      if (x =? c_dash) && Unity.starts_with_digit s' then Some s'
      else first_hyphen_digit_tail s'
  end.

(** The fallback of the version extraction read word for word: the first
    ['-'] followed by a digit starts the candidate, which is the version
    when it looks like one, and otherwise there is none. *)
Definition unity_version_fallback_literal (p : rstring) : option rstring :=
  match find Unity.is_semver_like (rev (split c_slash p)) with
  | Some part => Some part
  | None =>
      match unity_filename_stem p with
      | None => None
      | Some stem =>
          match first_hyphen_digit_tail stem with
          | Some candidate => if Unity.is_semver_like candidate then Some candidate else None
          | None => None
          end
      end
  end.

(** ** Auxiliary predicates *)

(** A value fits in 32 bits. *)
Definition u32 (x : Z) : Prop := 0 <= x < 2 ^ 32.

(** [s] splits at its last [c] into [l] and [r]. *)
Definition last_split (c : Z) (s l r : rstring) : Prop := s = l ++ c :: r /\ ~ In c r.

(** The order of [Vec<String>::sort] and its strict version. *)
Definition str_le (a b : rstring) : Prop := Json.str_ltb b a = false.
Definition str_lt (a b : rstring) : Prop := Json.str_ltb a b = true.

(** Every element is a Unicode code point, as every [char] of a Rust
    [String] is. *)
Definition code_points (s : rstring) : Prop := Forall (fun c => 0 <= c < 0x110000) s.

(** A field written after its separator when present, nothing otherwise. *)
Definition sep_opt (c : Z) (o : option rstring) : rstring :=
  match o with Some s => c :: s | None => [] end.

(** ** Decoding of the five predefined XML entities (XML 1.0, section 4.6) *)

Definition xml_entities : list (rstring * Z) :=
  [(lit "&amp;", 38); (lit "&lt;", 60); (lit "&gt;", 62); (lit "&quot;", 34);
   (lit "&apos;", 39)].

(** The entity the text starts with, with the character it stands for. *)
Fixpoint match_entity (es : list (rstring * Z)) (s : rstring) : option (Z * rstring) :=
  match es with
  | [] => None
  | (e, c) :: es' =>
      match strip_prefix e s with
      | Some r => Some (c, r)
      | None => match_entity es' s
      end
  end.

(** Replace each entity reference by its character, left to right; [fuel]
    bounds the number of characters read. *)
Fixpoint xml_unescape_aux (fuel : nat) (s : rstring) : rstring :=
  match fuel with
  | O => s
  | S f =>
      match s with
      | [] => []
      | c :: r =>
          match match_entity xml_entities s with
          | Some (d, rest) => d :: xml_unescape_aux f rest
          | None => c :: xml_unescape_aux f r
          end
      end
  end.

Definition xml_unescape (s : rstring) : rstring := xml_unescape_aux (length s) s.

(** * Proofs *)

(** ** Little-endian and bit-level facts *)

Lemma from_le_to_le (n : nat) : forall x,
  from_le_bytes (to_le_bytes n x) = x mod 2 ^ (8 * Z.of_nat n).
Proof.
  induction n as [|n IH]; intros x.
  - simpl. now rewrite Z.mod_1_r.
  - cbn [to_le_bytes from_le_bytes]. rewrite IH.
    change 255 with (Z.ones 8). rewrite Z.land_ones by lia.
    rewrite Z.shiftr_div_pow2 by lia.
    replace (8 * Z.of_nat (S n)) with (8 + 8 * Z.of_nat n) by lia.
    rewrite Z.pow_add_r by lia.
    rewrite Z.rem_mul_r; try lia.
    all: apply Z.pow_pos_nonneg; lia.
Qed.

Lemma lxor_bound (n a b : Z) :
  0 <= n -> 0 <= a < 2 ^ n -> 0 <= b < 2 ^ n -> 0 <= Z.lxor a b < 2 ^ n.
Proof.
  intros Hn Ha Hb.
  assert (E : Z.lxor a b = Z.lxor a b mod 2 ^ n).
  { apply Z.bits_inj'; intros m Hm.
    destruct (Z.lt_ge_cases m n) as [Hlt|Hge].
    - now rewrite Z.mod_pow2_bits_low.
    - rewrite Z.mod_pow2_bits_high by lia. rewrite Z.lxor_spec.
      rewrite <- (Z.mod_small a (2 ^ n)) by lia.
      rewrite <- (Z.mod_small b (2 ^ n)) by lia.
      rewrite !Z.mod_pow2_bits_high by lia. reflexivity. }
  rewrite E. apply Z.mod_pos_bound. apply Z.pow_pos_nonneg; lia.
Qed.

Lemma le2_roundtrip (x : Z) : 0 <= x < 2 ^ 16 ->
  from_le_bytes [Z.land x 255; Z.land (Z.shiftr x 8) 255] = x.
Proof.
  intros H. change [Z.land x 255; Z.land (Z.shiftr x 8) 255] with (to_le_bytes 2 x).
  rewrite from_le_to_le. apply Z.mod_small. simpl. lia.
Qed.

(** ** CRC-32 stays a [u32] *)


Lemma crc_bit_u32 (x : Z) : u32 x -> u32 (Gzip.crc_bit x).
Proof.
  unfold u32, Gzip.crc_bit; intros H.
  assert (Hs : 0 <= Z.shiftr x 1 < 2 ^ 32).
  { rewrite Z.shiftr_div_pow2 by lia. split.
    - apply Z.div_pos; lia.
    - apply Z.le_lt_trans with x; [apply Z.div_le_upper_bound|]; lia. }
  destruct (negb _); [apply lxor_bound|]; lia.
Qed.

Lemma crc_byte_u32 (crc b : Z) : u32 crc -> 0 <= b < 256 -> u32 (Gzip.crc_byte crc b).
Proof.
  intros Hc Hb. unfold Gzip.crc_byte.
  assert (H0 : u32 (Z.lxor crc b)) by (apply lxor_bound; unfold u32 in *; lia).
  generalize (Z.lxor crc b) H0. clear.
  intros x Hx. generalize 8%nat. intros k.
  induction k as [|k IH]; simpl; [exact Hx|]. now apply crc_bit_u32.
Qed.

Lemma crc32_u32 (data : list Z) :
  Forall (fun b => 0 <= b < 256) data -> u32 (Gzip.crc32 data).
Proof.
  intros Hd. unfold Gzip.crc32.
  assert (Hf : forall acc, u32 acc -> u32 (fold_left Gzip.crc_byte data acc)).
  { induction Hd as [|b l Hb Hl IH]; intros acc Hacc; simpl; auto.
    apply IH. now apply crc_byte_u32. }
  apply lxor_bound; [lia| apply Hf; unfold u32; lia | lia].
Qed.

(** ** Chunking *)

Lemma chunks_aux_concat (n : nat) (Hn : (0 < n)%nat) : forall fuel l,
  (length l <= fuel)%nat -> concat (Gzip.chunks_aux fuel n l) = l.
Proof.
  induction fuel as [|f IH]; intros l Hl.
  - destruct l; simpl in *; [reflexivity | lia].
  - destruct l as [|x l']; [reflexivity|].
    cbn [Gzip.chunks_aux concat]. rewrite IH.
    + apply firstn_skipn.
    + rewrite length_skipn. cbn [length] in *. lia.
Qed.

Lemma chunks_aux_small (n : nat) : forall fuel l,
  Forall (fun c => (length c <= n)%nat) (Gzip.chunks_aux fuel n l).
Proof.
  induction fuel as [|f IH]; intros l; simpl; [constructor|].
  destruct l as [|x l']; [constructor|].
  constructor; [apply firstn_le_length|apply IH].
Qed.

Lemma chunks_aux_nonempty (n : nat) (fuel : nat) (l : list Z) :
  l <> [] -> (0 < fuel)%nat -> Gzip.chunks_aux fuel n l <> [].
Proof. destruct fuel, l; simpl; congruence || lia. Qed.

(** ** Decoding the stored blocks *)

Lemma firstn_length_app {A} (l r : list A) : firstn (length l) (l ++ r) = l.
Proof. induction l; simpl; [reflexivity|now f_equal]. Qed.

Lemma skipn_length_app {A} (l r : list A) : skipn (length l) (l ++ r) = r.
Proof. induction l; simpl; auto. Qed.

Lemma stored_blocks_length (i n : nat) (cs : list (list Z)) :
  (length cs <= length (Gzip.stored_blocks i n cs))%nat.
Proof.
  revert i; induction cs as [|c cs IH]; intros i; simpl; [lia|].
  rewrite length_app. specialize (IH (S i)). lia.
Qed.

Lemma inflate_stored_blocks (cs : list (list Z)) : forall i n fuel rest,
  cs <> [] ->
  Forall (fun c => Z.of_nat (length c) <= 65535) cs ->
  (i + length cs)%nat = n ->
  (length cs <= fuel)%nat ->
  Gzip.inflate fuel (Gzip.stored_blocks i n cs ++ rest) = Some (concat cs, rest).
Proof.
  induction cs as [|c cs IH]; intros i n fuel rest Hne Hsmall Hn Hfuel;
    [congruence|].
  destruct fuel as [|fuel]; [simpl in Hfuel; lia|].
  inversion Hsmall as [|? ? Hc Hcs]; subst.
  set (len := Z.of_nat (length c) mod 2 ^ 16).
  assert (Hlen : len = Z.of_nat (length c))
    by (apply Z.mod_small; change (2 ^ 16) with 65536; lia).
  assert (Hlen16 : 0 <= len < 2 ^ 16) by (change (2 ^ 16) with 65536; lia).
  assert (Hnlen16 : 0 <= Z.lxor len 0xFFFF < 2 ^ 16)
    by (apply lxor_bound; change (2 ^ 16) with 65536 in *; lia).
  cbn [Gzip.stored_blocks to_le_bytes app].
  fold len. rewrite <- !app_assoc.
  cbn [Gzip.inflate].
  rewrite (le2_roundtrip len Hlen16), (le2_roundtrip _ Hnlen16), Z.eqb_refl.
  rewrite Hlen, Nat2Z.id.
  change (length (c :: cs)) with (S (length cs)).
  assert (Hge : Nat.ltb (length (c ++ Gzip.stored_blocks (S i) (i + S (length cs)) cs ++ rest))
                  (length c) = false)
    by (apply Nat.ltb_ge; rewrite length_app; lia).
  rewrite Hge, firstn_length_app, skipn_length_app.
  destruct cs as [|c' cs'].
  - rewrite Nat.add_1_r, Nat.sub_succ, Nat.sub_0_r, Nat.eqb_refl.
    cbn. now rewrite !app_nil_r.
  - assert (Hlast : Nat.eqb i (i + S (length (c' :: cs')) - 1) = false)
      by (apply Nat.eqb_neq; simpl; lia).
    rewrite Hlast. cbn [Z.testbit Z.shiftr Z.land negb Z.eqb].
    rewrite IH; [reflexivity|congruence|assumption|simpl; lia|simpl in *; lia].
Qed.

Lemma chunks_65535_small (l : list Z) :
  Forall (fun c => Z.of_nat (length c) <= 65535) (Gzip.chunks 65535 l).
Proof.
  eapply Forall_impl; [|apply chunks_aux_small].
  intros c Hc. simpl in Hc. apply Nat2Z.inj_le in Hc. exact Hc.
Qed.

(** ** Claim C1 *)

(** C1: for every byte sequence [data], [gzip_compress data] is [Ok out]
    and a gzip/DEFLATE decoder recovers exactly [data] from [out]
    (whatever the number of stored blocks); [out] ends with the
    little-endian CRC-32 of [data] and the little-endian length of [data]
    modulo 2^32; for empty input, [out] has exactly one final stored block
    of length 0. *)
Theorem gzip_compress_decodes (data : list Z)
  (Hbytes : Forall (fun b => 0 <= b < 256) data) :
  exists out,
    Gzip.gzip_compress data = Ok out /\
    Gzip.gunzip out = Some data /\
    (exists blocks, out = Gzip.gzip_header ++ blocks
                          ++ to_le_bytes 4 (Gzip.crc32 data)
                          ++ to_le_bytes 4 (Z.of_nat (length data) mod 2 ^ 32)) /\
    (data = [] -> out = Gzip.gzip_header ++ [0x01; 0x00; 0x00; 0xff; 0xff]
                          ++ to_le_bytes 4 (Gzip.crc32 data) ++ to_le_bytes 4 0).
Proof.
  set (cs := match data with [] => [[]] | _ => Gzip.chunks 65535 data end).
  assert (Hcs_ne : cs <> []).
  { unfold cs; destruct data as [|x l]; [congruence|].
    apply chunks_aux_nonempty; simpl; [congruence|lia]. }
  assert (Hcs_small : Forall (fun c => Z.of_nat (length c) <= 65535) cs).
  { unfold cs; destruct data; [repeat constructor; simpl; lia|apply chunks_65535_small]. }
  assert (Hcs_concat : concat cs = data).
  { unfold cs; destruct data as [|x l]; [reflexivity|].
    apply chunks_aux_concat; [apply Nat.ltb_lt; reflexivity|lia]. }
  eexists; split; [reflexivity|].
  fold cs. split; [|split].
  - set (T := to_le_bytes 4 (Gzip.crc32 data)
                ++ to_le_bytes 4 (Z.of_nat (length data) mod 2 ^ 32)).
    unfold Gzip.gunzip, Gzip.gzip_header.
    cbn [app Z.eqb andb Pos.eqb].
    rewrite (inflate_stored_blocks cs 0 (length cs)); auto.
    2: { rewrite length_app. pose proof (stored_blocks_length 0 (length cs) cs). lia. }
    rewrite Hcs_concat. unfold T. cbn [to_le_bytes app].
    change [Z.land (Gzip.crc32 data) 255; Z.land (Z.shiftr (Gzip.crc32 data) 8) 255;
            Z.land (Z.shiftr (Z.shiftr (Gzip.crc32 data) 8) 8) 255;
            Z.land (Z.shiftr (Z.shiftr (Z.shiftr (Gzip.crc32 data) 8) 8) 8) 255]
      with (to_le_bytes 4 (Gzip.crc32 data)).
    set (sz := Z.of_nat (length data) mod 2 ^ 32).
    change [Z.land sz 255; Z.land (Z.shiftr sz 8) 255;
            Z.land (Z.shiftr (Z.shiftr sz 8) 8) 255;
            Z.land (Z.shiftr (Z.shiftr (Z.shiftr sz 8) 8) 8) 255]
      with (to_le_bytes 4 sz).
    rewrite !from_le_to_le.
    pose proof (crc32_u32 data Hbytes) as Hcrc. unfold u32 in Hcrc.
    change (8 * Z.of_nat 4) with 32.
    rewrite (Z.mod_small (Gzip.crc32 data)) by lia.
    unfold sz. rewrite Z.mod_mod by lia.
    rewrite !Z.eqb_refl. reflexivity.
  - eexists. rewrite <- app_assoc. reflexivity.
  - intros ->. reflexivity.
Qed.

(** ** Splitting at a character *)


Lemma split_once_some (c : Z) : forall s a b,
  split_once c s = Some (a, b) -> s = a ++ c :: b /\ ~ In c a.
Proof.
  induction s as [|x s IH]; intros a b H; simpl in H; [discriminate|].
  destruct (Z.eqb_spec x c) as [->|Hne].
  - injection H as <- <-. split; [reflexivity|intros []].
  - destruct (split_once c s) as [[a' b']|] eqn:E; [|discriminate].
    injection H as <- <-. destruct (IH _ _ eq_refl) as [-> Hn].
    split; [reflexivity|]. intros [Hx|Hin]; [congruence|tauto].
Qed.

Lemma split_once_none (c : Z) : forall s, split_once c s = None -> ~ In c s.
Proof.
  induction s as [|x s IH]; intros H; simpl in H; [intros []|].
  destruct (Z.eqb_spec x c); [discriminate|].
  destruct (split_once c s) as [[]|]; [discriminate|].
  intros [Hx|Hin]; [congruence|exact (IH eq_refl Hin)].
Qed.

Lemma rsplit_once_some (c : Z) (s a b : rstring) :
  rsplit_once c s = Some (a, b) -> last_split c s a b.
Proof.
  unfold rsplit_once. destruct (split_once c (rev s)) as [[x y]|] eqn:E; [|discriminate].
  intros H. injection H as <- <-.
  destruct (split_once_some c _ _ _ E) as [Hs Hn].
  split.
  - rewrite <- (rev_involutive s), Hs, rev_app_distr. simpl. now rewrite <- app_assoc.
  - now rewrite <- in_rev.
Qed.

Lemma rsplit_once_none (c : Z) (s : rstring) : rsplit_once c s = None -> ~ In c s.
Proof.
  unfold rsplit_once. destruct (split_once c (rev s)) as [[x y]|] eqn:E; [discriminate|].
  intros _ Hin. apply (split_once_none c _ E). now apply in_rev in Hin.
Qed.

Lemma strip_prefix_app (p s : rstring) : strip_prefix p (p ++ s) = Some s.
Proof. induction p; simpl; [reflexivity|]. now rewrite Z.eqb_refl. Qed.

Lemma strip_prefix_some (p : rstring) : forall s r, strip_prefix p s = Some r -> s = p ++ r.
Proof.
  induction p as [|x p IH]; intros s r H; simpl in H; [simpl; congruence|].
  destruct s as [|y s]; [discriminate|].
  destruct (Z.eqb_spec x y) as [->|]; [|discriminate]. simpl. f_equal. auto.
Qed.

Lemma strip_suffix_app (suf s : rstring) : strip_suffix suf (s ++ suf) = Some s.
Proof.
  unfold strip_suffix. rewrite rev_app_distr, strip_prefix_app, rev_involutive.
  reflexivity.
Qed.

Lemma strip_suffix_some (suf s r : rstring) : strip_suffix suf s = Some r -> s = r ++ suf.
Proof.
  unfold strip_suffix. destruct (strip_prefix (rev suf) (rev s)) eqn:E; [|discriminate].
  intros H. injection H as <-. apply strip_prefix_some in E.
  rewrite <- (rev_involutive s), E, rev_app_distr, !rev_involutive. reflexivity.
Qed.

Lemma rsplit_step (c : Z) (s : rstring) :
  (exists l r, rsplit_once c s = Some (l, r) /\ last_split c s l r)
  \/ (rsplit_once c s = None /\ ~ In c s).
Proof.
  destruct (rsplit_once c s) as [[l r]|] eqn:E.
  - left. exists l, r. split; [reflexivity|]. now apply rsplit_once_some.
  - right. split; [reflexivity|]. now apply rsplit_once_none.
Qed.

(** ** Claim C2 *)

(** C2: [parse_rpm_filename] reads [name-version-release.arch.rpm] right to
    left: without the [.rpm] suffix every field is absent; otherwise the
    stem is split at its last ['.'] (architecture on the right), the rest
    at its last ['-'] (release), the rest again at its last ['-'] (version,
    the remainder being the name), and a missing separator leaves that
    field absent (the name then being the whole remainder).  The reported
    version is [version-release] when both are present, [version] when
    only it is, and absent otherwise.  For
    [python3-numpy-1.24.2-4.el9.x86_64.rpm] the fields are [python3-numpy],
    [1.24.2], [4.el9] and [x86_64]. *)
Theorem rpm_filename_right_to_left :
  (forall filename,
     strip_suffix (lit ".rpm") filename = None ->
     Rpm.parse_rpm_filename filename = Rpm.mkRpmFileInfo None None None None) /\
  (forall stem,
     let info := Rpm.parse_rpm_filename (stem ++ lit ".rpm") in
     exists before_arch before_release,
       ((exists a, last_split c_dot stem before_arch a /\ Rpm.arch info = Some a)
        \/ (~ In c_dot stem /\ before_arch = stem /\ Rpm.arch info = None)) /\
       ((exists r, last_split c_dash before_arch before_release r
                   /\ Rpm.release info = Some r)
        \/ (~ In c_dash before_arch /\ before_release = before_arch
            /\ Rpm.release info = None)) /\
       ((exists n v, last_split c_dash before_release n v
                     /\ Rpm.name info = Some n /\ Rpm.version info = Some v)
        \/ (~ In c_dash before_release /\ Rpm.name info = Some before_release
            /\ Rpm.version info = None))) /\
  (forall p,
     let info := Rpm.parse_rpm_filename (rsplit_first c_slash p) in
     (forall v r, Rpm.version info = Some v -> Rpm.release info = Some r ->
        Rpm.extract_version_from_rpm_filename p = Some (v ++ lit "-" ++ r)) /\
     (forall v, Rpm.version info = Some v -> Rpm.release info = None ->
        Rpm.extract_version_from_rpm_filename p = Some v) /\
     (Rpm.version info = None -> Rpm.extract_version_from_rpm_filename p = None)) /\
  Rpm.parse_rpm_filename (lit "python3-numpy-1.24.2-4.el9.x86_64.rpm")
  = Rpm.mkRpmFileInfo (Some (lit "python3-numpy")) (Some (lit "1.24.2"))
                      (Some (lit "4.el9")) (Some (lit "x86_64")).
Proof.
  split; [|split; [|split]].
  - intros filename H. unfold Rpm.parse_rpm_filename. now rewrite H.
  - intros stem info. unfold info, Rpm.parse_rpm_filename.
    rewrite strip_suffix_app.
    repeat match goal with
    | |- context [rsplit_once ?c ?s] =>
        destruct (rsplit_step c s) as [(? & ? & E & ?)|(E & ?)]; rewrite E; clear E
    end;
    cbn; do 2 eexists; repeat split;
    first [ left; do 2 eexists; split; [eassumption|split; reflexivity]
          | left; eexists; split; [eassumption|reflexivity]
          | right; repeat split; (eassumption || reflexivity) ].
  - intros p info. unfold Rpm.extract_version_from_rpm_filename. fold info.
    repeat split; intros; repeat match goal with H : _ = _ |- _ => rewrite H end;
      reflexivity.
  - reflexivity.
Qed.

(** ** Normalization of package names *)

Lemma no_double_dash_b_sound (r : rstring) : no_double_dash_b r = true -> no_double_dash r.
Proof.
  induction r as [|x r IH]; intros H l1 l2 E.
  - destruct l1; discriminate.
  - destruct l1 as [|y l1]; simpl in E; injection E as Ex Er.
    + subst. simpl in H. discriminate.
    + destruct r as [|z r]; [destruct l1; discriminate|].
      apply andb_prop in H as [_ H]. exact (IH H l1 l2 Er).
Qed.

Lemma no_double_dash_cons (x : Z) (r : rstring) :
  no_double_dash (x :: r) -> no_double_dash r.
Proof. intros H l1 l2 E. apply (H (x :: l1) l2). now rewrite E. Qed.

Lemma no_double_dash_suffix (pre r : rstring) :
  no_double_dash (pre ++ r) -> no_double_dash r.
Proof. intros H l1 l2 E. apply (H (pre ++ l1) l2). rewrite E. now rewrite <- app_assoc. Qed.

Lemma no_double_dash_prefix (r post : rstring) :
  no_double_dash (r ++ post) -> no_double_dash r.
Proof.
  intros H l1 l2 E. apply (H l1 (l2 ++ post)). rewrite E. now rewrite <- app_assoc.
Qed.

Lemma collapse_chars (cs : rstring) : forall b c,
  In c (Pypi.collapse b cs) -> c = c_dash \/ (In c cs /\ is_ascii_alphanumeric c = true).
Proof.
  induction cs as [|ch cs IH]; intros b c H; simpl in H; [contradiction|].
  destruct (is_ascii_alphanumeric ch) eqn:Ha; [|destruct b].
  - destruct H as [<-|H]; [right; split; [left|]; auto|].
    destruct (IH _ _ H) as [|[]]; [left|right; split; [right|]]; auto.
  - destruct (IH _ _ H) as [|[]]; [left|right; split; [right|]]; auto.
  - destruct H as [<-|H]; [left; reflexivity|].
    destruct (IH _ _ H) as [|[]]; [left|right; split; [right|]]; auto.
Qed.

Lemma no_double_dash_b_cons2 (x y : Z) (r : rstring) :
  no_double_dash_b (x :: y :: r)
  = negb ((x =? c_dash) && (y =? c_dash)) && no_double_dash_b (y :: r).
Proof. reflexivity. Qed.

Lemma collapse_shape (cs : rstring) : forall b,
  no_double_dash_b (Pypi.collapse b cs) = true
  /\ (b = true -> no_leading c_dash (Pypi.collapse b cs)).
Proof.
  induction cs as [|ch cs IH]; intros b; simpl.
  - split; [reflexivity|intros _ t; discriminate].
  - destruct (is_ascii_alphanumeric ch) eqn:Ha; [|destruct b].
    + split; [|intros _ t E; injection E as E _; subst; discriminate].
      destruct (IH false) as [H1 _].
      destruct (Pypi.collapse false cs) as [|y r]; [reflexivity|].
      rewrite no_double_dash_b_cons2, H1.
      assert (Hc : (ch =? c_dash) = false) by (apply Z.eqb_neq; intros ->; discriminate).
      now rewrite Hc.
    + exact (IH true).
    + split; [|discriminate].
      destruct (IH true) as [H1 H2].
      cbn [negb].
      destruct (Pypi.collapse true cs) as [|y r] eqn:E; [reflexivity|].
      rewrite no_double_dash_b_cons2, H1.
      assert (Hy : (y =? c_dash) = false).
      { apply Z.eqb_neq. intros ->. exact (H2 eq_refl r eq_refl). }
      now rewrite Hy, andb_false_r.
Qed.

Lemma trim_start_suffix (c : Z) (r : rstring) :
  exists pre, r = pre ++ trim_start_matches c r.
Proof.
  induction r as [|x r IH]; simpl; [exists []; reflexivity|].
  destruct (x =? c); [destruct IH as [pre E]; exists (x :: pre); simpl; congruence|].
  exists []; reflexivity.
Qed.

Lemma trim_start_no_leading (c : Z) (r : rstring) : no_leading c (trim_start_matches c r).
Proof.
  induction r as [|x r IH]; simpl; intros t E; [discriminate|].
  destruct (Z.eqb_spec x c); [exact (IH t E)|congruence].
Qed.

Lemma trim_start_id (c : Z) (r : rstring) : no_leading c r -> trim_start_matches c r = r.
Proof.
  destruct r as [|x r]; intros H; simpl; [reflexivity|].
  destruct (Z.eqb_spec x c) as [->|]; [exfalso; exact (H r eq_refl)|reflexivity].
Qed.

Lemma trim_end_prefix (c : Z) (r : rstring) :
  exists post, r = trim_end_matches c r ++ post.
Proof.
  unfold trim_end_matches. destruct (trim_start_suffix c (rev r)) as [pre E].
  exists (rev pre). rewrite <- rev_app_distr, <- E. now rewrite rev_involutive.
Qed.

Lemma trim_end_no_trailing (c : Z) (r : rstring) : no_trailing c (trim_end_matches c r).
Proof.
  unfold trim_end_matches. intros t E.
  apply (trim_start_no_leading c (rev r) (rev t)).
  rewrite <- (rev_involutive (trim_start_matches c (rev r))), E, rev_app_distr.
  reflexivity.
Qed.

Lemma trim_end_id (c : Z) (r : rstring) : no_trailing c r -> trim_end_matches c r = r.
Proof.
  intros H. unfold trim_end_matches. rewrite trim_start_id; [apply rev_involutive|].
  intros t E. apply (H (rev t)). rewrite <- (rev_involutive r), E. reflexivity.
Qed.

Lemma collapse_id (r : rstring) : forall b,
  Forall (fun c => canonical_char c = true) r -> no_double_dash r ->
  (b = true -> no_leading c_dash r) -> Pypi.collapse b r = r.
Proof.
  induction r as [|x r IH]; intros b Hc Hd Hl; simpl; [reflexivity|].
  inversion Hc as [|? ? Hx Hr]; subst.
  unfold canonical_char in Hx.
  destruct (is_ascii_alphanumeric x) eqn:Ha.
  - f_equal. apply IH; [assumption|eauto using no_double_dash_cons|].
    intros Hf; discriminate Hf.
  - assert (x = c_dash).
    { unfold is_ascii_alphanumeric, is_ascii_alphabetic in Ha.
      destruct (is_ascii_lowercase x), (is_ascii_digit x); try discriminate.
      now apply Z.eqb_eq. }
    subst x. destruct b; [exfalso; exact (Hl eq_refl r eq_refl)|].
    cbn [negb]. f_equal.
    apply IH; [assumption|eapply no_double_dash_cons; eassumption|].
    intros _ t Et. subst r. exact (Hd [] t eq_refl).
Qed.

Lemma map_ascii_lower_canonical (r : rstring) :
  Forall (fun c => canonical_char c = true) r -> map ascii_lower r = r.
Proof.
  induction 1 as [|x r Hx _ IH]; simpl; [reflexivity|]. rewrite IH. f_equal.
  unfold ascii_lower, canonical_char, is_ascii_uppercase, is_ascii_lowercase,
    is_ascii_digit, c_dash in *.
  destruct (65 <=? x) eqn:E1, (x <=? 90) eqn:E2; simpl; auto.
  apply Z.leb_le in E1, E2.
  repeat match goal with H : context [Z.leb ?a ?b] |- _ => destruct (Z.leb_spec a b) end;
    simpl in Hx; try discriminate; try (apply Z.eqb_eq in Hx); lia.
Qed.

Lemma canonical_is_ascii (r : rstring) :
  Forall (fun c => canonical_char c = true) r -> forallb is_ascii r = true.
Proof.
  induction 1 as [|x r Hx _ IH]; simpl; [reflexivity|]. rewrite IH, andb_true_r.
  unfold is_ascii, canonical_char, is_ascii_lowercase, is_ascii_digit, c_dash in *.
  repeat match goal with H : context [Z.leb ?a ?b] |- _ => destruct (Z.leb_spec a b) end;
    simpl in Hx; try discriminate; try (apply Z.eqb_eq in Hx);
    apply andb_true_intro; split; first [apply Z.leb_le | apply Z.ltb_lt]; lia.
Qed.

Lemma ascii_alnum_not_upper (c : Z) :
  is_ascii_alphanumeric c = true -> is_ascii_uppercase c = false ->
  canonical_char c = true.
Proof.
  unfold is_ascii_alphanumeric, is_ascii_alphabetic, canonical_char.
  destruct (is_ascii_digit c), (is_ascii_lowercase c), (is_ascii_uppercase c);
    simpl; congruence.
Qed.

(** ** Claim C6 *)

(** C6: for a lowercase mapping that agrees with ASCII case folding on
    ASCII text and never yields an ASCII capital (as Rust's
    [str::to_lowercase] does), [normalize_package_name] is idempotent and
    its result consists of lowercase ASCII letters, digits and single
    internal hyphens, with no leading or trailing hyphen. *)
Theorem normalize_package_name_idempotent
  (to_lowercase : rstring -> rstring)
  (Hascii : forall s, forallb is_ascii s = true -> to_lowercase s = map ascii_lower s)
  (Hnoupper : forall s c, In c (to_lowercase s) -> is_ascii_uppercase c = false)
  (s : rstring) :
  Pypi.normalize_package_name to_lowercase (Pypi.normalize_package_name to_lowercase s)
  = Pypi.normalize_package_name to_lowercase s
  /\ canonical_name (Pypi.normalize_package_name to_lowercase s).
Proof.
  assert (Hcan : canonical_name (Pypi.normalize_package_name to_lowercase s)).
  { unfold Pypi.normalize_package_name, trim_matches.
    set (C := Pypi.collapse false (to_lowercase s)).
    destruct (trim_start_suffix c_dash C) as [pre Epre].
    set (T := trim_start_matches c_dash C) in *.
    destruct (trim_end_prefix c_dash T) as [post Epost].
    set (U := trim_end_matches c_dash T) in *.
    assert (HC : Forall (fun c => canonical_char c = true) C).
    { apply Forall_forall. intros c Hin.
      destruct (collapse_chars _ _ _ Hin) as [->|[Hin' Ha]]; [reflexivity|].
      apply ascii_alnum_not_upper; [exact Ha|exact (Hnoupper _ _ Hin')]. }
    assert (HdC : no_double_dash C)
      by (apply no_double_dash_b_sound; apply collapse_shape).
    split; [|split; [|split]].
    - rewrite Epre in HC. apply Forall_app in HC as [_ HC].
      rewrite Epost in HC. now apply Forall_app in HC as [HC _].
    - rewrite Epre in HdC. apply no_double_dash_suffix in HdC.
      rewrite Epost in HdC. now apply no_double_dash_prefix in HdC.
    - intros t Et. apply (trim_start_no_leading c_dash C (t ++ post)).
      fold T. rewrite Epost, Et. reflexivity.
    - apply trim_end_no_trailing. }
  split; [|exact Hcan].
  destruct Hcan as (Hc & Hd & Hl & Ht).
  set (n := Pypi.normalize_package_name to_lowercase s) in *.
  unfold Pypi.normalize_package_name at 1.
  rewrite Hascii by now apply canonical_is_ascii.
  rewrite map_ascii_lower_canonical by exact Hc.
  rewrite collapse_id by (auto; intros Hf; discriminate Hf).
  unfold trim_matches. rewrite trim_start_id by exact Hl.
  now apply trim_end_id.
Qed.

Lemma map_ascii_lower_no_upper (s : rstring) (c : Z) :
  In c (map ascii_lower s) -> is_ascii_uppercase c = false.
Proof.
  intros Hin. apply in_map_iff in Hin as [x [<- _]].
  unfold ascii_lower, is_ascii_uppercase.
  destruct (65 <=? x) eqn:E1, (x <=? 90) eqn:E2; simpl;
    try (rewrite E1, E2; reflexivity);
    apply Z.leb_le in E1; apply Z.leb_le in E2;
    destruct (Z.leb_spec 65 (x + 32)), (Z.leb_spec (x + 32) 90); simpl; lia.
Qed.

(** The witness uses the ASCII-only lowercase mapping. *)
Lemma normalize_package_name_idempotent_witness :
  (forall s, forallb is_ascii s = true -> map ascii_lower s = map ascii_lower s) /\
  (forall s c, In c (map ascii_lower s) -> is_ascii_uppercase c = false) /\
  Pypi.normalize_package_name (map ascii_lower)
    (Pypi.normalize_package_name (map ascii_lower) (lit "--Foo__Bar..Baz-"))
  = lit "foo-bar-baz" /\
  canonical_name (Pypi.normalize_package_name (map ascii_lower) (lit "--Foo__Bar..Baz-")).
Proof.
  destruct (normalize_package_name_idempotent (map ascii_lower)
              (fun s _ => eq_refl) map_ascii_lower_no_upper
              (lit "--Foo__Bar..Baz-")) as [E C].
  split; [reflexivity|split; [exact map_ascii_lower_no_upper|split; [|exact C]]].
  rewrite E. vm_compute. reflexivity.
Defined.

Lemma gzip_compress_decodes_witness :
  Forall (fun b => 0 <= b < 256) [104; 105] /\
  exists out,
    Gzip.gzip_compress [104; 105] = Ok out /\
    Gzip.gunzip out = Some [104; 105] /\
    (exists blocks, out = Gzip.gzip_header ++ blocks
                          ++ to_le_bytes 4 (Gzip.crc32 [104; 105])
                          ++ to_le_bytes 4 (Z.of_nat (length [104; 105]) mod 2 ^ 32)) /\
    ([104; 105] = [] -> out = Gzip.gzip_header ++ [0x01; 0x00; 0x00; 0xff; 0xff]
                          ++ to_le_bytes 4 (Gzip.crc32 [104; 105]) ++ to_le_bytes 4 0).
Proof.
  assert (H : Forall (fun b => 0 <= b < 256) [104; 105]) by (repeat constructor; lia).
  split; [exact H | exact (gzip_compress_decodes [104; 105] H)].
Defined.

(** ** Validation order *)

Ltac split_ifs :=
  repeat match goal with
  | |- context [if ?b then _ else _] => destruct b
  | |- context [match ?o with Some _ => _ | None => _ end] => destruct o
  end.

Lemma rpm_validate_as_checks (to_lowercase : rstring -> rstring) (p : rstring) (data : list Z) :
  Rpm.validate to_lowercase p data = first_error (rpm_validate_checks to_lowercase p data).
Proof. unfold Rpm.validate, rpm_validate_checks, check. cbn [first_error]. split_ifs; reflexivity. Qed.

Lemma unity_validate_as_checks (to_lowercase : rstring -> rstring) (p : rstring) (data : list Z) :
  Unity.validate to_lowercase p data = first_error (unity_validate_checks to_lowercase p data).
Proof. unfold Unity.validate, unity_validate_checks, check. cbn [first_error]. split_ifs; reflexivity. Qed.

Lemma pypi_validate_as_checks (to_lowercase : rstring -> rstring) (p : rstring) (data : list Z) :
  Pypi.validate to_lowercase p data = first_error (pypi_validate_checks to_lowercase p data).
Proof.
  unfold Pypi.validate, pypi_validate_checks, check. cbn [first_error]. cbv zeta.
  destruct (strip_suffix (lit ".whl") (to_lowercase (rsplit_first c_slash p)));
  destruct (strip_suffix (lit ".tar.gz") (to_lowercase (rsplit_first c_slash p)));
  destruct (strip_suffix (lit ".zip") (to_lowercase (rsplit_first c_slash p)));
  split_ifs; reflexivity.
Qed.

Lemma first_error_spec (cs : Checks) :
  (first_error cs = Ok tt <-> Forall (fun c => snd c = None) cs) /\
  (forall e, first_error cs = Err e <->
     exists pre ph rest, cs = pre ++ (ph, Some e) :: rest /\ Forall (fun c => snd c = None) pre).
Proof.
  induction cs as [|[ph [e0|]] cs IH]; simpl.
  - split; [split; constructor|].
    intros e; split; [discriminate|]. intros (pre & ph & rest & E & _).
    destruct pre; discriminate.
  - split.
    + split; [discriminate|]. intros H. inversion H as [|? ? Hx]. discriminate Hx.
    + intros e; split.
      * intros E; injection E as ->. exists [], ph, cs. split; [reflexivity|constructor].
      * intros (pre & ph' & rest & E & Hpre). destruct pre as [|c pre].
        -- simpl in E. injection E; intros; subst; reflexivity.
        -- injection E as <- _. inversion Hpre as [|? ? Hc]. discriminate Hc.
  - destruct IH as [IH1 IH2]. split.
    + rewrite IH1. split; [intros H; constructor; auto|intros H; inversion H; auto].
    + intros e. rewrite IH2. split.
      * intros (pre & ph' & rest & E & Hpre). exists ((ph, None) :: pre), ph', rest.
        split; [simpl; congruence|constructor; auto].
      * intros (pre & ph' & rest & E & Hpre). destruct pre as [|c pre].
        -- discriminate E.
        -- injection E as <- E. inversion Hpre. exists pre, ph', rest. auto.
Qed.

Lemma length_nonzero {A} (l : list A) : l <> [] -> Nat.eqb (length l) 0 = false.
Proof. destruct l; [congruence|reflexivity]. Qed.

(** ** Claim C5 *)

(** C5: each handler's [validate] is the first failing check of a list of
    checks whose phases come in the order empty data, empty path,
    extension, size/signature, name structure (RPM and Unity have no name
    phase, Python has no size/signature phase); it returns [Ok] exactly
    when every check passes. With empty data the empty-data error is
    returned whatever the path (also an empty one), and with non-empty data
    and path a wrong extension is reported whatever the bytes are. *)
Theorem validate_check_order (to_lowercase : rstring -> rstring) :
  (forall cs : Checks,
     (first_error cs = Ok tt <-> Forall (fun c => snd c = None) cs) /\
     (forall e, first_error cs = Err e <->
        exists pre ph rest, cs = pre ++ (ph, Some e) :: rest
                            /\ Forall (fun c => snd c = None) pre)) /\
  (forall p data,
     Rpm.validate to_lowercase p data = first_error (rpm_validate_checks to_lowercase p data)
     /\ map fst (rpm_validate_checks to_lowercase p data)
        = [PEmptyData; PEmptyPath; PExtension; PSizeMagic; PSizeMagic]
     /\ phases_in_order (map fst (rpm_validate_checks to_lowercase p data)) = true) /\
  (forall p data,
     Unity.validate to_lowercase p data = first_error (unity_validate_checks to_lowercase p data)
     /\ map fst (unity_validate_checks to_lowercase p data)
        = [PEmptyData; PEmptyPath; PExtension; PSizeMagic; PSizeMagic; PSizeMagic]
     /\ phases_in_order (map fst (unity_validate_checks to_lowercase p data)) = true) /\
  (forall p data,
     Pypi.validate to_lowercase p data = first_error (pypi_validate_checks to_lowercase p data)
     /\ map fst (pypi_validate_checks to_lowercase p data)
        = [PEmptyData; PEmptyPath; PExtension; PNameStructure; PNameStructure]
     /\ phases_in_order (map fst (pypi_validate_checks to_lowercase p data)) = true) /\
  (forall p,
     Rpm.validate to_lowercase p [] = Err (lit "RPM package cannot be empty") /\
     Unity.validate to_lowercase p [] = Err (lit "Unity package cannot be empty") /\
     Pypi.validate to_lowercase p [] = Err (lit "Python package cannot be empty")) /\
  (forall p data, data <> [] -> p <> [] ->
     (ends_with (lit ".rpm") (to_lowercase p) = false ->
        Rpm.validate to_lowercase p data
        = Err (lit "Expected .rpm extension, got: " ++ rsplit_first c_slash p)) /\
     (ends_with (lit ".unitypackage") (to_lowercase p) = false ->
        Unity.validate to_lowercase p data
        = Err (lit "Expected .unitypackage extension, got: " ++ rsplit_first c_slash p)) /\
     (let lower := to_lowercase (rsplit_first c_slash p) in
      ends_with (lit ".whl") lower = false -> ends_with (lit ".tar.gz") lower = false ->
      ends_with (lit ".zip") lower = false ->
        Pypi.validate to_lowercase p data
        = Err (lit "Expected .whl, .tar.gz, or .zip extension, got: "
               ++ rsplit_first c_slash p))).
Proof.
  split; [exact first_error_spec|].
  split; [intros p data; split; [apply rpm_validate_as_checks|split; reflexivity]|].
  split; [intros p data; split; [apply unity_validate_as_checks|split; reflexivity]|].
  split; [intros p data; split; [apply pypi_validate_as_checks|split; reflexivity]|].
  split; [intros p; repeat split; reflexivity|].
  intros p data Hd Hp. split; [|split].
  - intros He. unfold Rpm.validate. now rewrite !length_nonzero, He by assumption.
  - intros He. unfold Unity.validate. now rewrite !length_nonzero, He by assumption.
  - cbv zeta. intros H1 H2 H3. unfold Pypi.validate.
    now rewrite !length_nonzero, H1, H2, H3 by assumption.
Qed.

(** ** Claim C9 *)

(** C9: Python validation looks at the bytes only to reject empty data:
    any two non-empty byte sequences get the same verdict, and every
    non-empty sequence is accepted for a non-empty path whose lowercased
    filename has an accepted extension, whose wheel stem has at least five
    dash-separated parts and whose sdist stem contains a ['-']. *)
Theorem pypi_validate_ignores_bytes (to_lowercase : rstring -> rstring)
  (p data : list Z) (Hd : data <> []) (Hp : p <> [])
  (Hext : let lower := to_lowercase (rsplit_first c_slash p) in
          ends_with (lit ".whl") lower || ends_with (lit ".tar.gz") lower
          || ends_with (lit ".zip") lower = true)
  (Hwheel : forall stem,
     strip_suffix (lit ".whl") (to_lowercase (rsplit_first c_slash p)) = Some stem ->
     (5 <= length (split c_dash stem))%nat)
  (Hsdist : forall stem,
     (strip_suffix (lit ".tar.gz") (to_lowercase (rsplit_first c_slash p)) = Some stem \/
      strip_suffix (lit ".zip") (to_lowercase (rsplit_first c_slash p)) = Some stem) ->
     contains c_dash stem = true) :
  Pypi.validate to_lowercase p data = Ok tt /\
  (forall q d1 d2, d1 <> [] -> d2 <> [] ->
     Pypi.validate to_lowercase q d1 = Pypi.validate to_lowercase q d2).
Proof.
  split.
  - cbv zeta in Hext. unfold Pypi.validate. rewrite !length_nonzero by assumption.
    set (lower := to_lowercase (rsplit_first c_slash p)) in *. cbv zeta.
    destruct (ends_with (lit ".whl") lower), (ends_with (lit ".tar.gz") lower),
      (ends_with (lit ".zip") lower); try discriminate Hext; cbn [negb andb];
    (destruct (strip_suffix (lit ".whl") lower) as [stem|] eqn:Ew;
      [specialize (Hwheel stem eq_refl);
       replace (Nat.ltb (length (split c_dash stem)) 5) with false
         by (symmetry; apply Nat.ltb_ge; exact Hwheel)|]);
    (destruct (strip_suffix (lit ".tar.gz") lower) as [st|] eqn:Et;
      [rewrite (Hsdist st (or_introl eq_refl)); reflexivity|]);
    (destruct (strip_suffix (lit ".zip") lower) as [st|] eqn:Ez;
      [rewrite (Hsdist st (or_intror eq_refl)); reflexivity|reflexivity]).
  - intros q d1 d2 H1 H2. unfold Pypi.validate.
    rewrite (length_nonzero d1 H1), (length_nonzero d2 H2). reflexivity.
Qed.

Lemma pypi_validate_ignores_bytes_witness :
  let tl := map ascii_lower in
  let p := lit "dist/requests-2.31.0.tar.gz" in
  ([7; 0; 255] <> [] /\ p <> []) /\
  Pypi.validate tl p [7; 0; 255] = Ok tt.
Proof.
  cbv zeta. split; [split; discriminate|].
  refine (proj1 (pypi_validate_ignores_bytes (map ascii_lower)
                   (lit "dist/requests-2.31.0.tar.gz") [7; 0; 255] _ _ _ _ _)).
  - discriminate.
  - discriminate.
  - vm_compute. reflexivity.
  - intros stem E. vm_compute in E. discriminate E.
  - intros stem [E|E]; vm_compute in E; [injection E as <-; vm_compute; reflexivity|discriminate E].
Defined.

(** ** Claim C10 *)

(** C10: Python validation lowercases the filename before testing its
    extension, metadata extraction does not: for the upper-case wheel name
    [NAME-1.0-PY3-NONE-ANY.WHL] and any non-empty bytes, [validate]
    accepts while [parse_metadata] reports [application/octet-stream] and
    no version (for a lowercase mapping that folds ASCII text the ASCII
    way, as Rust's does). *)
Theorem pypi_extension_case_mismatch (to_lowercase : rstring -> rstring)
  (Hascii : forall s, forallb is_ascii s = true -> to_lowercase s = map ascii_lower s)
  (data : list Z) (Hd : data <> []) :
  Pypi.validate to_lowercase (lit "NAME-1.0-PY3-NONE-ANY.WHL") data = Ok tt /\
  exists m, Pypi.parse_metadata (lit "NAME-1.0-PY3-NONE-ANY.WHL") data = Ok m /\
            content_type m = lit "application/octet-stream" /\
            metadata_version m = None.
Proof.
  split.
  - unfold Pypi.validate. rewrite length_nonzero by assumption.
    rewrite Hascii by (vm_compute; reflexivity). vm_compute. reflexivity.
  - destruct data as [|x d]; [congruence|].
    eexists; split; [reflexivity|]. split; vm_compute; reflexivity.
Qed.

Lemma pypi_extension_case_mismatch_witness :
  (forall s, forallb is_ascii s = true -> map ascii_lower s = map ascii_lower s) /\
  [80; 75] <> [] /\
  Pypi.validate (map ascii_lower) (lit "NAME-1.0-PY3-NONE-ANY.WHL") [80; 75] = Ok tt.
Proof.
  split; [reflexivity|split; [discriminate|]].
  exact (proj1 (pypi_extension_case_mismatch (map ascii_lower) (fun s _ => eq_refl)
                  [80; 75] ltac:(discriminate))).
Defined.

(** ** Metadata extraction *)

Ltac z_cases :=
  repeat match goal with |- context [?a =? ?b] => destruct (Z.eqb_spec a b) end;
  subst; try reflexivity; congruence.

Lemma rpm_magic_check (data : list Z) :
  Nat.leb 4 (length data) && zl_eqb (firstn 4 data) Rpm.RPM_MAGIC
  = starts_with Rpm.RPM_MAGIC data.
Proof.
  unfold starts_with, Rpm.RPM_MAGIC.
  do 4 (destruct data as [|? data]; [cbn -[Z.eqb]; z_cases|]). cbn -[Z.eqb]. z_cases.
Qed.

Lemma unity_magic_check (data : list Z) :
  Nat.leb 2 (length data) && (nth 0 data 0 =? 0x1f) && (nth 1 data 0 =? 0x8b)
  = starts_with [0x1f; 0x8b] data.
Proof.
  unfold starts_with.
  do 2 (destruct data as [|? data]; [cbn -[Z.eqb]; z_cases|]). cbn -[Z.eqb]. z_cases.
Qed.

(** ** Claim C4 *)

(** C4 (as the code has it): each handler's [parse_metadata] fails exactly
    on empty data; otherwise it keeps the path, takes the version from the
    format's filename grammar (possibly none), the size from the data's
    length and no checksum. The content type comes from the leading bytes
    for RPM ([ed ab ee db]) and Unity ([1f 8b]), with the generic type as
    fallback, but for Python from the filename's case-sensitive extension
    ([.whl] and [.zip]: zip, [.tar.gz]: gzip, else the generic type). *)
Theorem parse_metadata_fields :
  (forall p,
     Rpm.parse_metadata p [] = Err (lit "Empty file") /\
     Unity.parse_metadata p [] = Err (lit "Empty file") /\
     Pypi.parse_metadata p [] = Err (lit "Empty file")) /\
  (forall p data, data <> [] ->
     Rpm.parse_metadata p data
     = Ok (mkMetadata p (Rpm.extract_version_from_rpm_filename p)
             (classify_by_magic rpm_magic_table data) (Z.of_nat (length data)) None) /\
     Unity.parse_metadata p data
     = Ok (mkMetadata p (Unity.extract_version_from_path p)
             (classify_by_magic unity_magic_table data) (Z.of_nat (length data)) None) /\
     Pypi.parse_metadata p data
     = Ok (mkMetadata p (Pypi.extract_version (rsplit_first c_slash p))
             (classify_by_extension pypi_extension_table (rsplit_first c_slash p))
             (Z.of_nat (length data)) None)).
Proof.
  split; [intros p; repeat split|].
  intros p data Hd. destruct data as [|x d]; [congruence|]. split; [|split].
  - unfold Rpm.parse_metadata, classify_by_magic, rpm_magic_table.
    rewrite rpm_magic_check. reflexivity.
  - unfold Unity.parse_metadata, classify_by_magic, unity_magic_table.
    rewrite unity_magic_check. reflexivity.
  - unfold Pypi.parse_metadata, classify_by_extension, pypi_extension_table.
    cbv zeta. destruct (ends_with (lit ".whl") (rsplit_first c_slash p)); reflexivity.
Qed.

(** C4 (as stated): no classification of the data alone gives the Python
    handler's content type; the same bytes (a gzip signature) are typed
    [application/zip] under [a-1.whl] and [application/octet-stream] under
    [a-1.txt]. *)
Lemma parse_metadata_content_type_not_from_bytes :
  ~ (exists classify : list Z -> rstring, forall p data, data <> [] ->
       option_map content_type (ok_value (Pypi.parse_metadata p data))
       = Some (classify data)).
Proof.
  intros [classify H].
  pose proof (H (lit "a-1.whl") [0x1f; 0x8b] ltac:(discriminate)) as H1.
  pose proof (H (lit "a-1.txt") [0x1f; 0x8b] ltac:(discriminate)) as H2.
  vm_compute in H1, H2. rewrite <- H2 in H1. discriminate H1.
Qed.

(** ** Fetch by filename *)

Lemma no_trailing_slash_app (pre f : rstring) :
  f <> [] -> contains c_slash f = false -> no_trailing c_slash (pre ++ f).
Proof.
  intros Hne Hc t E. destruct (exists_last Hne) as (f' & x & ->).
  rewrite app_assoc in E. apply app_inj_tail in E as [_ ->].
  unfold contains in Hc. rewrite existsb_app in Hc. simpl in Hc.
  destruct (existsb _ f'); discriminate Hc.
Qed.

Lemma zl_eqb_eq (x y : list Z) : zl_eqb x y = true <-> x = y.
Proof.
  revert y. induction x as [|u x IHx]; destruct y as [|v y]; simpl; try (split; congruence).
  rewrite andb_true_iff, Z.eqb_eq, IHx. split; [intros [-> ->]; reflexivity|].
  intros E; injection E as -> ->; split; reflexivity.
Qed.

Lemma find_by_filename_spec (filename : rstring) (artifacts : list Metadata) :
  (forall a, find_by_filename filename artifacts = Some a ->
     exists pre post, artifacts = pre ++ a :: post
       /\ rsplit_first c_slash (path a) = filename
       /\ Forall (fun b => rsplit_first c_slash (path b) <> filename) pre) /\
  (find_by_filename filename artifacts = None <->
     Forall (fun b => rsplit_first c_slash (path b) <> filename) artifacts).
Proof.
  unfold find_by_filename. induction artifacts as [|b l [IH1 IH2]]; simpl.
  - split; [discriminate|split; constructor].
  - pose proof zl_eqb_eq as Hz.
    destruct (zl_eqb (rsplit_first c_slash (path b)) filename) eqn:E.
    + apply Hz in E. split.
      * intros a Ea. injection Ea as <-. exists [], l. repeat split; [exact E|constructor].
      * split; [discriminate|]. intros H. inversion H. contradiction.
    + assert (Hn : rsplit_first c_slash (path b) <> filename)
        by (intros Hf; apply Hz in Hf; congruence).
      split.
      * intros a Ea. destruct (IH1 a Ea) as (pre & post & -> & Ha & Hpre).
        exists (b :: pre), post. repeat split; [exact Ha|constructor; assumption].
      * rewrite IH2. split; [intros H; constructor; assumption|intros H; inversion H; assumption].
Qed.

Lemma pypi_packages_route (to_lowercase : rstring -> rstring) (m : rstring)
  (context : RepoContext) (artifacts : list Metadata) (filename : rstring) :
  filename <> [] -> contains c_slash filename = false ->
  m = lit "GET" \/ m = lit "HEAD" ->
  Pypi.handle_request to_lowercase (mkHttpRequest m (lit "/packages/" ++ filename))
    context artifacts = handle_package_download filename context artifacts.
Proof.
  intros Hne Hc Hm. unfold Pypi.handle_request. cbv zeta. cbn [req_path method].
  rewrite (trim_end_id c_slash _ (no_trailing_slash_app _ _ Hne Hc)).
  rewrite strip_prefix_app, Hc, length_nonzero by exact Hne.
  destruct Hm as [->| ->]; simpl; reflexivity.
Qed.

Lemma rpm_packages_route (m : rstring) (context : RepoContext) (artifacts : list Metadata)
  (filename : rstring) (prefix : rstring) :
  filename <> [] -> contains c_slash filename = false ->
  m = lit "GET" \/ m = lit "HEAD" ->
  prefix = lit "/packages/" \/ prefix = lit "/Packages/" ->
  Rpm.handle_request (mkHttpRequest m (prefix ++ filename)) context artifacts
  = handle_package_download filename context artifacts.
Proof.
  intros Hne Hc Hm Hp. unfold Rpm.handle_request. cbv zeta. cbn [req_path method].
  rewrite (trim_end_id c_slash _ (no_trailing_slash_app _ _ Hne Hc)).
  destruct Hm as [->| ->]; destruct Hp as [->| ->]; simpl;
    rewrite ?strip_prefix_app, Hc, length_nonzero by exact Hne; reflexivity.
Qed.

Lemma trim_end_slash (p : rstring) :
  trim_end_matches c_slash (p ++ lit "/") = trim_end_matches c_slash p.
Proof.
  unfold trim_end_matches. rewrite rev_app_distr. change (rev (lit "/")) with [c_slash].
  cbn [app trim_start_matches]. now rewrite Z.eqb_refl.
Qed.

Lemma trim_end_repeat_slash (p : rstring) (k : nat) :
  trim_end_matches c_slash (p ++ repeat c_slash k) = trim_end_matches c_slash p.
Proof.
  induction k as [|k IH]; [now rewrite app_nil_r|].
  replace (repeat c_slash (S k)) with (repeat c_slash k ++ lit "/")
    by (change (lit "/") with (repeat c_slash 1); rewrite <- repeat_app;
        f_equal; lia).
  now rewrite app_assoc, trim_end_slash.
Qed.

Lemma packages_empty_trim (prefix : rstring) (k : nat) :
  prefix = lit "/packages" \/ prefix = lit "/Packages" ->
  trim_end_matches c_slash (prefix ++ lit "/" ++ repeat c_slash k) = prefix.
Proof.
  intros Hp. change (lit "/" ++ repeat c_slash k) with (repeat c_slash (S k)).
  rewrite trim_end_repeat_slash. destruct Hp as [-> | ->]; reflexivity.
Qed.

(** ** Claim C8 *)

(** C8 (as the code has it): for a non-empty filename without ['/'], a GET
    or HEAD of [/packages/{filename}] (for RPM also [/Packages/{filename}])
    answers, in both routers, 302 with [location] set to
    [{download_base_url}/{path}] of the first artifact whose last path
    segment is the filename, with an empty body; when no artifact's last
    segment is the filename it answers 404, [text/plain], with the body
    [Package '{filename}' not found]. An empty filename, that is a path
    [/packages/] or [/Packages/] followed only by further ['/'], is not
    routed to the download handler: both routers answer the generic 404
    [Not Found]. *)
Theorem package_download_by_filename (to_lowercase : rstring -> rstring) (m : rstring)
  (context : RepoContext) (artifacts : list Metadata) (filename : rstring)
  (Hslash : contains c_slash filename = false)
  (Hm : m = lit "GET" \/ m = lit "HEAD") :
  (filename <> [] ->
  (forall a pre post,
     artifacts = pre ++ a :: post ->
     rsplit_first c_slash (path a) = filename ->
     Forall (fun b => rsplit_first c_slash (path b) <> filename) pre ->
     let resp := mkHttpResponse 302
                   [(lit "location", download_base_url context ++ lit "/" ++ path a)] [] in
     Pypi.handle_request to_lowercase (mkHttpRequest m (lit "/packages/" ++ filename))
       context artifacts = Ok resp /\
     Rpm.handle_request (mkHttpRequest m (lit "/packages/" ++ filename)) context artifacts
       = Ok resp /\
     Rpm.handle_request (mkHttpRequest m (lit "/Packages/" ++ filename)) context artifacts
       = Ok resp) /\
  (Forall (fun b => rsplit_first c_slash (path b) <> filename) artifacts ->
     let resp := mkHttpResponse 404 [(lit "content-type", lit "text/plain")]
                   (into_bytes (lit "Package '" ++ filename ++ lit "' not found")) in
     Pypi.handle_request to_lowercase (mkHttpRequest m (lit "/packages/" ++ filename))
       context artifacts = Ok resp /\
     Rpm.handle_request (mkHttpRequest m (lit "/packages/" ++ filename)) context artifacts
       = Ok resp /\
     Rpm.handle_request (mkHttpRequest m (lit "/Packages/" ++ filename)) context artifacts
       = Ok resp)) /\
  (forall k : nat,
     Pypi.handle_request to_lowercase
       (mkHttpRequest m (lit "/packages/" ++ repeat c_slash k)) context artifacts = Ok not_found /\
     Rpm.handle_request (mkHttpRequest m (lit "/packages/" ++ repeat c_slash k)) context artifacts
       = Ok not_found /\
     Rpm.handle_request (mkHttpRequest m (lit "/Packages/" ++ repeat c_slash k)) context artifacts
       = Ok not_found).
Proof.
  split.
  2:{ intros k.
      change (lit "/packages/") with (lit "/packages" ++ lit "/").
      change (lit "/Packages/") with (lit "/Packages" ++ lit "/").
      rewrite <- !app_assoc.
      unfold Pypi.handle_request, Rpm.handle_request. cbv zeta. cbn [req_path method].
      rewrite !packages_empty_trim by auto.
      destruct Hm as [-> | ->]; vm_compute; repeat split. }
  intros Hne.
  rewrite (pypi_packages_route to_lowercase m context artifacts filename Hne Hslash Hm).
  rewrite (rpm_packages_route m context artifacts filename _ Hne Hslash Hm (or_introl eq_refl)).
  rewrite (rpm_packages_route m context artifacts filename _ Hne Hslash Hm (or_intror eq_refl)).
  unfold handle_package_download. split.
  - intros a pre post -> Ha Hpre. cbv zeta.
    assert (E : find_by_filename filename (pre ++ a :: post) = Some a).
    { clear Hm Hne Hslash. unfold find_by_filename. induction pre as [|b pre IH]; simpl.
      - rewrite Ha. now rewrite (proj2 (zl_eqb_eq _ _) eq_refl).
      - inversion Hpre as [|? ? Hb Hpre']; subst.
        destruct (zl_eqb (rsplit_first c_slash (path b)) (rsplit_first c_slash (path a))) eqn:Eb.
        + exfalso. apply Hb. now apply zl_eqb_eq.
        + exact (IH Hpre'). }
    rewrite E. repeat split.
  - intros Hall. cbv zeta.
    rewrite (proj2 (proj2 (find_by_filename_spec filename artifacts)) Hall).
    repeat split.
Qed.

Lemma package_download_by_filename_witness :
  let context := mkRepoContext (lit "https://repo.example/pypi")
                               (lit "https://repo.example/download") in
  let a := mkMetadata (lit "pkgs/a-1.0-py3-none-any.whl") None (lit "application/zip") 3 None in
  (lit "a-1.0-py3-none-any.whl" <> [] /\
   contains c_slash (lit "a-1.0-py3-none-any.whl") = false /\
   (lit "GET" = lit "GET" \/ lit "GET" = lit "HEAD")) /\
  Pypi.handle_request (map ascii_lower)
    (mkHttpRequest (lit "GET") (lit "/packages/" ++ lit "a-1.0-py3-none-any.whl")) context [a]
  = Ok (mkHttpResponse 302
          [(lit "location", lit "https://repo.example/download/pkgs/a-1.0-py3-none-any.whl")] []).
Proof.
  cbv zeta. split; [split; [discriminate|split; [reflexivity|left; reflexivity]]|].
  refine (proj1 (proj1 (proj1 (package_download_by_filename (map ascii_lower) (lit "GET")
    (mkRepoContext (lit "https://repo.example/pypi") (lit "https://repo.example/download"))
    [mkMetadata (lit "pkgs/a-1.0-py3-none-any.whl") None (lit "application/zip") 3 None]
    (lit "a-1.0-py3-none-any.whl") eq_refl (or_introl eq_refl)) ltac:(discriminate))
    (mkMetadata (lit "pkgs/a-1.0-py3-none-any.whl") None (lit "application/zip") 3 None)
    [] [] eq_refl eq_refl (Forall_nil _))).
Defined.

(** C8 (as stated): an artifact whose path ends in ['/'] has an empty last
    segment, and the request [/packages/] for it is answered with the
    generic 404 [Not Found], not with a redirect. *)
Lemma package_download_empty_segment :
  ~ (forall (to_lowercase : rstring -> rstring) (context : RepoContext)
            (artifacts : list Metadata) (a : Metadata),
       In a artifacts ->
       Pypi.handle_request to_lowercase
         (mkHttpRequest (lit "GET") (lit "/packages/" ++ rsplit_first c_slash (path a)))
         context artifacts
       = Ok (mkHttpResponse 302
               [(lit "location", download_base_url context ++ lit "/" ++ path a)] [])).
Proof.
  intros H.
  specialize (H (map ascii_lower)
                (mkRepoContext (lit "https://repo.example/pypi") (lit "https://repo.example/download"))
                [mkMetadata (lit "pkgs/") None (lit "application/zip") 3 None]
                (mkMetadata (lit "pkgs/") None (lit "application/zip") 3 None)
                (or_introl eq_refl)).
  vm_compute in H. discriminate H.
Qed.

(** ** Version extraction *)

Lemma find_some_split {A} (f : A -> bool) (l : list A) (v : A) :
  find f l = Some v <->
  exists a b, l = a ++ v :: b /\ f v = true /\ forallb (fun x => negb (f x)) a = true.
Proof.
  induction l as [|x l IH]; simpl.
  - split; [discriminate|]. intros (a & b & E & _). destruct a; discriminate.
  - destruct (f x) eqn:Fx; split.
    + intros E; injection E as <-. exists [], l. auto.
    + intros (a & b & E & Fv & Ha). destruct a as [|y a].
      * injection E as -> _. reflexivity.
      * injection E as -> _. simpl in Ha. rewrite Fx in Ha. discriminate Ha.
    + intros E. apply IH in E as (a & b & -> & Fv & Ha).
      exists (x :: a), b. simpl. rewrite Fx. auto.
    + intros (a & b & E & Fv & Ha). destruct a as [|y a].
      * injection E as -> _. congruence.
      * injection E as -> E. apply IH. exists a, b. simpl in Ha.
        apply andb_prop in Ha as [_ Ha]. auto.
Qed.

Lemma find_none_forallb {A} (f : A -> bool) (l : list A) :
  find f l = None <-> forallb (fun x => negb (f x)) l = true.
Proof.
  induction l as [|x l IH]; simpl; [split; reflexivity|].
  destruct (f x); simpl; [split; discriminate|exact IH].
Qed.

Lemma forallb_rev {A} (f : A -> bool) (l : list A) : forallb f (rev l) = forallb f l.
Proof.
  induction l as [|x l IH]; simpl; [reflexivity|].
  rewrite forallb_app, IH. simpl. now rewrite andb_true_r, andb_comm.
Qed.

Lemma find_rev_split {A} (f : A -> bool) (l : list A) (v : A) :
  find f (rev l) = Some v <->
  exists left right, l = left ++ v :: right /\ f v = true
                     /\ forallb (fun x => negb (f x)) right = true.
Proof.
  rewrite find_some_split. split.
  - intros (a & b & E & Fv & Ha). exists (rev b), (rev a). repeat split; auto.
    + rewrite <- (rev_involutive l), E, rev_app_distr. simpl. now rewrite <- app_assoc.
    + now rewrite forallb_rev.
  - intros (left & right & -> & Fv & Hr). exists (rev right), (rev left).
    repeat split; auto.
    + rewrite rev_app_distr. simpl. now rewrite <- app_assoc.
    + now rewrite forallb_rev.
Qed.

Lemma find_hyphen_tails (g : rstring -> bool) (stem v : rstring) :
  find g (Unity.hyphen_tails stem) = Some v <->
  exists pre, stem = pre ++ c_dash :: v /\ g v = true /\
    (forall pre' v', stem = pre' ++ c_dash :: v' -> (length pre' < length pre)%nat ->
                     g v' = false).
Proof.
  revert v. induction stem as [|x s IH]; intros v; simpl.
  - split; [discriminate|]. intros (pre & E & _). destruct pre; discriminate.
  - destruct (Z.eqb_spec x c_dash) as [Ex|Ex].
    + subst x. simpl. destruct (g s) eqn:Gs.
      * split.
        -- intros E; injection E as <-. exists []. repeat split; auto.
           intros pre' v' _ Hl. simpl in Hl. lia.
        -- intros (pre & E & Gv & Hmin). destruct pre as [|y pre].
           ++ injection E as ->. reflexivity.
           ++ exfalso. rewrite (Hmin [] s eq_refl) in Gs; [discriminate|simpl; lia].
      * rewrite IH. split.
        -- intros (pre & E & Gv & Hmin). exists (c_dash :: pre).
           repeat split; [simpl; congruence|exact Gv|].
           intros pre' v' E' Hl. destruct pre' as [|y pre'].
           ++ injection E' as E'. subst v'. exact Gs.
           ++ injection E' as _ E'. apply (Hmin pre' v' E'). simpl in Hl. lia.
        -- intros (pre & E & Gv & Hmin). destruct pre as [|y pre].
           ++ injection E as <-. congruence.
           ++ injection E as _ E. exists pre. repeat split; auto.
              intros pre' v' E' Hl. apply (Hmin (c_dash :: pre') v'); [simpl; congruence|].
              simpl. lia.
    + rewrite IH. split.
      * intros (pre & E & Gv & Hmin). exists (x :: pre).
        repeat split; [simpl; congruence|exact Gv|].
        intros pre' v' E' Hl. destruct pre' as [|y pre'].
        -- injection E' as E'. congruence.
        -- injection E' as _ E'. apply (Hmin pre' v' E'). simpl in Hl. lia.
      * intros (pre & E & Gv & Hmin). destruct pre as [|y pre].
        -- injection E as E. congruence.
        -- injection E as _ E. exists pre. repeat split; auto.
           intros pre' v' E' Hl. apply (Hmin (x :: pre') v'); [simpl; congruence|].
           simpl. lia.
Qed.

Lemma hyphen_tails_in (pre v : rstring) : In v (Unity.hyphen_tails (pre ++ c_dash :: v)).
Proof.
  induction pre as [|y pre IHp]; simpl; [left; reflexivity|].
  destruct (y =? _); [right|]; exact IHp.
Qed.

Lemma hyphen_tails_split (s c : rstring) :
  In c (Unity.hyphen_tails s) -> exists pre, s = pre ++ c_dash :: c.
Proof.
  induction s as [|y s IHs]; simpl; [contradiction|].
  destruct (Z.eqb_spec y c_dash) as [->|]; simpl.
  - intros [<-|H]; [exists []; reflexivity|].
    destruct (IHs H) as [pre ->]. exists (c_dash :: pre). reflexivity.
  - intros H. destruct (IHs H) as [pre ->]. exists (y :: pre). reflexivity.
Qed.

(** ** Claim C7 *)

(** C7 (as the code has it): the version is the rightmost path segment
    that looks like a version; when no segment does, it is the remainder
    after the first ['-'] of the filename stem whose remainder both starts
    with a digit and looks like a version (hyphens whose remainder fails
    are passed over); otherwise there is none. *)
Theorem unity_extract_version_characterization (p v : rstring) :
  (Unity.extract_version_from_path p = Some v <->
     (exists left right, split c_slash p = left ++ v :: right
        /\ Unity.is_semver_like v = true
        /\ forallb (fun s => negb (Unity.is_semver_like s)) right = true)
     \/
     (forallb (fun s => negb (Unity.is_semver_like s)) (split c_slash p) = true /\
      exists stem pre, unity_filename_stem p = Some stem
        /\ stem = pre ++ c_dash :: v
        /\ Unity.starts_with_digit v && Unity.is_semver_like v = true
        /\ (forall pre' v', stem = pre' ++ c_dash :: v' -> (length pre' < length pre)%nat ->
              Unity.starts_with_digit v' && Unity.is_semver_like v' = false))) /\
  (Unity.extract_version_from_path p = None <->
     forallb (fun s => negb (Unity.is_semver_like s)) (split c_slash p) = true /\
     forall stem, unity_filename_stem p = Some stem ->
       forall pre v', stem = pre ++ c_dash :: v' ->
         Unity.starts_with_digit v' && Unity.is_semver_like v' = false).
Proof.
  assert (Hunf : Unity.extract_version_from_path p =
    match find Unity.is_semver_like (rev (split c_slash p)) with
    | Some part => Some part
    | None =>
        match unity_filename_stem p with
        | None => None
        | Some stem =>
            find (fun c => Unity.starts_with_digit c && Unity.is_semver_like c)
                 (Unity.hyphen_tails stem)
        end
    end) by reflexivity.
  rewrite Hunf. clear Hunf.
  destruct (find Unity.is_semver_like (rev (split c_slash p))) as [part|] eqn:Ef.
  - pose proof Ef as Ef'. apply find_rev_split in Ef' as (l & r & El & Sp & _).
    assert (Hnot : forallb (fun s => negb (Unity.is_semver_like s)) (split c_slash p) = false).
    { rewrite El, forallb_app. simpl. rewrite Sp. simpl. now rewrite andb_false_r. }
    rewrite Hnot. split.
    + rewrite <- find_rev_split, Ef. split.
      * intros E; left; exact E.
      * intros [E|[Hf _]]; [exact E|discriminate Hf].
    + split; [discriminate|intros [Hf _]; discriminate Hf].
  - pose proof Ef as Ef'. apply find_none_forallb in Ef'. rewrite forallb_rev in Ef'.
    assert (HnoA : ~ exists left right, split c_slash p = left ++ v :: right
                     /\ Unity.is_semver_like v = true
                     /\ forallb (fun s => negb (Unity.is_semver_like s)) right = true).
    { intros (l & r & El & Sv & _). rewrite El, forallb_app in Ef'. simpl in Ef'.
      rewrite Sv in Ef'. simpl in Ef'. rewrite andb_false_r in Ef'. discriminate Ef'. }
    destruct (unity_filename_stem p) as [stem|] eqn:Es.
    + split.
      * rewrite find_hyphen_tails. split.
        -- intros (pre & E & G & Hmin). right. split; [exact Ef'|].
           exists stem, pre. auto.
        -- intros [A|(_ & stem' & pre & Es' & E & G & Hmin)]; [contradiction|].
           injection Es' as <-. exists pre. auto.
      * rewrite find_none_forallb. split.
        -- intros Hall. split; [exact Ef'|]. intros stem' Es' pre v' E.
           injection Es' as <-. subst stem.
           apply forallb_forall with (x := v') in Hall.
           ++ now apply negb_true_iff in Hall.
           ++ apply hyphen_tails_in.
        -- intros [_ Hall]. apply forallb_forall. intros c Hc.
           apply negb_true_iff.
           destruct (hyphen_tails_split stem c Hc) as [pre E]. exact (Hall stem eq_refl pre c E).
    + split.
      * split; [discriminate|].
        intros [A|(_ & stem & pre & Es' & _)]; [contradiction|discriminate Es'].
      * split; [intros _; split; [exact Ef'|intros stem Hs; discriminate Hs]|reflexivity].
Qed.

(** C7 (as stated): for [pkg-1_0-2.0.unitypackage] the first ['-']
    followed by a digit starts [1_0-2.0], which does not look like a
    version, so the literal reading finds none; the code passes over that
    hyphen and returns [2.0]. *)
Lemma unity_version_skips_non_version_hyphen :
  Unity.extract_version_from_path (lit "pkg-1_0-2.0.unitypackage") = Some (lit "2.0") /\
  unity_version_fallback_literal (lit "pkg-1_0-2.0.unitypackage") = None /\
  ~ (forall p, Unity.extract_version_from_path p = unity_version_fallback_literal p).
Proof.
  split; [vm_compute; reflexivity|split; [vm_compute; reflexivity|]].
  intros H. specialize (H (lit "pkg-1_0-2.0.unitypackage")). vm_compute in H. discriminate H.
Qed.

(** ** Ordering of names *)

Lemma str_ltb_irrefl (a : rstring) : Json.str_ltb a a = false.
Proof.
  induction a as [|x a IH]; simpl; [reflexivity|].
  rewrite Z.ltb_irrefl, Z.eqb_refl, IH. reflexivity.
Qed.

Lemma str_ltb_trans (a b c : rstring) :
  Json.str_ltb a b = true -> Json.str_ltb b c = true -> Json.str_ltb a c = true.
Proof.
  revert b c. induction a as [|x a IH]; intros [|y b] [|z c]; simpl; try discriminate; auto.
  rewrite !orb_true_iff, !andb_true_iff, !Z.ltb_lt, !Z.eqb_eq.
  intros [H1|[-> H1]] [H2|[-> H2]]; [left; lia|left; lia|left; lia|].
  right. split; [reflexivity|]. eapply IH; eassumption.
Qed.

Lemma str_ltb_total (a b : rstring) :
  a = b \/ Json.str_ltb a b = true \/ Json.str_ltb b a = true.
Proof.
  revert b. induction a as [|x a IH]; intros [|y b]; simpl; auto.
  rewrite !orb_true_iff, !andb_true_iff, !Z.ltb_lt, !Z.eqb_eq.
  destruct (Z.lt_trichotomy x y) as [H|[->|H]]; [right; left; left; exact H| |right; right; left; exact H].
  destruct (IH b) as [->|[H|H]]; [left; reflexivity|right; left; right; auto|right; right; right; auto].
Qed.

Lemma str_ltb_asym (a b : rstring) : Json.str_ltb a b = true -> Json.str_ltb b a = false.
Proof.
  intros H. destruct (Json.str_ltb b a) eqn:E; [|reflexivity].
  rewrite <- (str_ltb_irrefl a). symmetry. exact (str_ltb_trans _ _ _ H E).
Qed.


Lemma insert_sorted_perm (x : rstring) (l : list rstring) :
  Permutation (insert_sorted x l) (x :: l).
Proof.
  induction l as [|y l IH]; simpl; [reflexivity|].
  destruct (Json.str_ltb y x); [|reflexivity].
  rewrite IH. apply perm_swap.
Qed.

Lemma sort_perm (l : list rstring) : Permutation (sort l) l.
Proof.
  induction l as [|x l IH]; simpl; [reflexivity|].
  rewrite insert_sorted_perm. now apply perm_skip.
Qed.

Lemma insert_sorted_hd (z x : rstring) (l : list rstring) :
  HdRel str_le z l -> str_le z x -> HdRel str_le z (insert_sorted x l).
Proof.
  destruct l as [|y l]; simpl; intros H1 H2; [constructor; exact H2|].
  destruct (Json.str_ltb y x); constructor; [now inversion H1|exact H2].
Qed.

Lemma insert_sorted_sorted (x : rstring) (l : list rstring) :
  Sorted str_le l -> Sorted str_le (insert_sorted x l).
Proof.
  induction l as [|y l IH]; simpl; intros H; [repeat constructor|].
  destruct (Json.str_ltb y x) eqn:E.
  - inversion H as [|? ? Hl Hhd]; subst. constructor; [exact (IH Hl)|].
    apply insert_sorted_hd; [exact Hhd|]. unfold str_le. now apply str_ltb_asym.
  - constructor; [exact H|constructor; exact E].
Qed.

Lemma sort_sorted (l : list rstring) : Sorted str_le (sort l).
Proof.
  induction l as [|x l IH]; simpl; [constructor|]. now apply insert_sorted_sorted.
Qed.

Lemma dedup_cons2 (x y : rstring) (l : list rstring) :
  dedup (x :: y :: l) = if zl_eqb x y then dedup (y :: l) else x :: dedup (y :: l).
Proof. reflexivity. Qed.

Lemma dedup_head (l : list rstring) : forall x, exists r, dedup (x :: l) = x :: r.
Proof.
  induction l as [|y l IH]; intros x; [exists []; reflexivity|].
  rewrite dedup_cons2. destruct (zl_eqb x y) eqn:E.
  - apply zl_eqb_eq in E as ->. exact (IH y).
  - exists (dedup (y :: l)). reflexivity.
Qed.

Lemma dedup_in (l : list rstring) : forall x z, In z (dedup (x :: l)) <-> In z (x :: l).
Proof.
  induction l as [|y l IH]; intros x z; [reflexivity|].
  rewrite dedup_cons2. destruct (zl_eqb x y) eqn:E.
  - apply zl_eqb_eq in E as ->. rewrite IH. cbn [In]. tauto.
  - cbn [In]. rewrite IH. cbn [In]. tauto.
Qed.

Lemma dedup_sorted (l : list rstring) : forall x,
  Sorted str_le (x :: l) -> Sorted str_lt (dedup (x :: l)).
Proof.
  induction l as [|y l IH]; intros x H; [repeat constructor|].
  rewrite dedup_cons2. inversion H as [|? ? Hl Hhd]; subst.
  inversion Hhd as [|? ? Hxy]; subst.
  destruct (zl_eqb x y) eqn:E; [exact (IH y Hl)|].
  destruct (dedup_head l y) as [r Er]. specialize (IH y Hl). rewrite Er in IH |- *.
  constructor; [exact IH|constructor].
  unfold str_le in Hxy. unfold str_lt.
  destruct (str_ltb_total x y) as [->|[H1|H1]]; [|exact H1|congruence].
  rewrite (proj2 (zl_eqb_eq y y) eq_refl) in E. discriminate E.
Qed.

Lemma strictly_sorted_unique (l1 : list rstring) : forall l2,
  StronglySorted str_lt l1 -> StronglySorted str_lt l2 ->
  (forall z, In z l1 <-> In z l2) -> l1 = l2.
Proof.
  induction l1 as [|x r1 IH]; intros [|y r2] H1 H2 Hin; auto.
  - exfalso. apply (proj2 (Hin y)). left. reflexivity.
  - exfalso. apply (proj1 (Hin x)). left. reflexivity.
  - apply StronglySorted_inv in H1 as [H1 F1]. apply StronglySorted_inv in H2 as [H2 F2].
    rewrite Forall_forall in F1, F2.
    assert (Exy : x = y).
    { destruct (proj1 (Hin x) (or_introl eq_refl)) as [<-|Hx]; [reflexivity|].
      destruct (proj2 (Hin y) (or_introl eq_refl)) as [->|Hy]; [reflexivity|].
      exfalso. pose proof (F2 x Hx) as A. pose proof (F1 y Hy) as B.
      unfold str_lt in A, B. rewrite (str_ltb_asym _ _ A) in B. discriminate B. }
    subst y. f_equal. apply IH; auto. intros z. split.
    + intros Hz. destruct (proj1 (Hin z) (or_intror Hz)) as [<-|Hz']; [|exact Hz'].
      exfalso. pose proof (F1 x Hz) as A. unfold str_lt in A.
      rewrite str_ltb_irrefl in A. discriminate A.
    + intros Hz. destruct (proj2 (Hin z) (or_intror Hz)) as [<-|Hz']; [|exact Hz'].
      exfalso. pose proof (F2 x Hz) as A. unfold str_lt in A.
      rewrite str_ltb_irrefl in A. discriminate A.
Qed.

Lemma str_lt_trans : Relations_1.Transitive str_lt.
Proof. intros a b c. apply str_ltb_trans. Qed.

Lemma dedup_sort_strict (l : list rstring) : StronglySorted str_lt (dedup (sort l)).
Proof.
  apply Sorted_StronglySorted; [exact str_lt_trans|].
  pose proof (sort_sorted l) as H. destruct (sort l) as [|x r]; [constructor|].
  exact (dedup_sorted r x H).
Qed.

Lemma dedup_sort_in (l : list rstring) (z : rstring) : In z (dedup (sort l)) <-> In z l.
Proof.
  assert (Hs : In z (dedup (sort l)) <-> In z (sort l)).
  { destruct (sort l) as [|x r]; [reflexivity|]. apply dedup_in. }
  rewrite Hs. split; apply Permutation_in; [|symmetry]; apply sort_perm.
Qed.

(** ** Claim C3 *)

(** C3 (as the code has it): the Python handler's [simple/index.html]
    lists the distinct normalized names of the artifacts, in strictly
    increasing lexicographic order of code points, so any permutation of
    the artifacts gives the same list. The JSON indexes of all three
    handlers ([pypi-index.json], [rpm-index.json], [unity-index.json]) have
    one entry per artifact, in input order, and for each handler swapping
    two artifacts changes the returned documents. *)
Theorem pypi_simple_index_order (to_lowercase : rstring -> rstring) :
  (forall artifacts, StronglySorted str_lt (Pypi.package_names to_lowercase artifacts)) /\
  (forall artifacts n,
     In n (Pypi.package_names to_lowercase artifacts) <->
     exists a m, In a artifacts
       /\ Pypi.extract_package_name (rsplit_first c_slash (path a)) = Some m
       /\ Pypi.normalize_package_name to_lowercase m = n) /\
  (forall artifacts artifacts', Permutation artifacts artifacts' ->
     Pypi.package_names to_lowercase artifacts = Pypi.package_names to_lowercase artifacts') /\
  (forall a l,
     Pypi.generate_index to_lowercase (a :: l)
     = Ok (Some [(lit "simple/index.html",
                  into_bytes (Pypi.simple_index_html (Pypi.package_names to_lowercase (a :: l))));
                 (lit "pypi-index.json",
                  into_bytes (Json.pretty 0 (Json.object
                    [(lit "format", Json.String (lit "pypi-custom"));
                     (lit "total_count", Json.Number (Z.of_nat (length (a :: l))));
                     (lit "total_size_bytes", Json.Number (total_size (a :: l)));
                     (lit "packages", Json.Array (map (Pypi.index_entry to_lowercase) (a :: l)))])))])) /\
  (forall a l,
     Rpm.generate_index (a :: l)
     = Ok (Some [(lit "rpm-index.json",
                  into_bytes (Json.pretty 0 (Json.object
                    [(lit "format", Json.String (lit "rpm-custom"));
                     (lit "total_count", Json.Number (Z.of_nat (length (a :: l))));
                     (lit "total_size_bytes", Json.Number (total_size (a :: l)));
                     (lit "packages", Json.Array (map Rpm.index_entry (a :: l)))])))])) /\
  (forall a l,
     Unity.generate_index (a :: l)
     = Ok (Some [(lit "unity-index.json",
                  into_bytes (Json.pretty 0 (Json.object
                    [(lit "format", Json.String (lit "unity"));
                     (lit "total_count", Json.Number (Z.of_nat (length (a :: l))));
                     (lit "total_size_bytes", Json.Number (total_size (a :: l)));
                     (lit "packages", Json.Array (map Unity.index_entry (a :: l)))])))])) /\
  (exists a b, Pypi.generate_index to_lowercase [a; b] <> Pypi.generate_index to_lowercase [b; a]) /\
  (exists a b, Rpm.generate_index [a; b] <> Rpm.generate_index [b; a]) /\
  (exists a b, Unity.generate_index [a; b] <> Unity.generate_index [b; a]).
Proof.
  assert (Hin : forall artifacts n,
     In n (Pypi.package_names to_lowercase artifacts) <->
     exists a m, In a artifacts
       /\ Pypi.extract_package_name (rsplit_first c_slash (path a)) = Some m
       /\ Pypi.normalize_package_name to_lowercase m = n).
  { intros artifacts n. unfold Pypi.package_names. rewrite dedup_sort_in, in_flat_map.
    split.
    - intros (a & Ha & Hn). destruct (Pypi.extract_package_name _) as [m|] eqn:Em;
        [|contradiction]. destruct Hn as [<-|[]]. exists a, m. auto.
    - intros (a & m & Ha & Em & <-). exists a. split; [exact Ha|]. rewrite Em. left. reflexivity. }
  split; [intros artifacts; apply dedup_sort_strict|].
  split; [exact Hin|].
  split.
  - intros artifacts artifacts' Hp. apply strictly_sorted_unique; try apply dedup_sort_strict.
    intros z. unfold Pypi.package_names. rewrite !dedup_sort_in.
    split; apply Permutation_in; [|symmetry]; apply Permutation_flat_map; exact Hp.
  - split; [intros a l; reflexivity|].
    split; [intros a l; reflexivity|].
    split; [intros a l; reflexivity|].
    split; [|split]; exists (mkMetadata (lit "a.txt") None (lit "text/plain") 1 None),
      (mkMetadata (lit "b.txt") None (lit "text/plain") 2 None);
      vm_compute; intros H; discriminate H.
Qed.

(** C3 (as stated): the Unity index of two artifacts depends on their
    order, so not every handler's index is invariant under permutation. *)
Lemma unity_index_depends_on_order :
  let a := mkMetadata (lit "A-1.0.unitypackage") (Some (lit "1.0")) (lit "application/gzip") 10 None in
  let b := mkMetadata (lit "B-2.0.unitypackage") (Some (lit "2.0")) (lit "application/gzip") 20 None in
  Permutation [a; b] [b; a] /\
  Unity.generate_index [a; b] <> Unity.generate_index [b; a] /\
  ~ (forall artifacts artifacts', artifacts <> [] -> Permutation artifacts artifacts' ->
       Unity.generate_index artifacts = Unity.generate_index artifacts').
Proof.
  cbv zeta.
  assert (Hne : Unity.generate_index
      [mkMetadata (lit "A-1.0.unitypackage") (Some (lit "1.0")) (lit "application/gzip") 10 None;
       mkMetadata (lit "B-2.0.unitypackage") (Some (lit "2.0")) (lit "application/gzip") 20 None]
    <> Unity.generate_index
      [mkMetadata (lit "B-2.0.unitypackage") (Some (lit "2.0")) (lit "application/gzip") 20 None;
       mkMetadata (lit "A-1.0.unitypackage") (Some (lit "1.0")) (lit "application/gzip") 10 None]).
  { vm_compute. intros H. discriminate H. }
  split; [apply perm_swap|split; [exact Hne|]].
  intros H. apply Hne. apply H; [discriminate|apply perm_swap].
Qed.

(** * Further properties of the plugins *)

(** ** Gzip framing *)

Lemma stored_blocks_len (cs : list (list Z)) : forall i n,
  length (Gzip.stored_blocks i n cs) = (5 * length cs + length (concat cs))%nat.
Proof.
  induction cs as [|c cs IH]; intros i n; [reflexivity|].
  cbn [Gzip.stored_blocks concat]. rewrite !length_app, IH. cbn [length to_le_bytes app].
  lia.
Qed.

Lemma chunks_aux_length (n : nat) (Hn : (0 < n)%nat) : forall fuel l,
  (length l <= fuel)%nat ->
  length (Gzip.chunks_aux fuel n l) = ((length l + n - 1) / n)%nat.
Proof.
  induction fuel as [|f IH]; intros l Hl.
  - destruct l; simpl in *; [|lia]. rewrite Nat.div_small; lia.
  - destruct l as [|x l'].
    + simpl. rewrite Nat.div_small; lia.
    + cbn [Gzip.chunks_aux length]. rewrite IH by (rewrite length_skipn; cbn [length] in *; lia).
      rewrite length_skipn. cbn [length].
      destruct (Nat.le_gt_cases (S (length l')) n) as [Hle|Hgt].
      * replace (S (length l') - n)%nat with 0%nat by lia.
        rewrite (Nat.div_small (0 + n - 1)) by lia.
        replace (S (length l') + n - 1)%nat with ((S (length l') - 1) + 1 * n)%nat by lia.
        rewrite Nat.div_add by lia. rewrite Nat.div_small by lia. reflexivity.
      * replace (S (length l') + n - 1)%nat with ((S (length l') - n + n - 1) + 1 * n)%nat
          by lia.
        rewrite Nat.div_add by lia. lia.
Qed.

(** The decoding half of the gzip round trip, shared by the properties of
    the compressed repodata responses. *)
Lemma gzip_compress_gunzip (data : list Z) :
  Forall (fun b => 0 <= b < 256) data ->
  exists out, Gzip.gzip_compress data = Ok out /\ Gzip.gunzip out = Some data.
Proof.
  intros Hbytes.
  set (cs := match data with [] => [[]] | _ => Gzip.chunks 65535 data end).
  assert (Hcs_ne : cs <> []).
  { unfold cs; destruct data as [|x l]; [congruence|].
    apply chunks_aux_nonempty; simpl; [congruence|lia]. }
  assert (Hcs_small : Forall (fun c => Z.of_nat (length c) <= 65535) cs).
  { unfold cs; destruct data; [repeat constructor; simpl; lia|apply chunks_65535_small]. }
  assert (Hcs_concat : concat cs = data).
  { unfold cs; destruct data as [|x l]; [reflexivity|].
    apply chunks_aux_concat; [apply Nat.ltb_lt; reflexivity|lia]. }
  eexists; split; [reflexivity|].
  fold cs.
  unfold Gzip.gunzip, Gzip.gzip_header.
  cbn [app Z.eqb andb Pos.eqb].
  rewrite (inflate_stored_blocks cs 0 (length cs)); auto.
  2: { rewrite length_app. pose proof (stored_blocks_length 0 (length cs) cs). lia. }
  rewrite Hcs_concat. cbn [to_le_bytes app].
  change [Z.land (Gzip.crc32 data) 255; Z.land (Z.shiftr (Gzip.crc32 data) 8) 255;
          Z.land (Z.shiftr (Z.shiftr (Gzip.crc32 data) 8) 8) 255;
          Z.land (Z.shiftr (Z.shiftr (Z.shiftr (Gzip.crc32 data) 8) 8) 8) 255]
    with (to_le_bytes 4 (Gzip.crc32 data)).
  set (sz := Z.of_nat (length data) mod 2 ^ 32).
  change [Z.land sz 255; Z.land (Z.shiftr sz 8) 255;
          Z.land (Z.shiftr (Z.shiftr sz 8) 8) 255;
          Z.land (Z.shiftr (Z.shiftr (Z.shiftr sz 8) 8) 8) 255]
    with (to_le_bytes 4 sz).
  rewrite !from_le_to_le.
  pose proof (crc32_u32 data Hbytes) as Hcrc. unfold u32 in Hcrc.
  change (8 * Z.of_nat 4) with 32.
  rewrite (Z.mod_small (Gzip.crc32 data)) by lia.
  unfold sz. rewrite Z.mod_mod by lia.
  rewrite !Z.eqb_refl. reflexivity.
Qed.

(** [gzip_compress] does not compress: its output is the input plus 18
    bytes of header and trailer and 5 bytes per stored block, one block
    per started 65535 bytes of input and a single block for empty input. *)
Theorem gzip_compress_length (data : list Z) :
  exists out, Gzip.gzip_compress data = Ok out /\
    length out = (length data + 18
                  + 5 * match data with
                        | [] => 1
                        | _ => (length data + 65534) / 65535
                        end)%nat.
Proof.
  eexists; split; [reflexivity|].
  rewrite !length_app, stored_blocks_len.
  cbn [length Gzip.gzip_header to_le_bytes].
  destruct data as [|x l]; [reflexivity|].
  unfold Gzip.chunks.
  set (N := 65535%nat) in *.
  assert (HN : (0 < N)%nat) by (apply Nat.ltb_lt; reflexivity).
  rewrite chunks_aux_concat, chunks_aux_length by lia.
  replace 65534%nat with (N - 1)%nat by reflexivity.
  replace (length (x :: l) + N - 1)%nat with (length (x :: l) + (N - 1))%nat by lia.
  lia.
Qed.

(** ** Code points and their UTF-8 bytes *)

Lemma utf8_char_bytes (c : Z) :
  0 <= c < 0x110000 -> Forall (fun b => 0 <= b < 256) (utf8_char c).
Proof.
  intros H. unfold utf8_char.
  destruct (Z.ltb_spec c 128); [|destruct (Z.ltb_spec c 2048);
    [|destruct (Z.ltb_spec c 65536)]];
    repeat first [apply Forall_nil | apply Forall_cons]; Z.div_mod_to_equations; lia.
Qed.

Lemma into_bytes_bytes (s : rstring) :
  code_points s -> Forall (fun b => 0 <= b < 256) (into_bytes s).
Proof.
  unfold code_points, into_bytes. induction 1 as [|c s Hc Hs IH]; [constructor|].
  cbn [flat_map]. apply Forall_app. split; [now apply utf8_char_bytes|exact IH].
Qed.

Lemma code_points_app (a b : rstring) :
  code_points a -> code_points b -> code_points (a ++ b).
Proof. intros Ha Hb. apply Forall_app. now split. Qed.

Lemma code_points_nil : code_points [].
Proof. constructor. Qed.

Lemma code_points_nl : code_points nl.
Proof. repeat constructor; lia. Qed.

Lemma lit_code_points (s : string) : code_points (lit s).
Proof.
  unfold code_points, lit. induction s as [|a s IH]; cbn; constructor; [|exact IH].
  pose proof (nat_ascii_bounded a).
  destruct (Z.of_nat (nat_of_ascii a) =? 96); lia.
Qed.

Lemma digits_aux_code_points (fuel : nat) : forall n acc,
  0 <= n -> code_points acc -> code_points (digits_aux fuel n acc).
Proof.
  induction fuel as [|f IH]; intros n acc Hn Hacc; cbn [digits_aux]; [exact Hacc|].
  destruct (Z.ltb_spec n 10); [constructor; [lia|exact Hacc]|].
  apply IH; [apply Z.div_pos; lia|constructor; [|exact Hacc]].
  pose proof (Z.mod_pos_bound n 10). lia.
Qed.

Lemma show_Z_code_points (n : Z) : 0 <= n -> code_points (show_Z n).
Proof. intros Hn. apply digits_aux_code_points; [exact Hn|constructor]. Qed.

Lemma replace_char_code_points (c : Z) (rep s : rstring) :
  code_points rep -> code_points s -> code_points (Rpm.replace_char c rep s).
Proof.
  intros Hrep. unfold code_points, Rpm.replace_char. induction 1; [constructor|].
  cbn [flat_map]. apply Forall_app. split; [|assumption].
  destruct (_ =? c); [exact Hrep|now constructor].
Qed.

Lemma xml_escape_code_points (s : rstring) : code_points s -> code_points (Rpm.xml_escape s).
Proof. intros H. unfold Rpm.xml_escape. repeat apply replace_char_code_points; auto using lit_code_points. Qed.

Lemma code_points_split (c : Z) (s l r : rstring) :
  s = l ++ c :: r -> code_points s -> code_points l /\ code_points r.
Proof.
  intros -> H. unfold code_points in *. apply Forall_app in H as [Hl Hr].
  inversion Hr. now split.
Qed.

Lemma rsplit_once_code_points (c : Z) (s l r : rstring) :
  rsplit_once c s = Some (l, r) -> code_points s -> code_points l /\ code_points r.
Proof. intros E. apply rsplit_once_some in E as [E _]. now apply code_points_split with c. Qed.

Lemma rsplit_first_code_points (c : Z) (s : rstring) :
  code_points s -> code_points (rsplit_first c s).
Proof.
  intros H. unfold rsplit_first. destruct (rsplit_once c s) as [[l r]|] eqn:E; [|exact H].
  now apply (rsplit_once_code_points c s l r E H).
Qed.

Lemma strip_suffix_code_points (suf s r : rstring) :
  strip_suffix suf s = Some r -> code_points s -> code_points r.
Proof.
  intros E H. apply strip_suffix_some in E. subst s. unfold code_points in H.
  now apply Forall_app in H as [H _].
Qed.

Lemma parse_rpm_filename_code_points (f : rstring) : code_points f ->
  let info := Rpm.parse_rpm_filename f in
  (forall x, Rpm.name info = Some x -> code_points x) /\
  (forall x, Rpm.version info = Some x -> code_points x) /\
  (forall x, Rpm.release info = Some x -> code_points x) /\
  (forall x, Rpm.arch info = Some x -> code_points x).
Proof.
  intros Hf. cbv zeta. unfold Rpm.parse_rpm_filename.
  destruct (strip_suffix (lit ".rpm") f) as [stem|] eqn:E0;
    [|repeat split; discriminate].
  pose proof (strip_suffix_code_points _ _ _ E0 Hf) as Hs.
  destruct (rsplit_once c_dot stem) as [[b a]|] eqn:E1.
  - destruct (rsplit_once_code_points _ _ _ _ E1 Hs) as [Hb Ha].
    destruct (rsplit_once c_dash b) as [[b' r]|] eqn:E2.
    + destruct (rsplit_once_code_points _ _ _ _ E2 Hb) as [Hb' Hr].
      destruct (rsplit_once c_dash b') as [[n v]|] eqn:E3.
      * destruct (rsplit_once_code_points _ _ _ _ E3 Hb') as [Hn Hv].
        cbn. repeat split; intros x Hx; injection Hx as <-; assumption.
      * cbn. repeat split; intros x Hx; try discriminate; injection Hx as <-; assumption.
    + destruct (rsplit_once c_dash b) as [[n v]|] eqn:E3.
      * destruct (rsplit_once_code_points _ _ _ _ E3 Hb) as [Hn Hv].
        cbn. repeat split; intros x Hx; try discriminate; injection Hx as <-; assumption.
      * cbn. repeat split; intros x Hx; try discriminate; injection Hx as <-; assumption.
  - destruct (rsplit_once c_dash stem) as [[b' r]|] eqn:E2.
    + destruct (rsplit_once_code_points _ _ _ _ E2 Hs) as [Hb' Hr].
      destruct (rsplit_once c_dash b') as [[n v]|] eqn:E3.
      * destruct (rsplit_once_code_points _ _ _ _ E3 Hb') as [Hn Hv].
        cbn. repeat split; intros x Hx; try discriminate; injection Hx as <-; assumption.
      * cbn. repeat split; intros x Hx; try discriminate; injection Hx as <-; assumption.
    + destruct (rsplit_once c_dash stem) as [[n v]|] eqn:E3.
      * destruct (rsplit_once_code_points _ _ _ _ E3 Hs) as [Hn Hv].
        cbn. repeat split; intros x Hx; try discriminate; injection Hx as <-; assumption.
      * cbn. repeat split; intros x Hx; try discriminate; injection Hx as <-; assumption.
Qed.

Lemma unwrap_or_code_points (o : option rstring) (d : rstring) :
  (forall x, o = Some x -> code_points x) -> code_points d -> code_points (unwrap_or o d).
Proof. intros Ho Hd. destruct o; [now apply Ho|exact Hd]. Qed.

Create HintDb code_points.
#[export] Hint Resolve code_points_app code_points_nil code_points_nl lit_code_points
  show_Z_code_points xml_escape_code_points unwrap_or_code_points : code_points.

Lemma primary_package_code_points (a : Metadata) :
  code_points (path a) -> 0 <= size_bytes a ->
  (forall s, checksum_sha256 a = Some s -> code_points s) ->
  code_points (Rpm.primary_package a).
Proof.
  intros Hp Hs Hc. unfold Rpm.primary_package.
  pose proof (rsplit_first_code_points c_slash _ Hp) as Hf.
  destruct (parse_rpm_filename_code_points _ Hf) as (Hn & Hv & Hr & Ha).
  repeat apply code_points_app; auto with code_points.
Qed.

(** The compressed repodata handlers answer 200 with an [application/gzip]
    body that a gzip decoder expands to the UTF-8 bytes of the XML
    document: for [primary.xml.gz], one [<package>] element per artifact,
    and [filelists.xml.gz] and [other.xml.gz] with no packages.  The
    artifacts' strings are Unicode text and their sizes are [u64]
    values, as their Rust types guarantee. *)
Theorem rpm_repodata_gz_decodes (context : RepoContext) (artifacts : list Metadata)
  (Hart : Forall (fun a => code_points (path a) /\ 0 <= size_bytes a /\
                           forall s, checksum_sha256 a = Some s -> code_points s) artifacts) :
  (exists resp,
     Rpm.handle_primary_xml_gz context artifacts = Ok resp /\ status resp = 200 /\
     headers resp = [(lit "content-type", lit "application/gzip")] /\
     Gzip.gunzip (body resp) = Some (into_bytes
       (Rpm.xml_decl ++ nl
        ++ lit "<metadata xmlns=`http://linux.duke.edu/metadata/common` xmlns:rpm=`http://linux.duke.edu/metadata/rpm` packages=`"
        ++ show_Z (Z.of_nat (length artifacts)) ++ lit "`>" ++ nl
        ++ flat_map Rpm.primary_package artifacts
        ++ lit "</metadata>" ++ nl))) /\
  (exists resp,
     Rpm.handle_filelists_xml_gz = Ok resp /\ status resp = 200 /\
     headers resp = [(lit "content-type", lit "application/gzip")] /\
     Gzip.gunzip (body resp) = Some (into_bytes
       (Rpm.xml_decl ++ nl
        ++ lit "<filelists xmlns=`http://linux.duke.edu/metadata/filelists` packages=`0`>" ++ nl
        ++ lit "</filelists>" ++ nl))) /\
  (exists resp,
     Rpm.handle_other_xml_gz = Ok resp /\ status resp = 200 /\
     headers resp = [(lit "content-type", lit "application/gzip")] /\
     Gzip.gunzip (body resp) = Some (into_bytes
       (Rpm.xml_decl ++ nl
        ++ lit "<otherdata xmlns=`http://linux.duke.edu/metadata/other` packages=`0`>" ++ nl
        ++ lit "</otherdata>" ++ nl))).
Proof.
  assert (Hg : forall xml, code_points xml ->
    exists resp, Rpm.gzip_response xml = Ok resp /\ status resp = 200 /\
      headers resp = [(lit "content-type", lit "application/gzip")] /\
      Gzip.gunzip (body resp) = Some (into_bytes xml)).
  { intros xml Hx. destruct (gzip_compress_gunzip _ (into_bytes_bytes _ Hx)) as (out & E & D).
    unfold Rpm.gzip_response. rewrite E. eexists; repeat split; exact D. }
  assert (Hfm : code_points (flat_map Rpm.primary_package artifacts)).
  { induction Hart as [|a l (Hp & Hs & Hc) _ IH]; [constructor|].
    cbn [flat_map]. apply code_points_app; [now apply primary_package_code_points|exact IH]. }
  unfold Rpm.handle_primary_xml_gz, Rpm.handle_filelists_xml_gz, Rpm.handle_other_xml_gz.
  unfold Rpm.xml_decl.
  repeat split; apply Hg; repeat apply code_points_app; auto with code_points;
    apply show_Z_code_points; lia.
Qed.

(** ** XML escaping *)

Lemma replace_char_app (c : Z) (r a b : rstring) :
  Rpm.replace_char c r (a ++ b) = Rpm.replace_char c r a ++ Rpm.replace_char c r b.
Proof. unfold Rpm.replace_char. apply flat_map_app. Qed.

Lemma xml_escape_app (a b : rstring) :
  Rpm.xml_escape (a ++ b) = Rpm.xml_escape a ++ Rpm.xml_escape b.
Proof. unfold Rpm.xml_escape. now rewrite !replace_char_app. Qed.

Lemma xml_escape_cons (x : Z) (s : rstring) :
  Rpm.xml_escape (x :: s) = Rpm.xml_escape [x] ++ Rpm.xml_escape s.
Proof. exact (xml_escape_app [x] s). Qed.

Lemma replace_char_one (c : Z) (r : rstring) (x : Z) :
  Rpm.replace_char c r [x] = if x =? c then r else [x].
Proof. unfold Rpm.replace_char. cbn [flat_map]. now rewrite app_nil_r. Qed.

(** One character through the five passes. *)
Lemma xml_escape_char (x : Z) :
  Rpm.xml_escape [x] =
    if x =? 38 then [38; 97; 109; 112; 59] else if x =? 60 then [38; 108; 116; 59]
    else if x =? 62 then [38; 103; 116; 59] else if x =? 34 then [38; 113; 117; 111; 116; 59]
    else if x =? 39 then [38; 97; 112; 111; 115; 59] else [x].
Proof.
  unfold Rpm.xml_escape. rewrite replace_char_one.
  destruct (Z.eqb_spec x 38) as [->|H1]; [reflexivity|]. rewrite replace_char_one.
  destruct (Z.eqb_spec x 60) as [->|H2]; [reflexivity|]. rewrite replace_char_one.
  destruct (Z.eqb_spec x 62) as [->|H3]; [reflexivity|]. rewrite replace_char_one.
  destruct (Z.eqb_spec x 34) as [->|H4]; [reflexivity|]. rewrite replace_char_one.
  destruct (Z.eqb_spec x 39) as [->|H5]; reflexivity.
Qed.

Lemma xml_entities_eq :
  xml_entities = [([38; 97; 109; 112; 59], 38); ([38; 108; 116; 59], 60);
                  ([38; 103; 116; 59], 62); ([38; 113; 117; 111; 116; 59], 34);
                  ([38; 97; 112; 111; 115; 59], 39)].
Proof. vm_compute. reflexivity. Qed.

Lemma xml_unescape_escape_aux (s : rstring) : forall fuel,
  (length (Rpm.xml_escape s) <= fuel)%nat ->
  xml_unescape_aux fuel (Rpm.xml_escape s) = s.
Proof.
  induction s as [|x s IH]; intros fuel Hf; [destruct fuel; reflexivity|].
  rewrite xml_escape_cons in *. rewrite length_app in Hf.
  remember (Rpm.xml_escape s) as E eqn:HE.
  rewrite xml_escape_char in *.
  destruct fuel as [|f];
    [exfalso; destruct (x =? 38), (x =? 60), (x =? 62), (x =? 34), (x =? 39);
     cbn in Hf; lia|].
  destruct (Z.eqb_spec x 38) as [->|H1];
    [cbn -[xml_entities]; rewrite xml_entities_eq; cbn; f_equal; apply IH; cbn in Hf; lia|].
  destruct (Z.eqb_spec x 60) as [->|H2];
    [cbn -[xml_entities]; rewrite xml_entities_eq; cbn; f_equal; apply IH; cbn in Hf; lia|].
  destruct (Z.eqb_spec x 62) as [->|H3];
    [cbn -[xml_entities]; rewrite xml_entities_eq; cbn; f_equal; apply IH; cbn in Hf; lia|].
  destruct (Z.eqb_spec x 34) as [->|H4];
    [cbn -[xml_entities]; rewrite xml_entities_eq; cbn; f_equal; apply IH; cbn in Hf; lia|].
  destruct (Z.eqb_spec x 39) as [->|H5];
    [cbn -[xml_entities]; rewrite xml_entities_eq; cbn; f_equal; apply IH; cbn in Hf; lia|].
  assert (Hx : (38 =? x) = false) by (apply Z.eqb_neq; lia).
  cbn -[xml_entities Z.eqb]. rewrite xml_entities_eq. cbn -[Z.eqb]. rewrite !Hx.
  f_equal. apply IH. cbn in Hf. lia.
Qed.

(** [xml_escape] loses nothing: decoding the five predefined XML entities
    in its output gives back the input text. *)
Theorem xml_escape_unescape (s : rstring) : xml_unescape (Rpm.xml_escape s) = s.
Proof. unfold xml_unescape. now apply xml_unescape_escape_aux. Qed.

(** The output of [xml_escape] holds no [<], [>], double or single quote,
    so it can stand in element content and in quoted attribute values;
    text without any of [&], [<], [>] and the two quotes is left as is. *)
Theorem xml_escape_no_markup (s : rstring) :
  Forall (fun c => c <> 60 /\ c <> 62 /\ c <> 34 /\ c <> 39) (Rpm.xml_escape s) /\
  (Forall (fun c => ~ In c [38; 60; 62; 34; 39]) s -> Rpm.xml_escape s = s).
Proof.
  split.
  - induction s as [|x s IH]; [constructor|].
    rewrite xml_escape_cons. apply Forall_app. split; [|exact IH].
    rewrite xml_escape_char.
    destruct (Z.eqb_spec x 38); [repeat constructor; discriminate|].
    destruct (Z.eqb_spec x 60); [repeat constructor; discriminate|].
    destruct (Z.eqb_spec x 62); [repeat constructor; discriminate|].
    destruct (Z.eqb_spec x 34); [repeat constructor; discriminate|].
    destruct (Z.eqb_spec x 39); [repeat constructor; discriminate|].
    repeat constructor; assumption.
  - induction 1 as [|x s Hx _ IH]; [reflexivity|].
    rewrite xml_escape_cons, IH, xml_escape_char.
    cbn [In] in Hx.
    destruct (Z.eqb_spec x 38); [exfalso; apply Hx; subst; auto 6|].
    destruct (Z.eqb_spec x 60); [exfalso; apply Hx; subst; auto 6|].
    destruct (Z.eqb_spec x 62); [exfalso; apply Hx; subst; auto 6|].
    destruct (Z.eqb_spec x 34); [exfalso; apply Hx; subst; auto 6|].
    destruct (Z.eqb_spec x 39); [exfalso; apply Hx; subst; auto 6|]. reflexivity.
Qed.

(** ** RPM filenames *)

Ltac list_assoc := repeat (rewrite <- app_assoc || rewrite <- app_comm_cons).

Lemma split_once_app (c : Z) (a b : rstring) :
  ~ In c a -> split_once c (a ++ c :: b) = Some (a, b).
Proof.
  induction a as [|x a IH]; intros Ha; cbn [app split_once]; [now rewrite Z.eqb_refl|].
  destruct (Z.eqb_spec x c) as [->|Hx]; [exfalso; apply Ha; left; reflexivity|].
  rewrite IH; [reflexivity|]. intros H. apply Ha. right. exact H.
Qed.

Lemma rsplit_once_app (c : Z) (a b : rstring) :
  ~ In c b -> rsplit_once c (a ++ c :: b) = Some (a, b).
Proof.
  intros Hb. unfold rsplit_once.
  rewrite rev_app_distr. cbn [rev]. rewrite <- app_assoc. cbn [app].
  rewrite split_once_app by (rewrite <- in_rev; exact Hb).
  now rewrite !rev_involutive.
Qed.

Lemma rsplit_first_app (c : Z) (a b : rstring) :
  ~ In c b -> rsplit_first c (a ++ c :: b) = b.
Proof. intros Hb. unfold rsplit_first. now rewrite rsplit_once_app. Qed.

(** Parsing and printing agree one way: the fields [parse_rpm_filename]
    reads from [stem.rpm], written back with their separators, give the
    stem again.  The name is always present, and a version is only read
    when a release is. *)
Theorem rpm_filename_reassemble (stem : rstring) :
  let info := Rpm.parse_rpm_filename (stem ++ lit ".rpm") in
  (exists n, Rpm.name info = Some n) /\
  (Rpm.version info <> None -> Rpm.release info <> None) /\
  unwrap_or (Rpm.name info) [] ++ sep_opt c_dash (Rpm.version info)
    ++ sep_opt c_dash (Rpm.release info) ++ sep_opt c_dot (Rpm.arch info) = stem.
Proof.
  cbv zeta. unfold Rpm.parse_rpm_filename. rewrite strip_suffix_app.
  destruct (rsplit_once c_dot stem) as [[b a]|] eqn:E1.
  - apply rsplit_once_some in E1 as [E1 _].
    destruct (rsplit_once c_dash b) as [[b' r]|] eqn:E2.
    + apply rsplit_once_some in E2 as [E2 _].
      destruct (rsplit_once c_dash b') as [[n v]|] eqn:E3.
      * apply rsplit_once_some in E3 as [E3 _]. subst. cbn.
        split; [eauto|split; [congruence|]]. now rewrite <- !app_assoc.
      * subst. cbn. split; [eauto|split; [congruence|]]. now rewrite <- !app_assoc.
    + destruct (rsplit_once c_dash b) as [[n v]|]; [discriminate|].
      subst. cbn. split; [eauto|split; [congruence|]]. reflexivity.
  - destruct (rsplit_once c_dash stem) as [[b' r]|] eqn:E2.
    + apply rsplit_once_some in E2 as [E2 _].
      destruct (rsplit_once c_dash b') as [[n v]|] eqn:E3.
      * apply rsplit_once_some in E3 as [E3 _]. subst. cbn.
        split; [eauto|split; [congruence|]]. now rewrite <- !app_assoc, app_nil_r.
      * subst. cbn. split; [eauto|split; [congruence|]]. now rewrite app_nil_r.
    + destruct (rsplit_once c_dash stem) as [[n v]|]; [discriminate|].
      cbn. split; [eauto|split; [congruence|]]. now rewrite app_nil_r.
Qed.

(** Parsing and printing agree the other way: a filename written as
    [name-version-release.arch.rpm], where the version and release hold
    no ['-'] and the architecture no ['.'], is read back field by field
    (the name may hold ['-']); under any directory, the version reported
    for the package is [version-release]. *)
Theorem rpm_filename_fields_roundtrip (n v r a : rstring)
  (Hv : ~ In c_dash v) (Hr : ~ In c_dash r) (Ha : ~ In c_dot a) :
  Rpm.parse_rpm_filename (n ++ lit "-" ++ v ++ lit "-" ++ r ++ lit "." ++ a ++ lit ".rpm")
    = Rpm.mkRpmFileInfo (Some n) (Some v) (Some r) (Some a) /\
  (forall dir, ~ In c_slash (n ++ v ++ r ++ a) ->
     Rpm.extract_version_from_rpm_filename
       (dir ++ lit "/" ++ n ++ lit "-" ++ v ++ lit "-" ++ r ++ lit "." ++ a ++ lit ".rpm")
     = Some (v ++ lit "-" ++ r)).
Proof.
  assert (Hp : Rpm.parse_rpm_filename (n ++ lit "-" ++ v ++ lit "-" ++ r ++ lit "." ++ a ++ lit ".rpm")
    = Rpm.mkRpmFileInfo (Some n) (Some v) (Some r) (Some a)).
  { unfold Rpm.parse_rpm_filename.
    rewrite !app_assoc, strip_suffix_app, <- !app_assoc.
    change (lit "-") with [c_dash]. change (lit ".") with [c_dot]. cbn [app].
    replace (n ++ c_dash :: v ++ c_dash :: r ++ c_dot :: a)
      with ((n ++ c_dash :: v ++ c_dash :: r) ++ c_dot :: a) by (list_assoc; reflexivity).
    rewrite rsplit_once_app by exact Ha. cbv beta iota zeta.
    replace (n ++ c_dash :: v ++ c_dash :: r)
      with ((n ++ c_dash :: v) ++ c_dash :: r) by (list_assoc; reflexivity).
    rewrite rsplit_once_app by exact Hr. cbv beta iota zeta.
    rewrite rsplit_once_app by exact Hv. reflexivity. }
  split; [exact Hp|].
  intros dir Hs. unfold Rpm.extract_version_from_rpm_filename.
  change (lit "/") with [c_slash]. cbn [app].
  rewrite rsplit_first_app, Hp; [reflexivity|].
  intros Hin. apply Hs. rewrite !in_app_iff in *.
  change (lit "-") with [c_dash] in Hin. change (lit ".") with [c_dot] in Hin.
  change (lit ".rpm") with [46; 114; 112; 109] in Hin.
  cbn [In] in Hin. unfold c_slash, c_dash, c_dot in *.
  intuition discriminate.
Qed.

(** ** Python distribution filenames *)

Lemma strip_suffix_last_differs (s' e' x : rstring) (a b : Z) :
  a <> b -> strip_suffix (s' ++ [a]) (x ++ e' ++ [b]) = None.
Proof.
  intros Hab. unfold strip_suffix. rewrite app_assoc, !rev_app_distr. cbn [rev app strip_prefix].
  destruct (Z.eqb_spec a b); [contradiction|reflexivity].
Qed.

Lemma split_app (c : Z) (a b : rstring) :
  ~ In c a -> split c (a ++ c :: b) = a :: split c b.
Proof.
  induction a as [|x a IH]; intros Ha; cbn [app split]; [now rewrite Z.eqb_refl|].
  destruct (Z.eqb_spec x c) as [->|Hx]; [exfalso; apply Ha; left; reflexivity|].
  rewrite IH; [reflexivity|]. intros H. apply Ha. right. exact H.
Qed.

(** A source distribution [name-version.tar.gz] or [name-version.zip]
    whose version holds no ['-'] is read back as that name and version;
    the name may hold ['-'], the split being at the last one. *)
Theorem pypi_sdist_filename_roundtrip (n v : rstring) (Hv : ~ In c_dash v) :
  (Pypi.extract_package_name (n ++ lit "-" ++ v ++ lit ".tar.gz") = Some n /\
   Pypi.extract_version (n ++ lit "-" ++ v ++ lit ".tar.gz") = Some v) /\
  (Pypi.extract_package_name (n ++ lit "-" ++ v ++ lit ".zip") = Some n /\
   Pypi.extract_version (n ++ lit "-" ++ v ++ lit ".zip") = Some v).
Proof.
  change (lit "-") with [c_dash]. cbn [app].
  rewrite !app_comm_cons, !app_assoc.
  assert (Hsplit : rsplit_once c_dash (n ++ c_dash :: v) = Some (n, v))
    by (apply rsplit_once_app; exact Hv).
  assert (W1 : strip_suffix (lit ".whl") ((n ++ c_dash :: v) ++ lit ".tar.gz") = None)
    by (exact (strip_suffix_last_differs [46; 119; 104] [46; 116; 97; 114; 46; 103]
                                       (n ++ c_dash :: v) 108 122 ltac:(discriminate))).
  assert (W2 : strip_suffix (lit ".whl") ((n ++ c_dash :: v) ++ lit ".zip") = None)
    by (exact (strip_suffix_last_differs [46; 119; 104] [46; 122; 105]
                                       (n ++ c_dash :: v) 108 112 ltac:(discriminate))).
  assert (T2 : strip_suffix (lit ".tar.gz") ((n ++ c_dash :: v) ++ lit ".zip") = None)
    by (exact (strip_suffix_last_differs [46; 116; 97; 114; 46; 103] [46; 122; 105]
                 (n ++ c_dash :: v) 122 112 ltac:(discriminate))).
  unfold Pypi.extract_package_name, Pypi.extract_version.
  rewrite W1, W2, T2, !strip_suffix_app, Hsplit. repeat split.
Qed.

(** A wheel [name-version-rest.whl] whose name and version hold no ['-']
    is read back as that name and version, whatever the tags in [rest]. *)
Theorem pypi_wheel_filename_roundtrip (n v rest : rstring)
  (Hn : ~ In c_dash n) (Hv : ~ In c_dash v) :
  Pypi.extract_package_name (n ++ lit "-" ++ v ++ lit "-" ++ rest ++ lit ".whl") = Some n /\
  Pypi.extract_version (n ++ lit "-" ++ v ++ lit "-" ++ rest ++ lit ".whl") = Some v.
Proof.
  change (lit "-") with [c_dash]. cbn [app].
  replace (n ++ c_dash :: v ++ c_dash :: rest ++ lit ".whl")
    with ((n ++ c_dash :: v ++ c_dash :: rest) ++ lit ".whl") by (list_assoc; reflexivity).
  unfold Pypi.extract_package_name, Pypi.extract_version. rewrite strip_suffix_app.
  rewrite split_app by exact Hn. rewrite split_app by exact Hv.
  split; reflexivity.
Qed.

(** ** Python project pages *)

(** An artifact belongs to project [project] when the package name read
    from its filename normalizes to the project's normalized name. *)
Lemma simple_project_filter_in (to_lowercase : rstring -> rstring) (project : rstring)
  (artifacts : list Metadata) (a : Metadata) :
  In a (filter (fun a =>
    match Pypi.extract_package_name (rsplit_first c_slash (path a)) with
    | Some n => zl_eqb (Pypi.normalize_package_name to_lowercase n)
                       (Pypi.normalize_package_name to_lowercase project)
    | None => false
    end) artifacts)
  <-> In a artifacts /\ exists n,
        Pypi.extract_package_name (rsplit_first c_slash (path a)) = Some n /\
        Pypi.normalize_package_name to_lowercase n
        = Pypi.normalize_package_name to_lowercase project.
Proof.
  rewrite filter_In. destruct (Pypi.extract_package_name _) as [n|].
  - rewrite zl_eqb_eq. split.
    + intros [Ha Hn]. split; [exact Ha|]. exists n. now split.
    + intros [Ha (n' & En & Hn)]. injection En as <-. now split.
  - split; [intros [_ H]; discriminate|]. intros [_ (n' & En & _)]. discriminate.
Qed.

(** The project page is found (200) exactly when some artifact's package
    name normalizes to the project's normalized name; otherwise the answer
    is 404 with the requested name, as given, in the message. *)
Theorem pypi_simple_project_status (to_lowercase : rstring -> rstring) (project : rstring)
  (context : RepoContext) (artifacts : list Metadata) :
  exists resp,
    Pypi.handle_simple_project to_lowercase project context artifacts = Ok resp /\
    ((status resp = 200 /\
      exists a n, In a artifacts /\
        Pypi.extract_package_name (rsplit_first c_slash (path a)) = Some n /\
        Pypi.normalize_package_name to_lowercase n
        = Pypi.normalize_package_name to_lowercase project) \/
     (status resp = 404 /\
      body resp = into_bytes (lit "Project '" ++ project ++ lit "' not found") /\
      ~ exists a n, In a artifacts /\
        Pypi.extract_package_name (rsplit_first c_slash (path a)) = Some n /\
        Pypi.normalize_package_name to_lowercase n
        = Pypi.normalize_package_name to_lowercase project)).
Proof.
  pose proof (simple_project_filter_in to_lowercase project artifacts) as Hf.
  unfold Pypi.handle_simple_project. cbv zeta.
  destruct (filter _ artifacts) as [|a l] eqn:E.
  - eexists. split; [reflexivity|]. right. split; [reflexivity|split; [reflexivity|]].
    intros (a & n & Ha & En & Hn). apply (proj2 (Hf a)). split; [exact Ha|]. eauto.
  - eexists. split; [reflexivity|]. left. split; [reflexivity|].
    destruct (proj1 (Hf a) (or_introl eq_refl)) as [Ha (n & En & Hn)]. eauto.
Qed.

(** Two spellings of a project name with the same normalized form (for
    instance differing in case or in separators) get the same page, as
    soon as the project has an artifact. *)
Theorem pypi_simple_project_same_normalization (to_lowercase : rstring -> rstring)
  (p1 p2 : rstring) (context : RepoContext) (artifacts : list Metadata)
  (Hnorm : Pypi.normalize_package_name to_lowercase p1
           = Pypi.normalize_package_name to_lowercase p2)
  (Hfound : exists a n, In a artifacts /\
     Pypi.extract_package_name (rsplit_first c_slash (path a)) = Some n /\
     Pypi.normalize_package_name to_lowercase n = Pypi.normalize_package_name to_lowercase p1) :
  Pypi.handle_simple_project to_lowercase p1 context artifacts
  = Pypi.handle_simple_project to_lowercase p2 context artifacts.
Proof.
  pose proof (simple_project_filter_in to_lowercase p1 artifacts) as Hf.
  unfold Pypi.handle_simple_project. cbv zeta. rewrite <- Hnorm.
  destruct (filter _ artifacts) as [|a l] eqn:E; [|reflexivity].
  exfalso. destruct Hfound as (a & n & Ha & En & Hn).
  apply (proj2 (Hf a)). split; [exact Ha|]. eauto.
Qed.

(** ** Request routing *)

Lemma gzip_response_ok (xml : rstring) :
  exists out, Rpm.gzip_response xml
              = Ok (mkHttpResponse 200 [(lit "content-type", lit "application/gzip")] out).
Proof. eexists. reflexivity. Qed.

Lemma package_download_status (filename : rstring) (context : RepoContext)
  (artifacts : list Metadata) :
  exists resp, handle_package_download filename context artifacts = Ok resp /\
    (status resp = 302 \/ status resp = 404).
Proof.
  unfold handle_package_download. destruct (find_by_filename filename artifacts);
    eexists; split; try reflexivity; cbn; auto.
Qed.

Lemma simple_project_status_ok (to_lowercase : rstring -> rstring) (project : rstring)
  (context : RepoContext) (artifacts : list Metadata) :
  exists resp, Pypi.handle_simple_project to_lowercase project context artifacts = Ok resp /\
    (status resp = 200 \/ status resp = 404).
Proof.
  unfold Pypi.handle_simple_project. cbv zeta.
  destruct (filter _ artifacts); eexists; split; try reflexivity; cbn; auto.
Qed.

Lemma method_check (m : rstring) :
  negb (zl_eqb m (lit "GET")) && negb (zl_eqb m (lit "HEAD")) = true
  <-> m <> lit "GET" /\ m <> lit "HEAD".
Proof.
  rewrite andb_true_iff, !negb_true_iff.
  split; intros [H1 H2]; split.
  - intros E. apply zl_eqb_eq in E. congruence.
  - intros E. apply zl_eqb_eq in E. congruence.
  - destruct (zl_eqb m (lit "GET")) eqn:E; [apply zl_eqb_eq in E; contradiction|reflexivity].
  - destruct (zl_eqb m (lit "HEAD")) eqn:E; [apply zl_eqb_eq in E; contradiction|reflexivity].
Qed.

(** The RPM router always answers, with 200, 302, 404 or 405; it answers
    405 exactly for a method other than GET and HEAD, whatever the path;
    and a HEAD request gets the same response as a GET, body included. *)
Theorem rpm_handle_request_statuses (context : RepoContext) (artifacts : list Metadata) :
  (forall request, exists resp,
     Rpm.handle_request request context artifacts = Ok resp /\
     In (status resp) [200; 302; 404; 405] /\
     (status resp = 405 <-> method request <> lit "GET" /\ method request <> lit "HEAD")) /\
  (forall p, Rpm.handle_request (mkHttpRequest (lit "HEAD") p) context artifacts
             = Rpm.handle_request (mkHttpRequest (lit "GET") p) context artifacts).
Proof.
  split; [|intros p; reflexivity].
  intros [m p]. unfold Rpm.handle_request. cbv zeta. cbn [method req_path].
  destruct (negb (zl_eqb m (lit "GET")) && negb (zl_eqb m (lit "HEAD"))) eqn:Hm.
  - apply method_check in Hm. eexists. split; [reflexivity|].
    split; [cbn; auto 6|split; [intros _; exact Hm|reflexivity]].
  - assert (Hn : ~ (m <> lit "GET" /\ m <> lit "HEAD"))
      by (intros H; apply method_check in H; congruence).
    assert (Hs : forall resp, (status resp = 200 \/ status resp = 302 \/ status resp = 404) ->
      In (status resp) [200; 302; 404; 405] /\
      (status resp = 405 <-> m <> lit "GET" /\ m <> lit "HEAD")).
    { intros resp Hr. split; [destruct Hr as [E|[E|E]]; rewrite E; cbn; auto 6|].
      split; [intros E; lia|tauto]. }
    split_ifs;
      try (destruct (gzip_response_ok _) as [out Eo];
           unfold Rpm.handle_primary_xml_gz, Rpm.handle_filelists_xml_gz,
                  Rpm.handle_other_xml_gz;
           rewrite Eo; eexists; split; [reflexivity|apply Hs; cbn; auto]);
      try (destruct (package_download_status r context artifacts) as (resp & E & Hr);
           rewrite E; exists resp; split; [reflexivity|apply Hs; tauto]);
      eexists; split; try reflexivity; apply Hs; cbn; auto.
Qed.

(** The Python router always answers, with 200, 302, 404 or 405; it
    answers 405 exactly for a method other than GET and HEAD, whatever the
    path; and a HEAD request gets the same response as a GET. *)
Theorem pypi_handle_request_statuses (to_lowercase : rstring -> rstring)
  (context : RepoContext) (artifacts : list Metadata) :
  (forall request, exists resp,
     Pypi.handle_request to_lowercase request context artifacts = Ok resp /\
     In (status resp) [200; 302; 404; 405] /\
     (status resp = 405 <-> method request <> lit "GET" /\ method request <> lit "HEAD")) /\
  (forall p, Pypi.handle_request to_lowercase (mkHttpRequest (lit "HEAD") p) context artifacts
             = Pypi.handle_request to_lowercase (mkHttpRequest (lit "GET") p) context artifacts).
Proof.
  split; [|intros p; reflexivity].
  intros [m p]. unfold Pypi.handle_request. cbv zeta. cbn [method req_path].
  destruct (negb (zl_eqb m (lit "GET")) && negb (zl_eqb m (lit "HEAD"))) eqn:Hm.
  - apply method_check in Hm. eexists. split; [reflexivity|].
    split; [cbn; auto 6|split; [intros _; exact Hm|reflexivity]].
  - assert (Hn : ~ (m <> lit "GET" /\ m <> lit "HEAD"))
      by (intros H; apply method_check in H; congruence).
    assert (Hs : forall resp, (status resp = 200 \/ status resp = 302 \/ status resp = 404) ->
      In (status resp) [200; 302; 404; 405] /\
      (status resp = 405 <-> m <> lit "GET" /\ m <> lit "HEAD")).
    { intros resp Hr. split; [destruct Hr as [E|[E|E]]; rewrite E; cbn; auto 6|].
      split; [intros E; lia|tauto]. }
    destruct (zl_eqb p (lit "/simple/") || zl_eqb p (lit "/simple") || zl_eqb p (lit "/")).
    { eexists. split; [reflexivity|]. apply Hs. cbn. auto. }
    destruct (strip_prefix (lit "/simple/") (trim_end_matches c_slash p)) as [project|].
    + destruct (negb (contains c_slash project) && negb (Nat.eqb (length project) 0)).
      * destruct (simple_project_status_ok to_lowercase project context artifacts)
          as (resp & E & Hr).
        rewrite E. exists resp. split; [reflexivity|apply Hs; tauto].
      * split_ifs;
          try (destruct (package_download_status r context artifacts) as (resp & E & Hr);
               rewrite E; exists resp; split; [reflexivity|apply Hs; tauto]);
          eexists; split; try reflexivity; apply Hs; cbn; auto.
    + split_ifs;
        try (destruct (package_download_status r context artifacts) as (resp & E & Hr);
             rewrite E; exists resp; split; [reflexivity|apply Hs; tauto]);
        eexists; split; try reflexivity; apply Hs; cbn; auto.
Qed.

(** The RPM router ignores trailing slashes: a path followed by any number
    of ['/'] gets the response of the path itself. *)
Theorem rpm_handle_request_trailing_slashes (m p : rstring) (k : nat)
  (context : RepoContext) (artifacts : list Metadata) :
  Rpm.handle_request (mkHttpRequest m (p ++ repeat c_slash k)) context artifacts
  = Rpm.handle_request (mkHttpRequest m p) context artifacts.
Proof.
  unfold Rpm.handle_request. cbn [req_path method]. now rewrite trim_end_repeat_slash.
Qed.

Lemma contains_not_in (c : Z) (s : rstring) : ~ In c s -> contains c s = false.
Proof.
  intros H. unfold contains. destruct (existsb (Z.eqb c) s) eqn:E; [|reflexivity].
  apply existsb_exists in E as (x & Hx & Ex). apply Z.eqb_eq in Ex. subst. contradiction.
Qed.

(** A GET or HEAD of [/simple/{project}] or [/simple/{project}/], for a
    non-empty project name without ['/'], is answered by the project page. *)
Theorem pypi_simple_project_route (to_lowercase : rstring -> rstring) (m project : rstring)
  (context : RepoContext) (artifacts : list Metadata)
  (Hm : m = lit "GET" \/ m = lit "HEAD") (Hne : project <> []) (Hs : ~ In c_slash project) :
  Pypi.handle_request to_lowercase (mkHttpRequest m (lit "/simple/" ++ project)) context artifacts
    = Pypi.handle_simple_project to_lowercase project context artifacts /\
  Pypi.handle_request to_lowercase (mkHttpRequest m (lit "/simple/" ++ project ++ lit "/"))
    context artifacts
    = Pypi.handle_simple_project to_lowercase project context artifacts.
Proof.
  pose proof (contains_not_in _ _ Hs) as Hc.
  assert (Ht : trim_end_matches c_slash (lit "/simple/" ++ project) = lit "/simple/" ++ project)
    by exact (trim_end_id c_slash _ (no_trailing_slash_app _ _ Hne Hc)).
  assert (Hroute : forall p, trim_end_matches c_slash p = lit "/simple/" ++ project ->
    zl_eqb p (lit "/simple/") || zl_eqb p (lit "/simple") || zl_eqb p (lit "/") = false ->
    Pypi.handle_request to_lowercase (mkHttpRequest m p) context artifacts
    = Pypi.handle_simple_project to_lowercase project context artifacts).
  { intros p Hp Hroot. unfold Pypi.handle_request. cbv zeta. cbn [req_path method].
    rewrite Hroot, Hp, strip_prefix_app, Hc, length_nonzero by exact Hne.
    destruct Hm as [->| ->]; reflexivity. }
  destruct project as [|x project']; [contradiction|].
  split; apply Hroute.
  - exact Ht.
  - reflexivity.
  - rewrite app_assoc, trim_end_slash. exact Ht.
  - reflexivity.
Qed.

(** ** Validation and metadata agree *)

(** An artifact that RPM validation accepts is typed [application/x-rpm]
    by [parse_metadata]. *)
Theorem rpm_validate_content_type (to_lowercase : rstring -> rstring) (p : rstring)
  (data : list Z) (H : Rpm.validate to_lowercase p data = Ok tt) :
  exists m, Rpm.parse_metadata p data = Ok m /\ content_type m = lit "application/x-rpm".
Proof.
  unfold Rpm.validate in H.
  destruct (Nat.eqb (length data) 0) eqn:E0; [discriminate|].
  destruct (Nat.eqb (length p) 0); [discriminate|].
  destruct (negb (ends_with (lit ".rpm") (to_lowercase p))); [discriminate|].
  destruct (Nat.ltb (length data) Rpm.RPM_LEAD_SIZE) eqn:E1; [discriminate|].
  destruct (zl_eqb (firstn 4 data) Rpm.RPM_MAGIC) eqn:E2; [|discriminate].
  apply Nat.ltb_ge in E1.
  destruct data as [|b data']; [discriminate|].
  unfold Rpm.parse_metadata. cbv zeta.
  assert (E3 : Nat.leb 4 (length (b :: data')) = true)
    by (apply Nat.leb_le; unfold Rpm.RPM_LEAD_SIZE in E1; lia).
  rewrite E3, E2. eexists. split; reflexivity.
Qed.

(** An artifact that Unity validation accepts is typed [application/gzip]
    by [parse_metadata]. *)
Theorem unity_validate_content_type (to_lowercase : rstring -> rstring) (p : rstring)
  (data : list Z) (H : Unity.validate to_lowercase p data = Ok tt) :
  exists m, Unity.parse_metadata p data = Ok m /\ content_type m = lit "application/gzip".
Proof.
  unfold Unity.validate in H.
  destruct (Nat.eqb (length data) 0) eqn:E0; [discriminate|].
  destruct (Nat.eqb (length p) 0); [discriminate|].
  destruct (negb (ends_with (lit ".unitypackage") (to_lowercase p))); [discriminate|].
  destruct (Nat.ltb (length data) 2) eqn:E1; [discriminate|].
  destruct (negb (nth 0 data 0 =? 31) || negb (nth 1 data 0 =? 139)) eqn:E2; [discriminate|].
  apply Nat.ltb_ge in E1. apply orb_false_iff in E2 as [E2 E3].
  apply negb_false_iff in E2, E3.
  destruct data as [|b data']; [discriminate|].
  unfold Unity.parse_metadata. cbv zeta.
  assert (E4 : Nat.leb 2 (length (b :: data')) = true) by (apply Nat.leb_le; lia).
  rewrite E4, E2, E3. eexists. split; reflexivity.
Qed.

Lemma contains_in (c : Z) (s : rstring) : contains c s = true -> In c s.
Proof.
  unfold contains. intros E. apply existsb_exists in E as (x & Hx & Ex).
  apply Z.eqb_eq in Ex. now subst.
Qed.

(** A Python artifact whose filename is already lowercase and that
    validation accepts gets a version and a zip or gzip content type from
    [parse_metadata]. *)
Theorem pypi_validate_metadata (to_lowercase : rstring -> rstring) (p : rstring)
  (data : list Z)
  (Hlow : to_lowercase (rsplit_first c_slash p) = rsplit_first c_slash p)
  (H : Pypi.validate to_lowercase p data = Ok tt) :
  exists m, Pypi.parse_metadata p data = Ok m /\
    (content_type m = lit "application/zip" \/ content_type m = lit "application/gzip") /\
    metadata_version m <> None.
Proof.
  unfold Pypi.validate in H. cbv zeta in H. rewrite Hlow in H.
  destruct (Nat.eqb (length data) 0) eqn:E0; [discriminate|].
  destruct (Nat.eqb (length p) 0); [discriminate|].
  destruct data as [|b d]; [discriminate|].
  unfold Pypi.parse_metadata, Pypi.extract_version. cbv zeta.
  unfold ends_with in *.
  set (f := rsplit_first c_slash p) in *.
  destruct (strip_suffix (lit ".whl") f) as [stem|] eqn:Ew.
  - destruct (Nat.ltb (length (split c_dash stem)) 5) eqn:El; [discriminate H|].
    apply Nat.ltb_ge in El.
    assert (E2 : Nat.leb 2 (length (split c_dash stem)) = true) by (apply Nat.leb_le; lia).
    rewrite E2. eexists. split; [reflexivity|]. cbn. split; [left; reflexivity|discriminate].
  - destruct (strip_suffix (lit ".tar.gz") f) as [stem|] eqn:Et.
    + destruct (contains c_dash stem) eqn:Ec; [|discriminate H].
      destruct (rsplit_once c_dash stem) as [[l r]|] eqn:Er.
      * destruct (strip_suffix (lit ".zip") f); eexists; (split; [reflexivity|]);
          cbn; (split; [auto|discriminate]).
      * exfalso. exact (rsplit_once_none _ _ Er (contains_in _ _ Ec)).
    + destruct (strip_suffix (lit ".zip") f) as [stem|] eqn:Ez; [|discriminate H].
      destruct (contains c_dash stem) eqn:Ec; [|discriminate H].
      destruct (rsplit_once c_dash stem) as [[l r]|] eqn:Er.
      * eexists. split; [reflexivity|]. cbn. split; [auto|discriminate].
      * exfalso. exact (rsplit_once_none _ _ Er (contains_in _ _ Ec)).
Qed.

(** ** Equivalent project names *)

Lemma collapse_nonalnum_run (R B : rstring) :
  forallb (fun c => negb (is_ascii_alphanumeric c)) R = true ->
  Pypi.collapse true (R ++ B) = Pypi.collapse true B.
Proof.
  induction R as [|r R IH]; intros HR; [reflexivity|].
  cbn [forallb] in HR. apply andb_true_iff in HR as [Hr HR]. apply negb_true_iff in Hr.
  cbn [app Pypi.collapse]. rewrite Hr. cbn [negb]. now apply IH.
Qed.

Lemma collapse_run (A : rstring) : forall b R B,
  R <> [] -> forallb (fun c => negb (is_ascii_alphanumeric c)) R = true ->
  Pypi.collapse b (A ++ R ++ B) = Pypi.collapse b (A ++ [c_dash] ++ B).
Proof.
  induction A as [|x A IH]; intros b R B Hne HR.
  - destruct R as [|r R']; [contradiction|].
    cbn [forallb] in HR. apply andb_true_iff in HR as [Hr HR]. apply negb_true_iff in Hr.
    cbn [app Pypi.collapse]. rewrite Hr.
    change (is_ascii_alphanumeric c_dash) with false. cbn iota.
    destruct b; cbn [negb]; rewrite (collapse_nonalnum_run R' B HR); reflexivity.
  - cbn [app Pypi.collapse].
    rewrite (IH false R B Hne HR), (IH true R B Hne HR), (IH b R B Hne HR). reflexivity.
Qed.

Lemma ascii_lower_nonalnum (c : Z) :
  is_ascii_alphanumeric c = false -> ascii_lower c = c.
Proof.
  unfold is_ascii_alphanumeric, is_ascii_alphabetic, ascii_lower.
  intros H. apply orb_false_iff in H as [_ H]. apply orb_false_iff in H as [_ H].
  now rewrite H.
Qed.

Lemma map_ascii_lower_nonalnum (r : rstring) :
  forallb (fun c => negb (is_ascii_alphanumeric c)) r = true -> map ascii_lower r = r.
Proof.
  induction r as [|c r IH]; intros H; [reflexivity|].
  cbn [forallb] in H. apply andb_true_iff in H as [Hc H]. apply negb_true_iff in Hc.
  cbn [map]. now rewrite ascii_lower_nonalnum, IH.
Qed.

(** For ASCII project names, [normalize_package_name] identifies names that
    differ in ASCII case, and treats any run of characters other than ASCII
    letters and digits (such as ['_'], ['.'], ['-'] or ['~']) as one ['-'];
    this holds for any lowercase mapping that folds ASCII text as ASCII,
    as Rust's [str::to_lowercase] does. *)
Theorem pypi_normalize_ascii_equivalence (to_lowercase : rstring -> rstring)
  (Hascii : forall s, forallb is_ascii s = true -> to_lowercase s = map ascii_lower s) :
  (forall s1 s2, forallb is_ascii s1 = true -> forallb is_ascii s2 = true ->
     map ascii_lower s1 = map ascii_lower s2 ->
     Pypi.normalize_package_name to_lowercase s1
     = Pypi.normalize_package_name to_lowercase s2) /\
  (forall a r b, forallb is_ascii (a ++ r ++ b) = true -> r <> [] ->
     forallb (fun c => negb (is_ascii_alphanumeric c)) r = true ->
     Pypi.normalize_package_name to_lowercase (a ++ r ++ b)
     = Pypi.normalize_package_name to_lowercase (a ++ lit "-" ++ b)).
Proof.
  split.
  - intros s1 s2 H1 H2 E. unfold Pypi.normalize_package_name.
    now rewrite (Hascii s1 H1), (Hascii s2 H2), E.
  - intros a r b Ha Hne Hr. unfold Pypi.normalize_package_name.
    assert (Ha' : forallb is_ascii (a ++ lit "-" ++ b) = true).
    { rewrite !forallb_app in *. apply andb_true_iff in Ha as [Ha1 Ha2].
      apply andb_true_iff in Ha2 as [_ Ha3]. now rewrite Ha1, Ha3. }
    rewrite (Hascii _ Ha), (Hascii _ Ha'), !map_app.
    change (map ascii_lower (lit "-")) with [c_dash].
    rewrite (map_ascii_lower_nonalnum r Hr).
    now rewrite collapse_run.
Qed.

(** ** Witnesses: the hypotheses of the properties above hold on concrete inputs *)

Lemma rpm_repodata_gz_decodes_witness :
  Forall (fun a => code_points (path a) /\ 0 <= size_bytes a /\
                   forall s, checksum_sha256 a = Some s -> code_points s)
    [mkMetadata (lit "Packages/hello-2.10-1.el9.x86_64.rpm") (Some (lit "2.10-1.el9"))
       (lit "application/x-rpm") 1024 (Some (lit "ab12"))] /\
  exists resp,
    Rpm.handle_primary_xml_gz (mkRepoContext (lit "https://repo.example/rpm") (lit "https://repo.example/dl"))
      [mkMetadata (lit "Packages/hello-2.10-1.el9.x86_64.rpm") (Some (lit "2.10-1.el9"))
         (lit "application/x-rpm") 1024 (Some (lit "ab12"))] = Ok resp /\
    status resp = 200 /\ Gzip.gunzip (body resp) <> None.
Proof.
  assert (H : Forall (fun a => code_points (path a) /\ 0 <= size_bytes a /\
                   forall s, checksum_sha256 a = Some s -> code_points s)
    [mkMetadata (lit "Packages/hello-2.10-1.el9.x86_64.rpm") (Some (lit "2.10-1.el9"))
       (lit "application/x-rpm") 1024 (Some (lit "ab12"))]).
  { constructor; [|constructor]. split; [apply lit_code_points|split; [cbn; lia|]].
    intros s E. injection E as <-. apply lit_code_points. }
  split; [exact H|].
  destruct (rpm_repodata_gz_decodes
              (mkRepoContext (lit "https://repo.example/rpm") (lit "https://repo.example/dl"))
              _ H) as [(resp & E & S & _ & D) _].
  exists resp. split; [exact E|split; [exact S|]]. rewrite D. discriminate.
Defined.

Lemma rpm_filename_fields_roundtrip_witness :
  ~ In c_dash (lit "2.10") /\ ~ In c_dash (lit "1.el9") /\ ~ In c_dot (lit "x86_64") /\
  Rpm.parse_rpm_filename (lit "python3-numpy" ++ lit "-" ++ lit "2.10" ++ lit "-" ++ lit "1.el9"
                          ++ lit "." ++ lit "x86_64" ++ lit ".rpm")
  = Rpm.mkRpmFileInfo (Some (lit "python3-numpy")) (Some (lit "2.10")) (Some (lit "1.el9"))
      (Some (lit "x86_64")).
Proof.
  assert (H1 : ~ In c_dash (lit "2.10")) by (intros H; vm_compute in H; intuition discriminate).
  assert (H2 : ~ In c_dash (lit "1.el9")) by (intros H; vm_compute in H; intuition discriminate).
  assert (H3 : ~ In c_dot (lit "x86_64")) by (intros H; vm_compute in H; intuition discriminate).
  split; [exact H1|split; [exact H2|split; [exact H3|]]].
  exact (proj1 (rpm_filename_fields_roundtrip (lit "python3-numpy") _ _ _ H1 H2 H3)).
Defined.

Lemma pypi_sdist_filename_roundtrip_witness :
  ~ In c_dash (lit "1.0") /\
  Pypi.extract_package_name (lit "my-pkg" ++ lit "-" ++ lit "1.0" ++ lit ".tar.gz")
  = Some (lit "my-pkg") /\
  Pypi.extract_version (lit "my-pkg" ++ lit "-" ++ lit "1.0" ++ lit ".zip") = Some (lit "1.0").
Proof.
  assert (H : ~ In c_dash (lit "1.0")) by (intros H; vm_compute in H; intuition discriminate).
  destruct (pypi_sdist_filename_roundtrip (lit "my-pkg") _ H) as [[E1 _] [_ E2]].
  split; [exact H|split; [exact E1|exact E2]].
Defined.

Lemma pypi_wheel_filename_roundtrip_witness :
  ~ In c_dash (lit "numpy") /\ ~ In c_dash (lit "1.26.0") /\
  Pypi.extract_package_name
    (lit "numpy" ++ lit "-" ++ lit "1.26.0" ++ lit "-" ++ lit "cp312-cp312-manylinux_x86_64"
     ++ lit ".whl") = Some (lit "numpy") /\
  Pypi.extract_version
    (lit "numpy" ++ lit "-" ++ lit "1.26.0" ++ lit "-" ++ lit "cp312-cp312-manylinux_x86_64"
     ++ lit ".whl") = Some (lit "1.26.0").
Proof.
  assert (H1 : ~ In c_dash (lit "numpy")) by (intros H; vm_compute in H; intuition discriminate).
  assert (H2 : ~ In c_dash (lit "1.26.0")) by (intros H; vm_compute in H; intuition discriminate).
  split; [exact H1|split; [exact H2|]].
  exact (pypi_wheel_filename_roundtrip _ _ (lit "cp312-cp312-manylinux_x86_64") H1 H2).
Defined.

Lemma pypi_simple_project_same_normalization_witness :
  let ctx := mkRepoContext (lit "https://repo.example/pypi") (lit "https://repo.example/dl") in
  let arts := [mkMetadata (lit "dist/foo_bar-1.0.tar.gz") (Some (lit "1.0"))
                 (lit "application/gzip") 10 None] in
  Pypi.normalize_package_name (map ascii_lower) (lit "Foo_Bar")
  = Pypi.normalize_package_name (map ascii_lower) (lit "foo.bar") /\
  (exists a n, In a arts /\
     Pypi.extract_package_name (rsplit_first c_slash (path a)) = Some n /\
     Pypi.normalize_package_name (map ascii_lower) n
     = Pypi.normalize_package_name (map ascii_lower) (lit "Foo_Bar")) /\
  Pypi.handle_simple_project (map ascii_lower) (lit "Foo_Bar") ctx arts
  = Pypi.handle_simple_project (map ascii_lower) (lit "foo.bar") ctx arts.
Proof.
  cbv zeta.
  assert (Hn : Pypi.normalize_package_name (map ascii_lower) (lit "Foo_Bar")
               = Pypi.normalize_package_name (map ascii_lower) (lit "foo.bar"))
    by (vm_compute; reflexivity).
  assert (Hf : exists a n,
     In a [mkMetadata (lit "dist/foo_bar-1.0.tar.gz") (Some (lit "1.0"))
             (lit "application/gzip") 10 None] /\
     Pypi.extract_package_name (rsplit_first c_slash (path a)) = Some n /\
     Pypi.normalize_package_name (map ascii_lower) n
     = Pypi.normalize_package_name (map ascii_lower) (lit "Foo_Bar")).
  { eexists. exists (lit "foo_bar"). split; [left; reflexivity|].
    split; vm_compute; reflexivity. }
  split; [exact Hn|split; [exact Hf|]].
  exact (pypi_simple_project_same_normalization _ _ _ _ _ Hn Hf).
Defined.

Lemma pypi_simple_project_route_witness :
  let ctx := mkRepoContext (lit "https://repo.example/pypi") (lit "https://repo.example/dl") in
  (lit "GET" = lit "GET" \/ lit "GET" = lit "HEAD") /\ lit "foo-bar" <> [] /\
  ~ In c_slash (lit "foo-bar") /\
  Pypi.handle_request (map ascii_lower)
    (mkHttpRequest (lit "GET") (lit "/simple/" ++ lit "foo-bar" ++ lit "/")) ctx []
  = Pypi.handle_simple_project (map ascii_lower) (lit "foo-bar") ctx [].
Proof.
  cbv zeta.
  assert (Hs : ~ In c_slash (lit "foo-bar")) by (intros H; vm_compute in H; intuition discriminate).
  split; [left; reflexivity|split; [discriminate|split; [exact Hs|]]].
  exact (proj2 (pypi_simple_project_route (map ascii_lower) (lit "GET") (lit "foo-bar") _ []
                  (or_introl eq_refl) ltac:(discriminate) Hs)).
Defined.

Lemma rpm_validate_content_type_witness :
  Rpm.validate (map ascii_lower) (lit "Packages/hello-1.0-1.x86_64.rpm")
    (Rpm.RPM_MAGIC ++ repeat 0 92) = Ok tt /\
  exists m, Rpm.parse_metadata (lit "Packages/hello-1.0-1.x86_64.rpm") (Rpm.RPM_MAGIC ++ repeat 0 92)
            = Ok m /\ content_type m = lit "application/x-rpm".
Proof.
  assert (H : Rpm.validate (map ascii_lower) (lit "Packages/hello-1.0-1.x86_64.rpm")
                (Rpm.RPM_MAGIC ++ repeat 0 92) = Ok tt) by (vm_compute; reflexivity).
  split; [exact H|exact (rpm_validate_content_type _ _ _ H)].
Defined.

Lemma unity_validate_content_type_witness :
  Unity.validate (map ascii_lower) (lit "Assets/Tool-1.2.0.unitypackage") [31; 139; 8; 0] = Ok tt /\
  exists m, Unity.parse_metadata (lit "Assets/Tool-1.2.0.unitypackage") [31; 139; 8; 0] = Ok m /\
            content_type m = lit "application/gzip".
Proof.
  assert (H : Unity.validate (map ascii_lower) (lit "Assets/Tool-1.2.0.unitypackage")
                [31; 139; 8; 0] = Ok tt) by (vm_compute; reflexivity).
  split; [exact H|exact (unity_validate_content_type _ _ _ H)].
Defined.

Lemma pypi_validate_metadata_witness :
  map ascii_lower (rsplit_first c_slash (lit "dist/foo-1.0.zip"))
  = rsplit_first c_slash (lit "dist/foo-1.0.zip") /\
  Pypi.validate (map ascii_lower) (lit "dist/foo-1.0.zip") [80; 75] = Ok tt /\
  exists m, Pypi.parse_metadata (lit "dist/foo-1.0.zip") [80; 75] = Ok m /\
    (content_type m = lit "application/zip" \/ content_type m = lit "application/gzip") /\
    metadata_version m <> None.
Proof.
  assert (Hl : map ascii_lower (rsplit_first c_slash (lit "dist/foo-1.0.zip"))
               = rsplit_first c_slash (lit "dist/foo-1.0.zip")) by (vm_compute; reflexivity).
  assert (H : Pypi.validate (map ascii_lower) (lit "dist/foo-1.0.zip") [80; 75] = Ok tt)
    by (vm_compute; reflexivity).
  split; [exact Hl|split; [exact H|exact (pypi_validate_metadata _ _ _ Hl H)]].
Defined.

Lemma pypi_normalize_ascii_equivalence_witness :
  (forall s, forallb is_ascii s = true -> map ascii_lower s = map ascii_lower s) /\
  Pypi.normalize_package_name (map ascii_lower) (lit "Foo" ++ lit "_." ++ lit "Bar")
  = Pypi.normalize_package_name (map ascii_lower) (lit "Foo" ++ lit "-" ++ lit "Bar").
Proof.
  split; [reflexivity|].
  apply (proj2 (pypi_normalize_ascii_equivalence (map ascii_lower) (fun s _ => eq_refl)));
    [vm_compute; reflexivity|discriminate|vm_compute; reflexivity].
Defined.
